(** * KnowThis: retrieval core, embedded in Rocq

    A shallow embedding of the retrieval-and-grounding core of the KnowThis
    service (Go): the Slack text normalizer, the thread chunker, the two
    persistent stores (documents and Slack messages with thread embeddings),
    the embedding backlog processors and the RAG query path; and, around
    this core, the Slab webhook handler, the batch call of the embedding
    service and the Slack handler that collects a thread.

    Conventions.
    - A Go [string] is a sequence of bytes: [gostring := list byte].  [len]
      is the number of bytes.
    - [float32]/[float64] values are binary64 primitive floats (every
      float32 is a binary64 value).
    - SQL statements are functions on tables (lists of rows, in insertion
      order).  A statement fails only where the relational schema makes it
      fail: a unique index, the primary key, a negative [LIMIT], and, in
      [UpdateEmbedding], the dimension of the column
      [documents.embedding vector(1536)], to which the code writes a vector
      of its own making.  The other type checks of a column (the length of
      a [VARCHAR], the dimension of the vectors handed to [StoreDocument]
      and [StoreThreadEmbedding]) and loss of the connection are not
      modelled.
    - [GetThreadsWithoutEmbeddings] is modelled as the grouped query its
      text stands for; PostgreSQL does not accept the text as it is
      written (see the definition).
    - External providers (embedding, chat completion) are functions handed
      to the code; every call is recorded in a log. *)

From Stdlib Require Import Strings.Byte Strings.String DecimalString.
From Stdlib Require Import ZArith List Bool Lia Arith.
From Stdlib Require Import PrimFloat Uint63.
Import ListNotations.

Set Implicit Arguments.

(* ================================================================== *)
(** * Part I: definitions                                              *)
(* ================================================================== *)

(** ** Go strings and the functions of package [strings] the code uses *)

Module GoStrings.

Definition gostring := list byte.

(** A literal of the source, as its bytes. *)
Definition str (s : string) : gostring := list_byte_of_string s.
Arguments str s%_string.

Definition len (s : gostring) : Z := Z.of_nat (length s).

Definition beq (a b : byte) : bool := Byte.eqb a b.

Fixpoint streq (a b : gostring) : bool :=
  match a, b with
  | [], [] => true
  | x :: a', y :: b' => beq x y && streq a' b'
  | _, _ => false
  end.

(** [s[i:]], [s[:j]] and [s[i:j]] for indices in range. *)
Definition sliceFrom (s : gostring) (i : Z) : gostring := skipn (Z.to_nat i) s.
Definition sliceTo (s : gostring) (j : Z) : gostring := firstn (Z.to_nat j) s.

(** *** White space, as [unicode.IsSpace] sees it in UTF-8

    U+0009..U+000D and U+0020 take one byte; U+0085 and U+00A0 two;
    U+1680, U+2000..U+200A, U+2028, U+2029, U+202F, U+205F and U+3000 three.
    A lead byte never occurs inside another rune, so a white-space rune
    is recognised wherever its bytes occur. *)

Definition isSpace1 (a : byte) : bool :=
  match a with
  | x09 | x0a | x0b | x0c | x0d | x20 => true
  | _ => false
  end.

Definition inRange (lo hi c : byte) : bool :=
  (Byte.to_N lo <=? Byte.to_N c)%N && (Byte.to_N c <=? Byte.to_N hi)%N.

Definition isSpace2 (a b : byte) : bool :=
  beq a xc2 && (beq b x85 || beq b xa0).

Definition isSpace3 (a b c : byte) : bool :=
  (beq a xe1 && (beq b x9a && beq c x80))
  || (beq a xe2 && (beq b x80 &&
        (inRange x80 x8a c || beq c xa8 || beq c xa9 || beq c xaf)))
  || (beq a xe2 && (beq b x81 && beq c x9f))
  || (beq a xe3 && (beq b x80 && beq c x80)).

(** Number of bytes of the white-space rune [s] starts with; 0 if none. *)
Definition spaceWidth (s : gostring) : nat :=
  match s with
  | [] => 0
  | a :: r =>
      if isSpace1 a then 1 else
      match r with
      | [] => 0
      | b :: r' =>
          if isSpace2 a b then 2 else
          match r' with
          | [] => 0
          | c :: _ => if isSpace3 a b c then 3 else 0
          end
      end
  end%nat.

(** The same, reading a reversed string: the white-space rune [rev r]
    ends with ([utf8.DecodeLastRuneInString]). *)
Definition spaceWidthRev (r : gostring) : nat :=
  match r with
  | [] => 0
  | c :: r1 =>
      if isSpace1 c then 1 else
      match r1 with
      | [] => 0
      | b :: r2 =>
          if isSpace2 b c then 2 else
          match r2 with
          | [] => 0
          | a :: _ => if isSpace3 a b c then 3 else 0
          end
      end
  end%nat.

(** Drop leading runes recognised by [width]; [skip] counts the bytes of
    the rune being dropped that are still ahead. *)
Fixpoint trimWith (width : gostring -> nat) (skip : nat) (s : gostring)
  : gostring :=
  match s with
  | [] => []
  | _ :: t =>
      match skip with
      | S k => trimWith width k t
      | O =>
          match width s with
          | O => s
          | S k => trimWith width k t
          end
      end
  end.

Definition trimLeft (s : gostring) : gostring := trimWith spaceWidth 0 s.
Definition trimRight (s : gostring) : gostring :=
  rev (trimWith spaceWidthRev 0 (rev s)).

(** [strings.TrimSpace] *)
Definition TrimSpace (s : gostring) : gostring := trimRight (trimLeft s).

(** [strings.Fields]: the maximal runs of bytes outside white-space runes.
    [fieldsR skip s] returns the run [s] starts with (empty at white space)
    and the fields after it. *)
Definition pushField (w : gostring) (ws : list gostring) : list gostring :=
  match w with
  | [] => ws
  | _ :: _ => w :: ws
  end.

Fixpoint fieldsR (skip : nat) (s : gostring) : gostring * list gostring :=
  match s with
  | [] => ([], [])
  | b :: t =>
      match skip with
      | S k => let (w, ws) := fieldsR k t in ([], pushField w ws)
      | O =>
          match spaceWidth s with
          | O => let (w, ws) := fieldsR 0 t in (b :: w, ws)
          | S k => let (w, ws) := fieldsR k t in ([], pushField w ws)
          end
      end
  end.

Definition Fields (s : gostring) : list gostring :=
  let (w, ws) := fieldsR 0 s in pushField w ws.

(** [strings.Join] *)
Fixpoint Join (elems : list gostring) (sep : gostring) : gostring :=
  match elems with
  | [] => []
  | [w] => w
  | w :: rest => w ++ sep ++ Join rest sep
  end.

Fixpoint HasPrefix (s prefix : gostring) : bool :=
  match prefix, s with
  | [], _ => true
  | p :: prefix', c :: s' => beq p c && HasPrefix s' prefix'
  | _ :: _, [] => false
  end.

Fixpoint indexFrom (i : Z) (s substr : gostring) : Z :=
  if HasPrefix s substr then i
  else match s with
       | [] => -1
       | _ :: t => indexFrom (i + 1) t substr
       end.

(** [strings.Index]: first position of [substr], or -1. *)
Definition Index (s substr : gostring) : Z := indexFrom 0 s substr.

(** [strings.Contains] *)
Definition Contains (s substr : gostring) : bool := (0 <=? Index s substr)%Z.

Definition lowerByte (b : byte) : byte :=
  match b with
  | x41 => x61 | x42 => x62 | x43 => x63 | x44 => x64 | x45 => x65
  | x46 => x66 | x47 => x67 | x48 => x68 | x49 => x69 | x4a => x6a
  | x4b => x6b | x4c => x6c | x4d => x6d | x4e => x6e | x4f => x6f
  | x50 => x70 | x51 => x71 | x52 => x72 | x53 => x73 | x54 => x74
  | x55 => x75 | x56 => x76 | x57 => x77 | x58 => x78 | x59 => x79
  | x5a => x7a
  | _ => b
  end.

(** [%d] of [fmt.Sprintf] *)
Definition itoa (z : Z) : gostring := str (NilZero.string_of_int (Z.to_int z)).

(** [strings.ToLower] on ASCII text, which is what the quality patterns
    are written in.  Bytes above 0x7f are left as they are (Go maps
    non-ASCII letters through the Unicode tables). *)
Definition ToLower (s : gostring) : gostring := map lowerByte s.

End GoStrings.

Import GoStrings.

(** ** [crypto/sha256] and the [%x] rendering of a digest *)

Module Sha256.

Local Open Scope Z_scope.

Definition w32 (x : Z) : Z := Z.land x 0xffffffff.
Definition add32 (a b : Z) : Z := w32 (a + b).
Definition rotr (n x : Z) : Z :=
  Z.lor (Z.shiftr x n) (w32 (Z.shiftl x (32 - n))).
Definition not32 (x : Z) : Z := Z.lxor x 0xffffffff.

Definition Ch (x y z : Z) : Z := Z.lxor (Z.land x y) (Z.land (not32 x) z).
Definition Maj (x y z : Z) : Z :=
  Z.lxor (Z.lxor (Z.land x y) (Z.land x z)) (Z.land y z).
Definition bigSigma0 (x : Z) : Z :=
  Z.lxor (Z.lxor (rotr 2 x) (rotr 13 x)) (rotr 22 x).
Definition bigSigma1 (x : Z) : Z :=
  Z.lxor (Z.lxor (rotr 6 x) (rotr 11 x)) (rotr 25 x).
Definition smallSigma0 (x : Z) : Z :=
  Z.lxor (Z.lxor (rotr 7 x) (rotr 18 x)) (Z.shiftr x 3).
Definition smallSigma1 (x : Z) : Z :=
  Z.lxor (Z.lxor (rotr 17 x) (rotr 19 x)) (Z.shiftr x 10).

(** The constants of FIPS 180-4: the first 32 bits of the fractional parts
    of the cube roots of the first 64 primes, and of the square roots of
    the first 8 primes for the initial hash value. *)
Definition isPrime (n : Z) : bool :=
  forallb (fun d => negb (n mod Z.of_nat d =? 0)) (seq 2 (Z.to_nat n - 2)).

Definition primes (count : nat) : list Z :=
  firstn count (filter isPrime (map Z.of_nat (seq 2 310))).

(** The largest [r + x] with [x < 2 ^ bits] whose cube is at most [n]. *)
Fixpoint cubeRoot (bits : nat) (r n : Z) : Z :=
  match bits with
  | O => r
  | S k =>
      let r' := r + 2 ^ Z.of_nat k in
      if r' * r' * r' <=? n then cubeRoot k r' n else cubeRoot k r n
  end.

Definition K : list Z :=
  map (fun p => w32 (cubeRoot 36 0 (Z.shiftl p 96))) (primes 64).

Definition H0 : list Z :=
  map (fun p => w32 (Z.sqrt (Z.shiftl p 64))) (primes 8).

Definition byteZ (b : byte) : Z := Z.of_N (Byte.to_N b).
Definition Zbyte (z : Z) : byte :=
  match Byte.of_N (Z.to_N (Z.land z 0xff)) with
  | Some b => b
  | None => x00
  end.

(** Big-endian bytes of the low [8 * n] bits of [z]. *)
Fixpoint bigEndian (n : nat) (z : Z) : list byte :=
  match n with
  | O => []
  | S k => Zbyte (Z.shiftr z (8 * Z.of_nat k)) :: bigEndian k z
  end.

(** The message, the byte 0x80, zeros up to 56 modulo 64, and the length in
    bits on eight bytes. *)
Definition pad (m : list byte) : list byte :=
  let l := Z.of_nat (length m) in
  let zeros := Z.to_nat ((55 - l) mod 64) in
  m ++ x80 :: repeat x00 zeros ++ bigEndian 8 (8 * l).

Fixpoint words (n : nat) (bs : list byte) : list Z :=
  match n, bs with
  | S k, a :: b :: c :: d :: rest =>
      (Z.shiftl (byteZ a) 24 + Z.shiftl (byteZ b) 16
       + Z.shiftl (byteZ c) 8 + byteZ d) :: words k rest
  | _, _ => []
  end.

(** The message schedule, most recent word first. *)
Fixpoint schedule (n : nat) (w : list Z) : list Z :=
  match n with
  | O => w
  | S k =>
      let t := add32 (add32 (smallSigma1 (nth 1 w 0)) (nth 6 w 0))
                     (add32 (smallSigma0 (nth 14 w 0)) (nth 15 w 0)) in
      schedule k (t :: w)
  end.

Definition round (st : list Z) (kw : Z * Z) : list Z :=
  match st with
  | [a; b; c; d; e; f; g; h] =>
      let t1 := add32 (add32 (add32 h (bigSigma1 e)) (Ch e f g))
                      (add32 (fst kw) (snd kw)) in
      let t2 := add32 (bigSigma0 a) (Maj a b c) in
      [add32 t1 t2; a; b; c; add32 d t1; e; f; g]
  | _ => st
  end.

Fixpoint add32s (xs ys : list Z) : list Z :=
  match xs, ys with
  | x :: xs', y :: ys' => add32 x y :: add32s xs' ys'
  | _, _ => []
  end.

Definition block (h : list Z) (bs : list byte) : list Z :=
  let w := rev (schedule 48 (rev (words 16 bs))) in
  add32s h (fold_left round (combine K w) h).

Fixpoint blocks (n : nat) (h : list Z) (bs : list byte) : list Z :=
  match n with
  | O => h
  | S k => blocks k (block h (firstn 64 bs)) (skipn 64 bs)
  end.

(** [sha256.Sum256] *)
Definition Sum256 (m : list byte) : list byte :=
  let p := pad m in
  flat_map (bigEndian 4) (blocks (length p / 64) H0 p).

Definition hexDigit (z : Z) : byte :=
  if z <? 10 then Zbyte (48 + z) else Zbyte (87 + z).

(** [fmt.Sprintf("%x", hash)] *)
Definition hex (bs : list byte) : gostring :=
  flat_map (fun b => [hexDigit (Z.shiftr (byteZ b) 4);
                      hexDigit (Z.land (byteZ b) 15)]) bs.

End Sha256.

(** [storage.HashContent], [slack.hashContent] and
    [EmbeddingProcessor.hashContent] are the same function. *)
Definition HashContent (content : gostring) : gostring :=
  Sha256.hex (Sha256.Sum256 content).

Definition hashContent := HashContent.

Arguments HashContent content : simpl never.
Arguments hashContent content : simpl never.

(** ** Content normalizer: [SlackHandler.cleanMessageText] *)

Module Normalizer.

(** One turn of a loop
    [for strings.Contains(text, marker) { start := strings.Index(text, marker);
     end := strings.Index(text[start:], ">"); if end == -1 { break };
     text = text[:start] + text[start+end+1:] }]:
    [Some] of the new text, or [None] when the loop is left. *)
Definition stripOnce (marker text : gostring) : option gostring :=
  if Contains text marker then
    let start := Index text marker in
    let end_ := Index (sliceFrom text start) (str ">") in
    if (end_ =? -1)%Z then None
    else Some (sliceTo text start ++ sliceFrom text (start + end_ + 1))
  else None.

(** The loop.  Every turn removes at least the closing [>], so [length text]
    turns are enough ([stripAll_done] below). *)
Fixpoint stripAll (fuel : nat) (marker text : gostring) : gostring :=
  match fuel with
  | O => text
  | S k =>
      match stripOnce marker text with
      | None => text
      | Some text' => stripAll k marker text'
      end
  end.

Definition cleanMessageText (text : gostring) : gostring :=
  let text := stripAll (length text) (str "<@") text in
  let text := stripAll (length text) (str "<#") text in
  TrimSpace text.

End Normalizer.

(** ** Chunker: [EmbeddingProcessor.chunkContent] *)

Module Chunker.

Definition maxWordsPerChunk : nat := 7000.

(** [for i := 0; i < len(words); i += max { end := i + max;
     if end > len(words) { end = len(words) };
     chunks = append(chunks, strings.Join(words[i:end], " ")) }].
    [fuel] bounds the number of turns; [length words] is enough when
    [max] is positive. *)
Fixpoint chunkLoop (fuel : nat) (max i : nat) (words : list gostring)
  : list gostring :=
  match fuel with
  | O => []
  | S k =>
      if i <? length words then
        let end_ := if length words <? i + max then length words
                    else i + max in
        Join (firstn (end_ - i) (skipn i words)) (str " ")
          :: chunkLoop k max (i + max) words
      else []
  end.

Definition chunkWith (max : nat) (content : gostring) : list gostring :=
  let words := Fields content in
  if length words <=? max then [content]
  else chunkLoop (length words) max 0 words.

Definition chunkContent (content : gostring) : list gostring :=
  chunkWith maxWordsPerChunk content.

End Chunker.

(** ** The world the code runs in: tables, fresh ids, provider calls *)

(** [[]float32] *)
Definition vector := list float.

(** Instants ([time.Time], [TIMESTAMP WITH TIME ZONE]).  [NOW()] is an
    argument of every operation that reads it. *)
Definition time := Z.
Bind Scope Z_scope with time.

(** Go [error] values; [Wrapped ctx e] is [fmt.Errorf(ctx + ": %w", e)]. *)
Inductive error : Type :=
| Msg (text : gostring)
| UniqueViolation (constraint : gostring)
| NegativeLimit
| DimensionMismatch (expected given : nat)
| ProviderFailure
| Wrapped (context : gostring) (cause : error).

(** Row of table [documents]. *)
Record DocRow : Type := mkDocRow {
  id : gostring;
  content : gostring;
  source : gostring;
  source_id : gostring;
  title : gostring;
  channel_id : gostring;
  post_id : gostring;
  user_id : gostring;
  user_name : gostring;
  timestamp : time;
  content_hash : gostring;
  embedding : option vector;
  created_at : time;
  updated_at : time }.

(** [slack.SlackMessage]; also the row of table [slack_messages]. *)
Record SlackMessage : Type := mkSlackMessage {
  ID : Z;
  ChannelID : gostring;
  ThreadID : gostring;
  MessageTimestamp : gostring;
  UserID : gostring;
  UserName : gostring;
  Content : gostring;
  ContentHash : gostring;
  ClientMsgID : gostring;
  IsThreadRoot : bool;
  CreatedAt : time;
  UpdatedAt : time }.

(** Row of table [slack_thread_embeddings]. *)
Record ThreadEmbedding : Type := mkThreadEmbedding {
  te_id : Z;
  te_thread_id : gostring;
  te_chunk_index : Z;
  te_content_hash : gostring;
  te_embedding : option vector;
  te_created_at : time }.

(** A request sent to an external provider. *)
Inductive Call : Type :=
| EmbeddingCall (input : gostring)
| ChatCall (systemPrompt userPrompt : gostring).

Record World : Type := mkWorld {
  documents : list DocRow;
  slack_messages : list SlackMessage;
  slack_thread_embeddings : list ThreadEmbedding;
  next_uuid : Z;               (* [gen_random_uuid()]: the next fresh id *)
  calls : list Call }.         (* provider calls so far, oldest first *)

Definition emptyWorld : World := mkWorld [] [] [] 0 [].

Definition setDocuments (w : World) (d : list DocRow) : World :=
  mkWorld d (slack_messages w) (slack_thread_embeddings w) (next_uuid w)
          (calls w).
Definition setSlackMessages (w : World) (m : list SlackMessage) : World :=
  mkWorld (documents w) m (slack_thread_embeddings w) (next_uuid w) (calls w).
Definition setThreadEmbeddings (w : World) (e : list ThreadEmbedding)
  : World :=
  mkWorld (documents w) (slack_messages w) e (next_uuid w) (calls w).
Definition setNextUuid (w : World) (n : Z) : World :=
  mkWorld (documents w) (slack_messages w) (slack_thread_embeddings w) n
          (calls w).
Definition setCalls (w : World) (c : list Call) : World :=
  mkWorld (documents w) (slack_messages w) (slack_thread_embeddings w)
          (next_uuid w) c.

(** The external providers: the embeddings endpoint answers with the list
    [resp.Data] of vectors, the chat endpoint with the texts of
    [resp.Choices]; [None] is a failed call. *)
Record Providers : Type := mkProviders {
  createEmbeddings : gostring -> option (list vector);
  createChatCompletion : gostring -> gostring -> option (list gostring) }.

(** *** Computations that read and write the world and may fail *)

Definition M (A : Type) : Type := World -> (error + A) * World.

Definition ret {A} (a : A) : M A := fun w => (inr a, w).
Definition fail {A} (e : error) : M A := fun w => (inl e, w).
Definition bind {A B} (m : M A) (k : A -> M B) : M B :=
  fun w => match m w with
           | (inl e, w') => (inl e, w')
           | (inr a, w') => k a w'
           end.

Declare Scope go_scope.
Delimit Scope go_scope with go.
Notation "x <- m ;; k" := (bind m (fun x => k))
  (at level 61, m at next level, right associativity) : go_scope.
Notation "m ;;; k" := (bind m (fun _ => k))
  (at level 61, right associativity) : go_scope.
Local Open Scope go_scope.

(** [if err != nil { return fmt.Errorf(context + ": %w", err) }] *)
Definition wrap {A} (context : gostring) (m : M A) : M A :=
  fun w => match m w with
           | (inl e, w') => (inl (Wrapped context e), w')
           | (inr a, w') => (inr a, w')
           end.

(** [if err := m; err != nil { slog.Error(...); continue }] *)
Definition logAndContinue (m : M unit) : M unit :=
  fun w => (inr tt, snd (m w)).

Definition gets {A} (f : World -> A) : M A := fun w => (inr (f w), w).
Definition modify (f : World -> World) : M unit := fun w => (inr tt, f w).

Definition record (c : Call) : M unit :=
  modify (fun w => setCalls w (calls w ++ [c])).

Fixpoint forEach {A} (xs : list A) (body : A -> M unit) : M unit :=
  match xs with
  | [] => ret tt
  | x :: rest => body x ;;; forEach rest body
  end.

(** Stable insertion sort, the order of [ORDER BY]; rows that compare equal
    keep their table order. *)
Section Sort.
Variable A : Type.
Variable le : A -> A -> bool.
Fixpoint insertSorted (x : A) (l : list A) : list A :=
  match l with
  | [] => [x]
  | y :: l' => if le x y then x :: l else y :: insertSorted x l'
  end.
Definition sortBy (l : list A) : list A :=
  fold_right insertSorted [] l.
End Sort.

(** Order of [text] values: byte by byte. *)
Fixpoint strle (a b : gostring) : bool :=
  match a, b with
  | [], _ => true
  | _ :: _, [] => false
  | x :: a', y :: b' =>
      if (Byte.to_N x <? Byte.to_N y)%N then true
      else if (Byte.to_N y <? Byte.to_N x)%N then false
      else strle a' b'
  end.

(** [LIMIT n] *)
Definition limitRows {A} (n : Z) (rows : list A) : M (list A) :=
  if (n <? 0)%Z then fail NegativeLimit else ret (firstn (Z.to_nat n) rows).

(** ** [storage.Document], [storage.PostgresStore] *)

Module DocStore.

Record Document : Type := mkDocument {
  ID : gostring;
  Content : gostring;
  Source : gostring;
  SourceID : gostring;
  Title : gostring;
  ChannelID : gostring;
  PostID : gostring;
  UserID : gostring;
  UserName : gostring;
  Timestamp : time;
  ContentHash : gostring;
  Embedding : vector;
  Similarity : float;
  CreatedAt : time;
  UpdatedAt : time }.

(** The unique index [idx_documents_unique_content] on
    [(content_hash, source, source_id)]: does [r] conflict with [doc]? *)
Definition conflicts (doc : Document) (r : DocRow) : bool :=
  streq (content_hash r) (ContentHash doc)
  && streq (source r) (Source doc)
  && streq (source_id r) (SourceID doc).

(** [DO UPDATE SET content = EXCLUDED.content, title = EXCLUDED.title,
     updated_at = NOW()] *)
Definition updateOnConflict (now : time) (doc : Document) (r : DocRow)
  : DocRow :=
  mkDocRow (id r) (Content doc) (source r) (source_id r) (Title doc)
           (channel_id r) (post_id r) (user_id r) (user_name r) (timestamp r)
           (content_hash r) (embedding r) (created_at r) now.

(** The row [INSERT ... VALUES ($1, ..., $12)] proposes; [created_at] and
    [updated_at] take their default [NOW()].  An empty [doc.Embedding] is
    sent as NULL. *)
Definition proposedRow (now : time) (doc : Document) : DocRow :=
  mkDocRow (ID doc) (Content doc) (Source doc) (SourceID doc) (Title doc)
           (ChannelID doc) (PostID doc) (UserID doc) (UserName doc)
           (Timestamp doc) (ContentHash doc)
           (if (0 <? Z.of_nat (length (Embedding doc)))%Z
            then Some (Embedding doc)
            else None)
           now now.

(** [StoreDocument]: [INSERT ... ON CONFLICT (content_hash, source,
    source_id) DO UPDATE ... RETURNING id].  The conflict clause names the
    unique index only; a row that does not conflict there but repeats a
    primary key [id] violates [documents_pkey]. *)
Definition StoreDocument (now : time) (doc : Document) : M unit :=
  wrap (str "failed to store document")
    (rows <- gets documents ;;
     if existsb (conflicts doc) rows then
       modify (fun w => setDocuments w
         (map (fun r => if conflicts doc r then updateOnConflict now doc r
                        else r) rows))
     else if existsb (fun r => streq (id r) (ID doc)) rows then
       fail (UniqueViolation (str "documents_pkey"))
     else
       modify (fun w => setDocuments w (rows ++ [proposedRow now doc]))).

(** The column [embedding vector(1536)] of table [documents]. *)
Definition dimension : nat := 1536.

(** [UpdateEmbedding]: [UPDATE documents SET embedding = $1,
    updated_at = NOW() WHERE id = $2].  The value of [$1] is converted to
    the type of the column, [vector(1536)]: a vector of another dimension
    is refused ("expected 1536 dimensions, not ...") and no row is
    written. *)
Definition setEmbedding (now : time) (v : vector) (r : DocRow) : DocRow :=
  mkDocRow (id r) (content r) (source r) (source_id r) (title r)
           (channel_id r) (post_id r) (user_id r) (user_name r) (timestamp r)
           (content_hash r) (Some v) (created_at r) now.

Definition UpdateEmbedding (now : time) (documentID : gostring)
  (embedding : vector) : M unit :=
  wrap (str "failed to update embedding")
    (if negb (length embedding =? dimension) then
       fail (DimensionMismatch dimension (length embedding))
     else
       modify (fun w => setDocuments w
         (map (fun r => if streq (id r) documentID
                        then setEmbedding now embedding r else r)
              (documents w)))).

Definition hasEmbedding (r : DocRow) : bool :=
  match embedding r with Some _ => true | None => false end.

(** The fields [rows.Scan] fills in [GetDocumentsWithoutEmbeddings]; the
    others keep their zero value. *)
Definition scanDocument (r : DocRow) : Document :=
  mkDocument (id r) (content r) (source r) (source_id r) (title r)
             (channel_id r) (post_id r) (user_id r) (user_name r)
             (timestamp r) (content_hash r) [] 0%float 0%Z 0%Z.

(** [GetDocumentsWithoutEmbeddings]: [SELECT ... FROM documents WHERE
    embedding IS NULL ORDER BY created_at ASC LIMIT $1]. *)
Definition GetDocumentsWithoutEmbeddings (limit : Z) : M (list Document) :=
  wrap (str "failed to get documents without embeddings")
    (rows <- gets documents ;;
     picked <- limitRows limit
       (sortBy (fun a b => (created_at a <=? created_at b)%Z)
               (filter (fun r => negb (hasEmbedding r)) rows)) ;;
     ret (map scanDocument picked)).

End DocStore.

(** ** pgvector's cosine distance, the operator [<=>] *)

Module Pgvector.

Local Open Scope float_scope.

Fixpoint dot (a b : vector) : float :=
  match a, b with
  | x :: a', y :: b' => x * y + dot a' b'
  | _, _ => 0
  end.

(** [a <=> b]: one minus the cosine of the angle between [a] and [b], the
    cosine kept in [-1, 1]. *)
Definition cosine_distance (a b : vector) : float :=
  let similarity := dot a b / PrimFloat.sqrt (dot a a * dot b b) in
  let similarity :=
    if PrimFloat.ltb 1 similarity then 1
    else if PrimFloat.ltb similarity (-1) then -1
    else similarity in
  1 - similarity.

(** Order of [float8] values in [ORDER BY]: NaN sorts after every number. *)
Definition float_le (x y : float) : bool :=
  if PrimFloat.is_nan y then true
  else if PrimFloat.is_nan x then false
  else PrimFloat.leb x y.

End Pgvector.

(** ** [slack.SlackStorage] (thread embeddings) *)

Module SlackStore.

(** The unique index [idx_slack_unique_message] on
    [(channel_id, message_timestamp)]. *)
Definition sameMessage (msg r : SlackMessage) : bool :=
  streq (ChannelID r) (ChannelID msg)
  && streq (MessageTimestamp r) (MessageTimestamp msg).

(** [DO UPDATE SET content = EXCLUDED.content,
     content_hash = EXCLUDED.content_hash, updated_at = NOW()] *)
Definition updateOnConflict (now : time) (msg r : SlackMessage)
  : SlackMessage :=
  mkSlackMessage (ID r) (ChannelID r) (ThreadID r) (MessageTimestamp r)
                 (UserID r) (UserName r) (Content msg) (ContentHash msg)
                 (ClientMsgID r) (IsThreadRoot r) (CreatedAt r) now.

(** The inserted row: [id] from [gen_random_uuid()], both dates [NOW()]. *)
Definition insertedRow (now : time) (uuid : Z) (msg : SlackMessage)
  : SlackMessage :=
  mkSlackMessage uuid (ChannelID msg) (ThreadID msg) (MessageTimestamp msg)
                 (UserID msg) (UserName msg) (Content msg) (ContentHash msg)
                 (ClientMsgID msg) (IsThreadRoot msg) now now.

Definition withHash (msg : SlackMessage) : SlackMessage :=
  mkSlackMessage (ID msg) (ChannelID msg) (ThreadID msg)
                 (MessageTimestamp msg) (UserID msg) (UserName msg)
                 (Content msg) (hashContent (Content msg)) (ClientMsgID msg)
                 (IsThreadRoot msg) (CreatedAt msg) (UpdatedAt msg).

(** [INSERT INTO slack_messages ... ON CONFLICT (channel_id,
    message_timestamp) DO UPDATE ... RETURNING id, created_at, updated_at,
    (xmax = 0) as was_inserted]: the row as stored, and whether it is new
    ([xmax] is 0 on an inserted row and not on one the conflict clause
    updated). *)
Definition upsertMessage (now : time) (msg : SlackMessage)
  : M (SlackMessage * bool) :=
  rows <- gets slack_messages ;;
  match find (sameMessage msg) rows with
  | Some old =>
      modify (fun w => setSlackMessages w
        (map (fun r => if sameMessage msg r then updateOnConflict now msg r
                       else r) rows)) ;;;
      ret (updateOnConflict now msg old, false)
  | None =>
      uuid <- gets next_uuid ;;
      modify (fun w => setNextUuid
        (setSlackMessages w (rows ++ [insertedRow now uuid msg]))
        (uuid + 1)%Z) ;;;
      ret (insertedRow now uuid msg, true)
  end.

(** [DELETE FROM slack_thread_embeddings WHERE thread_id = $1] *)
Definition deleteThreadEmbeddings (threadID : gostring) : M unit :=
  modify (fun w => setThreadEmbeddings w
    (filter (fun e => negb (streq (te_thread_id e) threadID))
            (slack_thread_embeddings w))).

(** [StoreMessage]: the stored message (the delivered fields with the id
    and the dates of the row) and [wasInserted]. *)
Definition StoreMessage (now : time) (msg : SlackMessage)
  : M (SlackMessage * bool) :=
  let msg := withHash msg in
  res <- wrap (str "failed to store message") (upsertMessage now msg) ;;
  let (row, wasInserted) := res in
  let stored :=
    mkSlackMessage (ID row) (ChannelID msg) (ThreadID msg)
                   (MessageTimestamp msg) (UserID msg) (UserName msg)
                   (Content msg) (ContentHash msg) (ClientMsgID msg)
                   (IsThreadRoot msg) (CreatedAt row) (UpdatedAt row) in
  (if negb wasInserted
   then logAndContinue (deleteThreadEmbeddings (ThreadID stored))
   else ret tt) ;;;
  ret (stored, wasInserted).

(** Thread ids in the order of their first message in the table. *)
Fixpoint distinctThreads (seen : list gostring) (rows : list SlackMessage)
  : list gostring :=
  match rows with
  | [] => []
  | r :: rest =>
      if existsb (streq (ThreadID r)) seen then distinctThreads seen rest
      else ThreadID r :: distinctThreads (ThreadID r :: seen) rest
  end.

(** [MIN(m.created_at)] over the messages of a thread. *)
Definition firstCreated (rows : list SlackMessage) (threadID : gostring)
  : time :=
  match map CreatedAt
            (filter (fun r => streq (ThreadID r) threadID) rows) with
  | [] => 0%Z
  | t :: ts => fold_left Z.min ts t
  end.

Definition threadHasEmbedding (es : list ThreadEmbedding)
  (threadID : gostring) : bool :=
  existsb (fun e => streq (te_thread_id e) threadID) es.

(** [GetThreadsWithoutEmbeddings]: [SELECT DISTINCT m.thread_id FROM
    slack_messages m LEFT JOIN slack_thread_embeddings e ON m.thread_id =
    e.thread_id WHERE e.thread_id IS NULL ORDER BY MIN(m.created_at) ASC
    LIMIT $1].  The text orders by an aggregate and has no [GROUP BY],
    which PostgreSQL does not accept.  The definition is the query the
    text stands for, and the one the callers are written for: grouped by
    [m.thread_id], the threads that have messages and no embedding row,
    oldest first.  What is proved of it is proved of this reading. *)
Definition GetThreadsWithoutEmbeddings (limit : Z) : M (list gostring) :=
  wrap (str "failed to get threads without embeddings")
    (rows <- gets slack_messages ;;
     es <- gets slack_thread_embeddings ;;
     limitRows limit
       (sortBy (fun a b => (firstCreated rows a <=? firstCreated rows b)%Z)
          (filter (fun t => negb (threadHasEmbedding es t))
                  (distinctThreads [] rows)))).

(** [GetMessagesInThread]: [SELECT ... FROM slack_messages WHERE
    thread_id = $1 ORDER BY message_timestamp ASC]. *)
Definition GetMessagesInThread (threadID : gostring)
  : M (list SlackMessage) :=
  wrap (str "failed to get messages in thread")
    (rows <- gets slack_messages ;;
     ret (sortBy (fun a b => strle (MessageTimestamp a) (MessageTimestamp b))
            (filter (fun r => streq (ThreadID r) threadID) rows))).

Definition sameChunk (threadID : gostring) (chunkIndex : Z)
  (e : ThreadEmbedding) : bool :=
  streq (te_thread_id e) threadID && (te_chunk_index e =? chunkIndex)%Z.

(** [StoreThreadEmbedding]: [INSERT INTO slack_thread_embeddings ... ON
    CONFLICT (thread_id, chunk_index) DO UPDATE SET content_hash =
    EXCLUDED.content_hash, embedding = EXCLUDED.embedding,
    created_at = NOW()]. *)
Definition StoreThreadEmbedding (now : time) (threadID : gostring)
  (chunkIndex : Z) (contentHash : gostring) (embedding : vector) : M unit :=
  wrap (str "failed to store thread embedding")
    (es <- gets slack_thread_embeddings ;;
     if existsb (sameChunk threadID chunkIndex) es then
       modify (fun w => setThreadEmbeddings w
         (map (fun e => if sameChunk threadID chunkIndex e
                        then mkThreadEmbedding (te_id e) (te_thread_id e)
                               (te_chunk_index e) contentHash
                               (Some embedding) now
                        else e) es))
     else
       uuid <- gets next_uuid ;;
       modify (fun w => setNextUuid
         (setThreadEmbeddings w
            (es ++ [mkThreadEmbedding uuid threadID chunkIndex contentHash
                      (Some embedding) now]))
         (uuid + 1)%Z)).

(** [SearchSimilarMessages]: the [limit] embedding rows nearest to the
    query give thread ids; the result is every message of these threads,
    [ORDER BY thread_id, message_timestamp ASC].  The similarity column of
    the first query is scanned and dropped. *)
Definition SearchSimilarMessages (embedding : vector) (limit : Z)
  : M (list SlackMessage) :=
  es <- gets slack_thread_embeddings ;;
  nearest <- wrap (str "failed to search similar threads")
    (limitRows limit
       (sortBy (fun a b => Pgvector.float_le (snd a) (snd b))
          (flat_map (fun e => match te_embedding e with
                              | Some v => [(te_thread_id e,
                                            Pgvector.cosine_distance v
                                                                 embedding)]
                              | None => []
                              end) es))) ;;
  let threadIDs := map fst nearest in
  match threadIDs with
  | [] => ret []
  | _ :: _ =>
      rows <- gets slack_messages ;;
      ret (sortBy (fun a b =>
                     if streq (ThreadID a) (ThreadID b)
                     then strle (MessageTimestamp a) (MessageTimestamp b)
                     else strle (ThreadID a) (ThreadID b))
             (filter (fun r => existsb (streq (ThreadID r)) threadIDs) rows))
  end.

End SlackStore.

(** ** [services.EmbeddingService] *)

Module EmbeddingService.

(** [strings.LastIndex] *)
Fixpoint lastIndexFrom (i : Z) (s substr : gostring) (found : Z) : Z :=
  let found := if HasPrefix s substr then i else found in
  match s with
  | [] => found
  | _ :: t => lastIndexFrom (i + 1) t substr found
  end.
Definition LastIndex (s substr : gostring) : Z :=
  lastIndexFrom 0 s substr (-1).

Definition maxTokens : Z := 8000.
Definition avgCharsPerToken : Z := 4.
Definition maxChars : Z := maxTokens * avgCharsPerToken.

(** The cut at the token limit, at a word boundary if one is near. *)
Definition truncate (text : gostring) : gostring :=
  if (len text >? maxChars)%Z then
    let text := sliceTo text maxChars in
    let lastSpace := LastIndex (sliceTo text maxChars) (str " ") in
    if (lastSpace >? maxChars - 100)%Z then sliceTo text lastSpace else text
  else text.

Local Open Scope go_scope.

(** [GenerateEmbedding]: empty input is refused before any call. *)
Definition GenerateEmbedding (env : Providers) (text : gostring) : M vector :=
  let text := TrimSpace text in
  if streq text [] then fail (Msg (str "input text cannot be empty"))
  else
    let text := truncate text in
    record (EmbeddingCall text) ;;;
    match createEmbeddings env text with
    | None => fail (Wrapped (str "failed to generate embedding")
                            ProviderFailure)
    | Some [] => fail (Msg (str "no embedding data returned"))
    | Some (data :: _) => ret data
    end.

End EmbeddingService.

(** ** [jobs.EmbeddingProcessor]: the backlog of documents *)

Module Jobs.
Import DocStore EmbeddingService.
Local Open Scope go_scope.

Definition batchSize : Z := 10.

(** The placeholder [[]float32{0.0}]. *)
Definition emptyEmbedding : vector := [0%float].

Definition processDocument (env : Providers) (now : time) (doc : Document)
  : M unit :=
  let content := TrimSpace (DocStore.Content doc) in
  if streq content [] then
    UpdateEmbedding now (DocStore.ID doc) emptyEmbedding
  else if (len content <? 10)%Z then
    UpdateEmbedding now (DocStore.ID doc) emptyEmbedding
  else
    embedding <- GenerateEmbedding env content ;;
    UpdateEmbedding now (DocStore.ID doc) embedding.

Definition processBatch (env : Providers) (now : time) (batchSize : Z)
  : M unit :=
  documents <- GetDocumentsWithoutEmbeddings batchSize ;;
  match documents with
  | [] => ret tt
  | _ :: _ =>
      forEach documents
        (fun doc => logAndContinue (processDocument env now doc))
  end.

(** One firing of the ticker in [Start]: the batch runs and its error, if
    any, is logged. *)
Definition tick (env : Providers) (now : time) (w : World) : World :=
  snd (processBatch env now batchSize w).

(** The ticks at the given instants, in order. *)
Definition ticks (env : Providers) (instants : list time) (w : World)
  : World :=
  fold_left (fun w now => tick env now w) instants w.

(** The count [GetStats] reports as [documents_without_embeddings]. *)
Definition documentsWithoutEmbeddings : M Z :=
  documents <- GetDocumentsWithoutEmbeddings 1000 ;;
  ret (Z.of_nat (length documents)).

End Jobs.

(** ** [slack.EmbeddingProcessor]: the backlog of threads *)

Module SlackJobs.
Import SlackStore EmbeddingService Chunker.
Local Open Scope go_scope.

(** [strconv.ParseInt(s, 10, 64)] *)
Definition digitValue (b : byte) : option Z :=
  let n := Z.of_N (Byte.to_N b) in
  if ((48 <=? n) && (n <=? 57))%Z then Some (n - 48)%Z else None.

Fixpoint parseDigits (acc : Z) (s : gostring) : option Z :=
  match s with
  | [] => Some acc
  | b :: t =>
      match digitValue b with
      | Some d => parseDigits (10 * acc + d)%Z t
      | None => None
      end
  end.

Definition ParseInt (s : gostring) : option Z :=
  let (negative, digits) :=
    match s with
    | x2b :: t => (false, t)
    | x2d :: t => (true, t)
    | _ => (false, s)
    end in
  match digits with
  | [] => None
  | _ :: _ =>
      match parseDigits 0 digits with
      | None => None
      | Some n =>
          let v := if negative then (- n)%Z else n in
          if ((- 2 ^ 63 <=? v) && (v <=? 2 ^ 63 - 1))%Z then Some v
          else None
      end
  end.

(** [strings.Split(s, ".")[0]] *)
Definition firstPart (s : gostring) : gostring :=
  let i := Index s (str ".") in
  if (i <? 0)%Z then s else sliceTo s i.

Section Processor.

(** [time.Unix(sec, 0).Format("January 2, 2006, 3:04PM")], in the time zone
    of the process. *)
Variable formatLocal : Z -> gostring.

Definition formatTimestamp (slackTimestamp : gostring) : gostring :=
  match ParseInt (firstPart slackTimestamp) with
  | Some unixSeconds => formatLocal unixSeconds
  | None => slackTimestamp
  end.

(** [fmt.Sprintf("[%s] %s: %s", timestamp, msg.UserName, msg.Content)],
    one line per message. *)
Definition formatMessage (msg : SlackMessage) : gostring :=
  str "[" ++ formatTimestamp (MessageTimestamp msg) ++ str "] "
  ++ UserName msg ++ str ": " ++ Content msg.

Definition buildThreadContent (messages : list SlackMessage) : gostring :=
  Join (map formatMessage messages) [x0a].

Definition testPatterns : list gostring :=
  [ str "hello world"; str "sample"; str "example"; str "placeholder";
    str "lorem ipsum"; str "dummy text"; str "test message" ].

Definition isQualityContent (content : gostring) : bool :=
  if streq (TrimSpace content) [] then false
  else if existsb (Contains (ToLower content)) testPatterns then false
  else if (len content <? 5)%Z then false
  else if (Z.of_nat (length (Fields content)) <? 1)%Z then false
  else true.

(** [for chunkIndex, chunk := range chunks { ... }]; the first error ends
    the loop and is returned. *)
Fixpoint embedChunks (env : Providers) (now : time) (threadID : gostring)
  (chunkIndex : Z) (chunks : list gostring) : M unit :=
  match chunks with
  | [] => ret tt
  | chunk :: rest =>
      let contentHash := hashContent chunk in
      embedding <- wrap (str "failed to generate embedding for chunk "
                         ++ itoa chunkIndex)
                        (GenerateEmbedding env chunk) ;;
      wrap (str "failed to store thread embedding for chunk "
            ++ itoa chunkIndex)
           (StoreThreadEmbedding now threadID chunkIndex contentHash
                                 embedding) ;;;
      embedChunks env now threadID (chunkIndex + 1)%Z rest
  end.

Definition processThread (env : Providers) (now : time)
  (threadID : gostring) : M unit :=
  messages <- wrap (str "failed to get messages in thread")
                   (GetMessagesInThread threadID) ;;
  match messages with
  | [] => ret tt
  | _ :: _ =>
      let threadContent := buildThreadContent messages in
      if negb (isQualityContent threadContent) then ret tt
      else embedChunks env now threadID 0 (chunkContent threadContent)
  end.

Definition batchSize : Z := 10.

Definition processBatch (env : Providers) (now : time) (batchSize : Z)
  : M unit :=
  threadIDs <- GetThreadsWithoutEmbeddings batchSize ;;
  match threadIDs with
  | [] => ret tt
  | _ :: _ =>
      forEach threadIDs
        (fun threadID => logAndContinue (processThread env now threadID))
  end.

Definition tick (env : Providers) (now : time) (w : World) : World :=
  snd (processBatch env now batchSize w).

Definition ticks (env : Providers) (instants : list time) (w : World)
  : World :=
  fold_left (fun w now => tick env now w) instants w.

(** [GetStats]: the number of threads without embeddings. *)
Definition GetStats : M Z :=
  threadIDs <- GetThreadsWithoutEmbeddings 1000 ;;
  ret (Z.of_nat (length threadIDs)).

End Processor.

End SlackJobs.

(** ** [services.RAGService] over Slack threads *)

Module SlackRAG.
Import SlackStore EmbeddingService.
Local Open Scope go_scope.

Record QueryResult : Type := mkQueryResult {
  Answer : gostring;
  Sources : list SlackMessage;
  Query_ : gostring }.

(** [float64(index)] for an index of a slice. *)
Definition float64_of_int (index : Z) : float :=
  PrimFloat.of_uint63 (Uint63.of_Z index).

(** [calculateSimilarity]: an estimate from the position in the result. *)
Definition calculateSimilarity (queryEmbedding : vector)
  (msg : SlackMessage) (index : Z) : float :=
  (0.9 - (float64_of_int index * 0.05))%float.

(** The bytes of the two emoji literals of [botPatterns], as they stand in
    the source file. *)
Definition thumbsUp : gostring :=
  [xef; xa3; xbf; xc3; xbc; xc3; xab; xc3; xa7].
Definition checkMark : gostring := [xe2; x80; x9a; xc3; xba; xc3; x96].

Definition botPatterns : list gostring :=
  [ str "got it"; str "i've processed"; str "stored the messages";
    str ":+1:"; thumbsUp; checkMark; str "done";
    str "processed and stored" ].

Definition testPatterns : list gostring :=
  [ str "test"; str "testing"; str "some other content";
    str "this is my other message"; str "should also go in";
    str "hello world"; str "sample"; str "example" ].

Definition isQualityContent (content : gostring) : bool :=
  let content := ToLower (TrimSpace content) in
  if existsb (Contains content) botPatterns then false
  else if existsb (Contains content) testPatterns then false
  else if (len content <? 20)%Z then false
  else if (Z.of_nat (length (Fields content)) <? 4)%Z then false
  else true.

(** [for i, msg := range messages { similarity := calculateSimilarity(
     queryEmbedding, msg, i); if similarity > threshold &&
     isQualityContent(msg.Content) { relevantMessages = append(...) } }],
    from index [i] on. *)
Fixpoint filterRelevant (threshold : float) (queryEmbedding : vector)
  (i : Z) (messages : list SlackMessage) : list SlackMessage :=
  match messages with
  | [] => []
  | msg :: rest =>
      let similarity := calculateSimilarity queryEmbedding msg i in
      let others := filterRelevant threshold queryEmbedding (i + 1)%Z rest in
      if PrimFloat.ltb threshold similarity && isQualityContent (Content msg)
      then msg :: others else others
  end.

Definition noInformation : gostring :=
  str "I couldn't find any relevant information to answer your question.".

(** [callOpenAIAPI] *)
Definition callOpenAIAPI (env : Providers) (systemPrompt userPrompt : gostring)
  : M gostring :=
  record (ChatCall systemPrompt userPrompt) ;;;
  match createChatCompletion env systemPrompt userPrompt with
  | None => fail (Wrapped (str "failed to call OpenAI API") ProviderFailure)
  | Some [] => ret (str "I couldn't generate a response. Please try again.")
  | Some (choice :: _) => ret choice
  end.

Section Answer.

(** The order in which [range] visits the keys of the map [threadGroups];
    Go leaves it unspecified. *)
Variable rangeOrder : list gostring -> list gostring.

Definition systemPrompt : gostring :=
  str "You are a helpful assistant that answers questions based on internal company knowledge from Slack conversations. Be concise and cite relevant thread conversations by their numbers when possible.".

Fixpoint contextParts (contextIndex : Z) (threads : list gostring)
  (messages : list SlackMessage) : list gostring :=
  match threads with
  | [] => []
  | thread :: rest =>
      (str "[" ++ itoa contextIndex ++ str "] Thread conversation:")
      :: map (fun msg => str "  " ++ UserName msg ++ str ": " ++ Content msg)
             (filter (fun msg => streq (ThreadID msg) thread) messages)
      ++ contextParts (contextIndex + 1)%Z rest messages
  end.

Definition generateAnswer (env : Providers) (query : gostring)
  (messages : list SlackMessage) : M gostring :=
  let threads := rangeOrder (distinctThreads [] messages) in
  let context := Join (contextParts 1 threads messages) [x0a] in
  let userPrompt :=
    str "Based on the following context from our internal Slack knowledge base, please answer the question. Be concise and cite relevant thread conversations by their numbers."
    ++ [x0a; x0a] ++ str "Context:" ++ [x0a] ++ context ++ [x0a; x0a]
    ++ str "Question: " ++ query in
  callOpenAIAPI env systemPrompt userPrompt.

(** The relevant messages: those above 0.75, or, when there is none, those
    above 0.6. *)
Definition relevantMessages (queryEmbedding : vector)
  (messages : list SlackMessage) : list SlackMessage :=
  match filterRelevant 0.75 queryEmbedding 0 messages with
  | [] => filterRelevant 0.6 queryEmbedding 0 messages
  | relevant => relevant
  end.

Definition Query (env : Providers) (query : gostring) : M QueryResult :=
  queryEmbedding <- wrap (str "failed to generate query embedding")
                         (GenerateEmbedding env query) ;;
  messages <- wrap (str "failed to search similar messages")
                   (SearchSimilarMessages queryEmbedding 10) ;;
  match relevantMessages queryEmbedding messages with
  | [] => ret (mkQueryResult noInformation [] query)
  | relevant =>
      answer <- wrap (str "failed to generate answer")
                     (generateAnswer env query relevant) ;;
      ret (mkQueryResult answer relevant query)
  end.

End Answer.

End SlackRAG.

(** ** [services.RAGService] over documents *)

Module DocRAG.
Import DocStore EmbeddingService.
Local Open Scope go_scope.

Record QueryResult : Type := mkQueryResult {
  Answer : gostring;
  Sources : list Document;
  Query_ : gostring }.

(** The fields [rows.Scan] fills in [SearchSimilar]. *)
Definition scanSimilar (queryEmbedding : vector) (r : DocRow) (v : vector)
  : Document :=
  mkDocument (id r) (content r) (source r) (source_id r) (title r)
             (channel_id r) (post_id r) (user_id r) (user_name r)
             (timestamp r) (content_hash r) v
             (1 - Pgvector.cosine_distance v queryEmbedding)%float 0%Z 0%Z.

(** [SearchSimilar]: [SELECT ..., 1 - (embedding <=> $1) as similarity FROM
    documents WHERE embedding IS NOT NULL AND array_length(embedding, 1) > 1
    ORDER BY embedding <=> $1 LIMIT $2]. *)
Definition SearchSimilar (queryEmbedding : vector) (limit : Z)
  : M (list Document) :=
  wrap (str "failed to search similar documents")
    (rows <- gets documents ;;
     limitRows limit
       (sortBy (fun a b =>
                  Pgvector.float_le
                    (Pgvector.cosine_distance (Embedding a) queryEmbedding)
                    (Pgvector.cosine_distance (Embedding b) queryEmbedding))
          (flat_map (fun r => match embedding r with
                              | Some v =>
                                  if (1 <? Z.of_nat (length v))%Z
                                  then [scanSimilar queryEmbedding r v]
                                  else []
                              | None => []
                              end) rows))).

Definition noInformation : gostring :=
  str "I couldn't find any relevant information to answer your question.".

Definition callOpenAIAPI := SlackRAG.callOpenAIAPI.

Section Answer.

(** [%.2f] of [fmt.Sprintf]. *)
Variable formatFloat2 : float -> gostring.

Definition getSlabType (doc : Document) : gostring :=
  if streq (PostID doc) [] then str "post" else str "comment".

Definition systemPrompt : gostring :=
  str "You are a helpful assistant that answers questions based on internal company knowledge. Be concise and cite relevant sources by their numbers when possible.".

Fixpoint contextParts (i : Z) (documents : list Document) : list gostring :=
  match documents with
  | [] => []
  | doc :: rest =>
      let source :=
        if streq (Source doc) (str "slack")
        then str "Slack message from " ++ UserName doc
        else str "Slab " ++ getSlabType doc ++ str " from " ++ UserName doc in
      (str "[" ++ itoa (i + 1) ++ str "] " ++ source ++ str " ("
       ++ formatFloat2 (Similarity doc) ++ str " relevance):" ++ [x0a]
       ++ Content doc)
      :: contextParts (i + 1)%Z rest
  end.

Definition generateAnswer (env : Providers) (query : gostring)
  (documents : list Document) : M gostring :=
  let context := Join (contextParts 0 documents) [x0a; x0a] in
  let userPrompt :=
    str "Based on the following context from our internal knowledge base, please answer the question. Be concise and cite relevant sources by their numbers."
    ++ [x0a; x0a] ++ str "Context:" ++ [x0a] ++ context ++ [x0a; x0a]
    ++ str "Question: " ++ query in
  callOpenAIAPI env systemPrompt userPrompt.

Definition Query (env : Providers) (query : gostring) : M QueryResult :=
  queryEmbedding <- wrap (str "failed to generate query embedding")
                         (GenerateEmbedding env query) ;;
  documents <- wrap (str "failed to search similar documents")
                    (SearchSimilar queryEmbedding 10) ;;
  match filter (fun doc => PrimFloat.ltb 0.5 (Similarity doc)) documents with
  | [] => ret (mkQueryResult noInformation [] query)
  | relevantDocs =>
      answer <- wrap (str "failed to generate answer")
                     (generateAnswer env query relevantDocs) ;;
      ret (mkQueryResult answer relevantDocs query)
  end.

End Answer.

End DocRAG.

(** ** Notions used to state the properties, and sample inputs *)

Module Spec.

(** No white-space rune starts anywhere in [w]. *)
Fixpoint spacefree (w : gostring) : Prop :=
  match w with
  | [] => True
  | _ :: t => spaceWidth w = 0 /\ spacefree t
  end.

(** What [Fields] returns: non-empty runs without white space. *)
Definition wordlike (w : gostring) : Prop := w <> [] /\ spacefree w.

(** The slice [words[i:end]] of one turn of the loop of [chunkContent]. *)
Definition sliceAt (max : nat) (words : list gostring) (i : nat)
  : list gostring :=
  firstn ((if length words <? i + max then length words else i + max) - i)
         (skipn i words).

(** Number of rows that [key] selects. *)
Definition rowsOf (Row : Type) (key : Row -> bool) (rows : list Row) : nat :=
  length (filter key rows).

End Spec.

Module DocSpec.
Import Spec DocStore EmbeddingService Jobs.

Definition updateRow (now : time) (documentID : gostring) (v : vector)
  (r : DocRow) : DocRow :=
  if streq (id r) documentID then setEmbedding now v r else r.

(** [embedding IS NULL] *)
Definition missing (r : DocRow) : bool := negb (hasEmbedding r).

(** The rows [GetDocumentsWithoutEmbeddings] reads, before [LIMIT]. *)
Definition missingRows (w : World) : list DocRow :=
  sortBy (fun a b => (created_at a <=? created_at b)%Z)
         (filter missing (documents w)).

(** The id of [r] is none of [ids]. *)
Definition outside (ids : list gostring) (r : DocRow) : bool :=
  negb (existsb (streq (id r)) ids).

(** The rows of id [X]. *)
Definition rowsOfId (X : gostring) (w : World) : list DocRow :=
  filter (fun r => streq (id r) X) (documents w).

(** [rejectedPending X w]: every row of id [X] is without embedding and has
    a content that the gate of [processDocument] rejects. *)
Definition rejectedPending (X : gostring) (w : World) : Prop :=
  forall r, In r (documents w) -> id r = X ->
            embedding r = None /\ (len (TrimSpace (content r)) < 10)%Z.

(** What may happen to the store after a document was processed: a later
    tick of the processor, or the delivery of a document. *)
Inductive Event : Type :=
| Tick (env : Providers) (now : time)
| Delivery (now : time) (doc : Document).

Definition step (w : World) (e : Event) : World :=
  match e with
  | Tick env now => tick env now w
  | Delivery now doc => snd (StoreDocument now doc w)
  end.

Definition run (events : list Event) (w : World) : World :=
  fold_left step events w.

Definition uniqueDocuments (w : World) : Prop :=
  forall doc, rowsOf (DocStore.conflicts doc) (documents w) <= 1.

Definition onConflict (now : time) (doc : DocStore.Document) (r : DocRow)
  : DocRow :=
  if DocStore.conflicts doc r then DocStore.updateOnConflict now doc r else r.

Definition sampleDocument (ident body : gostring) : Document :=
  mkDocument ident body (str "slack") ident [] [] [] [] [] 0%Z
             (HashContent body) [] 0%float 0%Z 0%Z.

Definition sampleProviders : Providers :=
  mkProviders (fun _ => Some [[1%float; 0%float]]) (fun _ _ => Some []).

(** Vectors of the dimension of the column [documents.embedding]: the unit
    vector of axis [k], and an embeddings endpoint that answers every text
    with the unit vector of axis 0. *)
Definition axis (k : nat) : vector :=
  repeat 0%float k ++ 1%float :: repeat 0%float (dimension - S k).

Definition documentProviders : Providers :=
  mkProviders (fun _ => Some [axis 0]) (fun _ _ => Some []).

(** Documents of the tests of the backlog processor. *)
Definition borderlineDocument : Document :=
  Eval vm_compute in
  sampleDocument (str "borderline-doc-1") (str "exactly10c").

Definition shortDocument : Document :=
  Eval vm_compute in sampleDocument (str "short-doc-1") (str "short msg").

Definition validDocument : Document :=
  Eval vm_compute in
  sampleDocument (str "slack_C06DTMSH03E_1734277500.000100")
                 (str "This is a valid document").

(** The store after the delivery of the two documents of the test
    ["borderline short content"] and ["9 characters (under 10)"]. *)
Definition boundaryWorld : World :=
  Eval vm_compute in
  run [Delivery 1%Z borderlineDocument; Delivery 2%Z shortDocument]
      emptyWorld.

(** A Slab post as [handlePostEvent] stores it, and the same post after
    an edit. *)
Definition slabPost (body : gostring) : DocStore.Document :=
  DocStore.mkDocument (str "slab_post_42") body (str "slab") (str "42")
                      (str "Release notes") [] [] (str "author-7")
                      (str "Ada") 0 (HashContent body) [] 0%float 0 0.

(** The post is stored and the backlog processor has attached a vector. *)
Definition embeddedPostWorld : World :=
  Eval vm_compute in
  snd (DocStore.UpdateEmbedding 2 (str "slab_post_42") (axis 0)
         (snd (DocStore.StoreDocument 1 (slabPost (str "hello")) emptyWorld))).

End DocSpec.

Module SlackSpec.
Import Spec SlackStore EmbeddingService SlackJobs.

(** The messages [GetMessagesInThread] returns. *)
Definition threadMessages (w : World) (threadID : gostring)
  : list SlackMessage :=
  sortBy (fun a b => strle (MessageTimestamp a) (MessageTimestamp b))
         (filter (fun r => streq (ThreadID r) threadID) (slack_messages w)).

(** The threads [GetThreadsWithoutEmbeddings] reads, before [LIMIT]. *)
Definition missingThreads (w : World) : list gostring :=
  sortBy (fun a b => (firstCreated (slack_messages w) a
                      <=? firstCreated (slack_messages w) b)%Z)
         (filter (fun t => negb (threadHasEmbedding
                                   (slack_thread_embeddings w) t))
                 (distinctThreads [] (slack_messages w))).

(** [lowQuality w t]: the thread [t] has a message with a test pattern. *)
Definition lowQuality (w : World) (threadID : gostring) : Prop :=
  exists msg pattern,
    In msg (threadMessages w threadID) /\ In pattern testPatterns
    /\ Contains (ToLower (Content msg)) pattern = true.

(** The message [StoreMessage] returns for the row it wrote. *)
Definition storedAs (msg row : SlackMessage) : SlackMessage :=
  mkSlackMessage (ID row) (ChannelID msg) (ThreadID msg)
                 (MessageTimestamp msg) (UserID msg) (UserName msg)
                 (Content msg) (hashContent (Content msg)) (ClientMsgID msg)
                 (IsThreadRoot msg) (CreatedAt row) (UpdatedAt row).

Definition updated (now : time) (msg : SlackMessage) (r : SlackMessage)
  : SlackMessage :=
  if sameMessage msg r then updateOnConflict now (withHash msg) r else r.

(** The unique index holds in [w]. *)
Definition uniqueMessages (w : World) : Prop :=
  forall msg, rowsOf (sameMessage msg) (slack_messages w) <= 1.

(** The only message of a thread; its content has a test pattern
    ([sample]). *)
Definition sampleMessage : SlackMessage :=
  mkSlackMessage 0 (str "C06DTMSH03E") (str "1734277500.000100")
                 (str "1734277500.000100") (str "U123456") (str "alice")
                 (str "Here is a sample of the quarterly report numbers")
                 [] [] true 0 0.

(** The same message with another content. *)
Definition helloMessage (body : gostring) : SlackMessage :=
  mkSlackMessage 0 (str "C06DTMSH03E") (str "1734277500.000100")
                 (str "1734277500.000100") (str "U123456") (str "alice")
                 body [] [] true 0 0.

(** [sampleMessage] delivered to an empty store. *)
Definition stuckWorld : World :=
  Eval vm_compute in
  snd (StoreMessage 1%Z sampleMessage emptyWorld).

(** The message [hello] delivered to an empty store, its thread with one
    chunk embedding. *)
Definition embeddedThreadWorld : World :=
  Eval vm_compute in
  snd (StoreThreadEmbedding 2 (str "1734277500.000100") 0
         (hashContent (str "hello")) [1; 0]%float
         (snd (StoreMessage 1 (helloMessage (str "hello")) emptyWorld))).

(** A message of the thread [1734277500.000100]; the message with the
    time stamp of the thread is its root. *)
Definition threadMessage (ts body : gostring) : SlackMessage :=
  mkSlackMessage 0 (str "C06DTMSH03E") (str "1734277500.000100") ts
                 (str "U123456") (str "alice") body [] []
                 (streq ts (str "1734277500.000100")) 0 0.

Definition pipelineMessage : SlackMessage :=
  threadMessage (str "1734277500.000400")
                (str "The deployment pipeline runs every night at two").

(** A thread of four messages of which only the last has quality content,
    with one chunk embedding [(1, 0)]. *)
Definition fourMessagesWorld : World :=
  Eval vm_compute in
  snd (StoreThreadEmbedding 5 (str "1734277500.000100") 0
         (hashContent (str "thread")) [1%float; 0%float]
    (snd (StoreMessage 4 pipelineMessage
    (snd (StoreMessage 3 (threadMessage (str "1734277500.000300")
                                        (str "sounds good"))
    (snd (StoreMessage 2 (threadMessage (str "1734277500.000200")
                                        (str "ok thanks"))
    (snd (StoreMessage 1 (threadMessage (str "1734277500.000100")
                                        (str "hello"))
      emptyWorld))))))))).

(** One message with quality content; its thread has the embedding
    [(1, 0)], orthogonal to the embedding [(0, 1)] of the query. *)
Definition pipelineWorld : World :=
  Eval vm_compute in
  snd (StoreThreadEmbedding 2 (str "1734277500.000100") 0
         (hashContent (str "thread")) [1%float; 0%float]
    (snd (StoreMessage 1
            (threadMessage (str "1734277500.000100")
               (str "The deployment pipeline runs every night at two"))
            emptyWorld))).

Definition pipelineRow : SlackMessage :=
  Eval vm_compute in
  insertedRow 1 0
    (withHash (threadMessage (str "1734277500.000100")
                 (str "The deployment pipeline runs every night at two"))).

End SlackSpec.

Module RAGSpec.
Import SlackRAG.

(** The test [filterRelevant] applies to the candidate [msg] at position
    [index]. *)
Definition passes (threshold : float) (queryEmbedding : vector)
  (index : Z) (msg : SlackMessage) : bool :=
  PrimFloat.ltb threshold (calculateSimilarity queryEmbedding msg index)
  && isQualityContent (Content msg).

(** Providers for the examples: every text is embedded as [(0, 1)], the
    chat endpoint gives one choice. *)
Definition orthogonalProviders : Providers :=
  mkProviders (fun _ => Some [[0%float; 1%float]])
              (fun _ _ => Some [str "The pipeline runs at two [1]."]).

(** The same for the documents: every text is embedded as the unit vector
    of axis 1. *)
Definition orthogonalDocumentProviders : Providers :=
  mkProviders (fun _ => Some [DocSpec.axis 1])
              (fun _ _ => Some [str "The pipeline runs at two [1]."]).

Definition releaseQuery : gostring := str "when is the release?".

(** The first ten positions of a search result. *)
Definition firstTen : list Z := [0; 1; 2; 3; 4; 5; 6; 7; 8; 9]%Z.

End RAGSpec.

(** ** More of package [strings]: [ReplaceAll] *)

Module GoReplace.

(** [strings.ReplaceAll(s, old, new)] for a non-empty [old], as at every
    call of the code: the occurrences of [old] are found from the left and
    do not overlap.  [skip] counts the bytes of the occurrence being
    replaced that are still ahead. *)
Fixpoint replaceFrom (skip : nat) (s old new : gostring) : gostring :=
  match s with
  | [] => []
  | c :: t =>
      match skip with
      | S k => replaceFrom k t old new
      | O =>
          if HasPrefix s old
          then new ++ replaceFrom (length old - 1) t old new
          else c :: replaceFrom 0 t old new
      end
  end.

Definition ReplaceAll (s old new : gostring) : gostring :=
  replaceFrom 0 s old new.

End GoReplace.

(** ** [crypto/hmac] over SHA-256 *)

Module Hmac.
Import Sha256.

Definition blockSize : nat := 64.

(** [hmac.New]: a key longer than a block is hashed first; the key is then
    filled with zeros to a block. *)
Definition blockKey (key : list byte) : list byte :=
  let key := if blockSize <? length key then Sum256 key else key in
  key ++ repeat x00 (blockSize - length key).

Definition xorPad (pad : Z) (key : list byte) : list byte :=
  map (fun b => Zbyte (Z.lxor (byteZ b) pad)) key.

(** [mac := hmac.New(sha256.New, key); mac.Write(message); mac.Sum(nil)] *)
Definition Sum (key message : list byte) : list byte :=
  let key := blockKey key in
  Sum256 (xorPad 0x5c key ++ Sum256 (xorPad 0x36 key ++ message)).

Arguments Sum key message : simpl never.

End Hmac.

(** ** [handlers.SlabHandler]: the signature and the content of a webhook *)

Module Slab.
Import GoReplace.

(** [verifyHMAC]; [hex.EncodeToString] writes lower-case digits, and
    [hmac.Equal] is equality of the two byte strings. *)
Definition verifyHMAC (webhookSecret : gostring) (body : list byte)
  (signature : gostring) : bool :=
  if streq webhookSecret [] || streq signature [] then false
  else
    let signature :=
      if HasPrefix signature (str "sha256=") then sliceFrom signature 7
      else signature in
    let expectedSignature := Sha256.hex (Hmac.Sum webhookSecret body) in
    streq signature expectedSignature.

Definition cleanSlabContent (content : gostring) : gostring :=
  let content := ReplaceAll content (str "**") [] in
  let content := ReplaceAll content (str "*") [] in
  let content := ReplaceAll content (str "_") [] in
  let content := ReplaceAll content (str "`") [] in
  let content := ReplaceAll content (str "#") [] in
  let content := ReplaceAll content [x0a; x0a] [x0a] in
  let content := ReplaceAll content (str "  ") (str " ") in
  TrimSpace content.

End Slab.

Module HashSpec.

(** A digit of [%x]. *)
Definition isLowerHex (b : byte) : bool :=
  inRange x30 x39 b || inRange x61 x66 b.

(** A JSON text, written with ['] for the double quote. *)
Definition json (text : string) : gostring :=
  map (fun b => if beq b x27 then x22 else b) (str text).
Arguments json text%_string.

(** The bytes [cleanSlabContent] removes. *)
Definition markdownBytes : list byte := [x2a; x5f; x60; x23].

End HashSpec.

(** ** [EmbeddingService.GenerateEmbeddings]: several texts in one request *)

Module EmbeddingBatch.
Import EmbeddingService.

Section Batch.

(** The embeddings endpoint for a request with several inputs: the list
    [resp.Data], or [None] for a failed call. *)
Variable createEmbeddings : list gostring -> option (list vector).

(** The loop over [texts]: a text is trimmed; a text that is then not
    empty is cut at the token limit and appended to [cleanTexts]. *)
Fixpoint cleanTexts (texts : list gostring) : list gostring :=
  match texts with
  | [] => []
  | text :: rest =>
      let text := TrimSpace text in
      if negb (streq text []) then truncate text :: cleanTexts rest
      else cleanTexts rest
  end.

Definition GenerateEmbeddings (texts : list gostring)
  : error + list vector :=
  match texts with
  | [] => inl (Msg (str "input texts array cannot be empty"))
  | _ :: _ =>
      let clean := cleanTexts texts in
      match clean with
      | [] => inl (Msg (str "no valid non-empty texts found"))
      | _ :: _ =>
          match createEmbeddings clean with
          | None => inl (Wrapped (str "failed to generate embeddings")
                                 ProviderFailure)
          | Some data =>
              if negb (length data =? length clean) then
                inl (Msg (str "embedding count mismatch: expected "
                          ++ itoa (Z.of_nat (length clean)) ++ str ", got "
                          ++ itoa (Z.of_nat (length data))))
              else inr data
          end
      end
  end.

End Batch.

End EmbeddingBatch.

Module StringSpec.

(** A byte that starts a white-space rune of [unicode.IsSpace]. *)
Definition spaceLead (c : byte) : bool :=
  isSpace1 c || beq c xc2 || beq c xe1 || beq c xe2 || beq c xe3.

(** The text is not empty once trimmed by [strings.TrimSpace]. *)
Definition nonBlank (text : gostring) : bool :=
  negb (streq (TrimSpace text) []).

(** An embeddings endpoint that answers every input with the vector
    [(1)], and a request with blank texts around one text. *)
Definition unitVectors (inputs : list gostring) : option (list vector) :=
  Some (map (fun _ => [1%float]) inputs).

Definition blankAndValid : list gostring :=
  [[]; str "valid text"; str "   "].

End StringSpec.

(** ** [handlers.SlabHandler]: the events of a webhook *)

Module SlabEvents.
Import DocStore Slab.

(** [SlabWebhookPayload]; the fields of [Data] and of [Data.Author] carry
    the name of their struct. *)
Record SlabWebhookPayload : Type := mkPayload {
  Event : gostring;
  Data_ID : gostring;
  Data_Title : gostring;
  Data_Content : gostring;
  Data_PostID : gostring;
  Author_ID : gostring;
  Author_Name : gostring;
  Author_Email : gostring;
  Data_CreatedAt : time;
  Data_UpdatedAt : time }.

Definition processPost (now : time) (payload : SlabWebhookPayload) : M unit :=
  if streq (Data_Content payload) [] then ret tt
  else
    let cleanContent := cleanSlabContent (Data_Content payload) in
    StoreDocument now
      (mkDocument (str "slab_post_" ++ Data_ID payload) cleanContent
                  (str "slab") (Data_ID payload) (Data_Title payload) [] []
                  (Author_ID payload) (Author_Name payload)
                  (Data_CreatedAt payload) (HashContent cleanContent)
                  [] 0%float 0%Z 0%Z).

Definition processComment (now : time) (payload : SlabWebhookPayload)
  : M unit :=
  if streq (Data_Content payload) [] then ret tt
  else
    let cleanContent := cleanSlabContent (Data_Content payload) in
    StoreDocument now
      (mkDocument (str "slab_comment_" ++ Data_ID payload) cleanContent
                  (str "slab") (Data_ID payload) [] []
                  (Data_PostID payload) (Author_ID payload)
                  (Author_Name payload) (Data_CreatedAt payload)
                  (HashContent cleanContent) [] 0%float 0%Z 0%Z).

Definition postEvents : list gostring :=
  [str "post.published"; str "post.updated"].
Definition commentEvents : list gostring :=
  [str "comment.created"; str "comment.updated"].

(** [switch payload.Event { ... }]; an event of another type is logged. *)
Definition processWebhookEvent (now : time) (payload : SlabWebhookPayload)
  : M unit :=
  if existsb (streq (Event payload)) postEvents then processPost now payload
  else if existsb (streq (Event payload)) commentEvents
       then processComment now payload
  else ret tt.

Section Webhook.

Variable webhookSecret : gostring.

(** [json.Unmarshal(body, &payload)]: the payload, or [None] for an
    error. *)
Variable unmarshal : list byte -> option SlabWebhookPayload.

(** [HandleWebhook] for a request whose body was read: the status code and
    the body of the response.  [signature] is the header
    [X-Slab-Signature]. *)
Definition HandleWebhook (now : time) (body : list byte)
  (signature : gostring) : M (Z * gostring) :=
  if negb (verifyHMAC webhookSecret body signature) then
    ret (401%Z, str "Unauthorized" ++ [x0a])
  else
    match unmarshal body with
    | None => ret (400%Z, str "Bad Request" ++ [x0a])
    | Some payload =>
        fun w =>
          match processWebhookEvent now payload w with
          | (inl _, w') =>
              (inr (500%Z, str "Internal Server Error" ++ [x0a]), w')
          | (inr _, w') => (inr (200%Z, str "OK"), w')
          end
    end.

End Webhook.

End SlabEvents.

Module SlabSpec.
Import SlabEvents.

(** The signature a sender computes for a body. *)
Definition sign (secret : gostring) (body : list byte) : gostring :=
  Sha256.hex (Hmac.Sum secret body).
Arguments sign secret body : simpl never.

(** A post with the given id and content. *)
Definition post (event ident body : gostring) : SlabWebhookPayload :=
  mkPayload event ident (str "Release notes") body [] (str "author-7")
            (str "Ada") (str "ada@example.com") 0 0.

Definition firstRevision : SlabWebhookPayload :=
  post (str "post.published") (str "42") (str "We ship on **Friday**").

Definition secondRevision : SlabWebhookPayload :=
  post (str "post.updated") (str "42") (str "We ship on **Monday**").

(** A parser for the examples: every body is the first revision. *)
Definition parseFirst (body : list byte) : option SlabWebhookPayload :=
  Some firstRevision.

End SlabSpec.

Module SlackStoreSpec.
Import SlackStore.

(** [embedding IS NOT NULL] *)
Definition hasVector (e : ThreadEmbedding) : bool :=
  match te_embedding e with Some _ => true | None => false end.

(** The thread ids of the embedding rows that hold a vector. *)
Definition embeddedThreads (w : World) : list gostring :=
  map te_thread_id (filter hasVector (slack_thread_embeddings w)).

(** The thread ids the first query of [SearchSimilarMessages] returns. *)
Definition nearestThreads (q : vector) (limit : Z) (w : World)
  : list gostring :=
  map fst
    (firstn (Z.to_nat limit)
       (sortBy (fun a b => Pgvector.float_le (snd a) (snd b))
          (flat_map (fun e => match te_embedding e with
                              | Some v => [(te_thread_id e,
                                            Pgvector.cosine_distance v q)]
                              | None => []
                              end) (slack_thread_embeddings w)))).

(** [ORDER BY thread_id, message_timestamp ASC] *)
Definition byThreadAndTime (a b : SlackMessage) : bool :=
  if streq (ThreadID a) (ThreadID b)
  then strle (MessageTimestamp a) (MessageTimestamp b)
  else strle (ThreadID a) (ThreadID b).

End SlackStoreSpec.

(** ** [jobs.EmbeddingProcessor]: its settings *)

Module JobsSettings.
Import DocStore Jobs.

(** The fields of [EmbeddingProcessor] that the setters write; a
    [time.Duration] is a number of nanoseconds. *)
Record EmbeddingProcessor : Type := mkEmbeddingProcessor {
  batchSize : Z;
  interval : Z }.

Definition second : Z := 1000000000.
Definition minute : Z := 60 * second.

Definition NewEmbeddingProcessor : EmbeddingProcessor :=
  mkEmbeddingProcessor 10 (60 * second).

Definition SetBatchSize (size : Z) (e : EmbeddingProcessor)
  : EmbeddingProcessor :=
  if ((0 <? size) && (size <=? 1000))%Z
  then mkEmbeddingProcessor size (interval e)
  else e.

Definition SetInterval (d : Z) (e : EmbeddingProcessor)
  : EmbeddingProcessor :=
  if ((10 * second <=? d) && (d <=? 10 * minute))%Z
  then mkEmbeddingProcessor (batchSize e) d
  else e.

(** [e.processBatch(ctx)] *)
Definition processBatch (env : Providers) (now : time)
  (e : EmbeddingProcessor) : M unit :=
  Jobs.processBatch env now (batchSize e).

End JobsSettings.

Module BacklogSpec.
Import DocStore EmbeddingService Jobs DocSpec JobsSettings.

(** A call of a setter. *)
Inductive Setting : Type :=
| BatchSize (size : Z)
| Interval (d : Z).

Definition apply (e : EmbeddingProcessor) (s : Setting)
  : EmbeddingProcessor :=
  match s with
  | BatchSize size => SetBatchSize size e
  | Interval d => SetInterval d e
  end.

(** The gate of [processDocument] rejects the content of [r]. *)
Definition rejected (r : DocRow) : bool :=
  (len (TrimSpace (content r)) <? 10)%Z.

(** The text [processDocument] sends for the row [r]. *)
Definition request (r : DocRow) : gostring :=
  truncate (TrimSpace (TrimSpace (content r))).

(** The provider answers the request for [r] with at least one vector,
    the first of the dimension of the column. *)
Definition answered (env : Providers) (r : DocRow) : Prop :=
  exists v vs, createEmbeddings env (request r) = Some (v :: vs)
               /\ length v = dimension.

(** A provider that is down. *)
Definition providerDown : Providers :=
  mkProviders (fun _ => None) (fun _ _ => None).

(** The store after the delivery of one valid document. *)
Definition oneDocument : World :=
  Eval vm_compute in run [Delivery 1%Z validDocument] emptyWorld.

End BacklogSpec.

(** ** [RAGService.ProcessPendingEmbeddings] *)

Module Pending.
Import DocStore EmbeddingService.
Local Open Scope go_scope.

(** [for _, doc := range documents { ... }]; the first error ends the loop
    and is returned. *)
Fixpoint embedDocuments (env : Providers) (now : time)
  (documents : list Document) : M unit :=
  match documents with
  | [] => ret tt
  | doc :: rest =>
      embedding <- wrap (str "failed to generate embedding for document "
                         ++ ID doc)
                        (GenerateEmbedding env (Content doc)) ;;
      wrap (str "failed to update embedding for document " ++ ID doc)
           (UpdateEmbedding now (ID doc) embedding) ;;;
      embedDocuments env now rest
  end.

Definition ProcessPendingEmbeddings (env : Providers) (now : time)
  : M unit :=
  documents <- wrap (str "failed to get documents without embeddings")
                    (GetDocumentsWithoutEmbeddings 50) ;;
  embedDocuments env now documents.

End Pending.

Module SearchSpec.
Import DocStore Jobs DocSpec.

(** A document with blank content, and the store after its delivery and
    the delivery of a valid document. *)
Definition blankDocument : Document :=
  Eval vm_compute in sampleDocument (str "blank-doc-1") (str "   ").

Definition blankFirst : World :=
  Eval vm_compute in
  run [Delivery 1%Z blankDocument; Delivery 2%Z validDocument] emptyWorld.

End SearchSpec.

Module ThreadSpec.
Import SlackStore EmbeddingService SlackJobs SlackSpec.



End ThreadSpec.

(** ** The Slack API, as the handler of message actions uses it *)

Module SlackAPI.

(** The fields of [slack.Message] that the handler reads. *)
Record Message : Type := mkMessage {
  Text : gostring;
  SubType : gostring;
  User : gostring;
  BotID : gostring;
  Timestamp : gostring;
  ThreadTimestamp : gostring;
  ClientMsgID : gostring }.

(** [slack.User]: [Name], [Profile.DisplayName], [Profile.RealName]. *)
Record UserInfo : Type := mkUserInfo {
  Name : gostring;
  Profile_DisplayName : gostring;
  Profile_RealName : gostring }.

(** [slack.InteractionCallback]: [Message], [Channel.ID], [User.ID]. *)
Record InteractionCallback : Type := mkInteractionCallback {
  CallbackID : gostring;
  Message_ : Message;
  Channel_ID : gostring;
  User_ID : gostring }.

(** The calls of [slack.Client] that read: [GetUserInfoContext], and
    [GetConversationRepliesContext] for a channel and a thread timestamp
    (with [Limit: 100] and [Inclusive: true]); [None] is an error. *)
Record Client : Type := mkClient {
  GetUserInfo : gostring -> option UserInfo;
  GetConversationReplies : gostring -> gostring -> option (list Message) }.

End SlackAPI.

(** ** [slack.SlackHandler]: collecting a thread *)

Module Collect.
Import SlackStore Normalizer.
Local Open Scope go_scope.

Record SlackHandler : Type := mkSlackHandler {
  client : SlackAPI.Client;
  botUserID : gostring }.

Definition getUserDisplayName (h : SlackHandler) (userID : gostring)
  : gostring :=
  if streq userID [] then []
  else
    match SlackAPI.GetUserInfo (client h) userID with
    | None => userID
    | Some user =>
        if negb (streq (SlackAPI.Profile_DisplayName user) [])
        then SlackAPI.Profile_DisplayName user
        else if negb (streq (SlackAPI.Profile_RealName user) [])
        then SlackAPI.Profile_RealName user
        else if negb (streq (SlackAPI.Name user) [])
        then SlackAPI.Name user
        else userID
    end.

(** [convertSlackMessage]; [None] is the [nil] of a skipped message. *)
Definition convertSlackMessage (h : SlackHandler)
  (slackMsg : SlackAPI.Message) (channelID threadTS : gostring)
  : option SlackMessage :=
  if streq (SlackAPI.Text slackMsg) [] then None
  else if streq (SlackAPI.SubType slackMsg) (str "bot_message") then None
  else if negb (streq (botUserID h) [])
          && streq (SlackAPI.User slackMsg) (botUserID h) then None
  else
    let cleanText := cleanMessageText (SlackAPI.Text slackMsg) in
    if streq (TrimSpace cleanText) [] then None
    else if (len (TrimSpace cleanText) <? 10)%Z
            && negb (streq (SlackAPI.Timestamp slackMsg) threadTS) then None
    else
      let userName := getUserDisplayName h (SlackAPI.User slackMsg) in
      let isThreadRoot := streq (SlackAPI.Timestamp slackMsg) threadTS in
      Some (mkSlackMessage 0 channelID threadTS
              (SlackAPI.Timestamp slackMsg) (SlackAPI.User slackMsg)
              userName (TrimSpace cleanText) []
              (SlackAPI.ClientMsgID slackMsg) isThreadRoot 0 0).

(** [for i, slackMsg := range slackMessages { ... }]: the messages that
    convert are stored; [storedCount] counts the insertions.  A message
    whose storage fails is logged and skipped. *)
Fixpoint storeMessages (h : SlackHandler) (now : time)
  (channelID threadTS : gostring) (slackMessages : list SlackAPI.Message)
  (storedCount : Z) : M Z :=
  match slackMessages with
  | [] => ret storedCount
  | slackMsg :: rest =>
      match convertSlackMessage h slackMsg channelID threadTS with
      | None => storeMessages h now channelID threadTS rest storedCount
      | Some msg =>
          fun w =>
            match StoreMessage now msg w with
            | (inl _, w') =>
                storeMessages h now channelID threadTS rest storedCount w'
            | (inr (_, wasInserted), w') =>
                storeMessages h now channelID threadTS rest
                  (if wasInserted : bool then storedCount + 1
                   else storedCount)%Z w'
            end
      end
  end.

(** The bytes of the two signs that open the notifications. *)
Definition checkMark : gostring := [xe2; x9c; x85].
Definition crossMark : gostring := [xe2; x9d; x8c].

(** The text [sendCompletionMessage] posts. *)
Definition completionText (storedCount totalCount : Z) : gostring :=
  if (storedCount =? totalCount)%Z then
    checkMark ++ str " Stored " ++ itoa storedCount
    ++ str " messages from thread in knowledge base"
  else
    checkMark ++ str " Stored " ++ itoa storedCount
    ++ str " new messages from thread (" ++ itoa totalCount
    ++ str " total messages)".

(** The text [sendProcessingError] posts. *)
Definition errorText : gostring :=
  crossMark ++ str " Failed to process thread. Please try again.".

(** The thread an action was triggered in. *)
Definition threadOf (interaction : SlackAPI.InteractionCallback)
  : gostring :=
  let message := SlackAPI.Message_ interaction in
  if streq (SlackAPI.ThreadTimestamp message) []
  then SlackAPI.Timestamp message
  else SlackAPI.ThreadTimestamp message.

(** [handleCollectContext]; the result is the text of the ephemeral
    message posted to the user at the end.  [now] is the instant of the
    run. *)
Definition handleCollectContext (h : SlackHandler) (now : time)
  (interaction : SlackAPI.InteractionCallback) : M gostring :=
  let channelID := SlackAPI.Channel_ID interaction in
  let threadTS := threadOf interaction in
  match SlackAPI.GetConversationReplies (client h) channelID threadTS with
  | None => ret errorText
  | Some slackMessages =>
      storedCount <- storeMessages h now channelID threadTS slackMessages 0 ;;
      ret (completionText storedCount
                          (Z.of_nat (length slackMessages)))
  end.

(** [isTriggeredOnBotMessage] *)
Definition isTriggeredOnBotMessage (h : SlackHandler)
  (interaction : SlackAPI.InteractionCallback) : bool :=
  let message := SlackAPI.Message_ interaction in
  if negb (streq (SlackAPI.BotID message) []) then true
  else if streq (SlackAPI.SubType message) (str "bot_message") then true
  else if negb (streq (botUserID h) [])
          && streq (SlackAPI.User message) (botUserID h) then true
  else if negb (streq (SlackAPI.User message) [])
          && HasPrefix (SlackAPI.User message) (str "B") then true
  else false.

End Collect.

Module CollectSpec.
Import SlackStore Collect.

(** The messages of the list that [convertSlackMessage] keeps. *)
Definition converted (h : SlackHandler) (channelID threadTS : gostring)
  (slackMessages : list SlackAPI.Message) : list SlackMessage :=
  flat_map (fun slackMsg =>
              match convertSlackMessage h slackMsg channelID threadTS with
              | Some msg => [msg]
              | None => []
              end) slackMessages.

(** A thread of two messages and a reply of the bot, as the API returns
    it; the names of the users are not known to the API. *)
Definition reply (ts user text : gostring) : SlackAPI.Message :=
  SlackAPI.mkMessage text [] user [] ts (str "1734277500.000100") [].

Definition sampleThread : list SlackAPI.Message :=
  [ reply (str "1734277500.000100") (str "U1") (str "<@U9> how do we deploy?");
    reply (str "1734277500.000200") (str "U2")
          (str "The deployment pipeline runs every night at two");
    reply (str "1734277500.000300") (str "UBOT") (str "Got it!") ].

Definition sampleClient : SlackAPI.Client :=
  SlackAPI.mkClient (fun _ => None) (fun _ _ => Some sampleThread).

Definition sampleHandler : SlackHandler :=
  mkSlackHandler sampleClient (str "UBOT").

Definition sampleAction : SlackAPI.InteractionCallback :=
  SlackAPI.mkInteractionCallback (str "collect_context")
    (reply (str "1734277500.000200") (str "U2") (str "anything"))
    (str "C06DTMSH03E") (str "U1").

End CollectSpec.


(* ================================================================== *)
(** * Part II: properties                                              *)
(* ================================================================== *)

(** ** Facts about the [strings] functions *)

Module GoStringsFacts.
Import Spec.

Lemma isSpace2_sp a : isSpace2 a x20 = false.
Proof. unfold isSpace2. now rewrite andb_false_r. Qed.

Lemma isSpace3_sp_mid a c : isSpace3 a x20 c = false.
Proof. unfold isSpace3. cbn. now rewrite !andb_false_r. Qed.

Lemma isSpace3_sp_last a b : isSpace3 a b x20 = false.
Proof. unfold isSpace3. cbn. now rewrite !andb_false_r. Qed.

(** A white-space rune found at the head of [v] is still there when [v] is
    extended. *)
Lemma spaceWidth_app v t :
  spaceWidth v <> 0 -> spaceWidth (v ++ t) = spaceWidth v.
Proof.
  destruct v as [|a [|b [|c v]]]; cbn; try congruence.
  - destruct (isSpace1 a); congruence.
  - destruct (isSpace1 a); [reflexivity|].
    destruct (isSpace2 a b); congruence.
Qed.

(** The byte 0x20 belongs to no rune of more than one byte. *)
Lemma spaceWidth_before_sp v t :
  v <> [] -> spaceWidth (v ++ x20 :: t) = spaceWidth v.
Proof.
  destruct v as [|a [|b [|c v]]]; cbn; try congruence; intros _.
  - destruct (isSpace1 a); [reflexivity|].
    rewrite isSpace2_sp. destruct t; [reflexivity|].
    now rewrite isSpace3_sp_mid.
  - destruct (isSpace1 a); [reflexivity|].
    destruct (isSpace2 a b); [reflexivity|].
    now rewrite isSpace3_sp_last.
Qed.

Lemma Forall_pushField w ws :
  spacefree w -> Forall wordlike ws -> Forall wordlike (pushField w ws).
Proof.
  intros Hw Hws. destruct w; cbn; [assumption|].
  constructor; [split; [discriminate|assumption]|assumption].
Qed.

Lemma fieldsR_spec s : forall k,
  spacefree (fst (fieldsR k s))
  /\ Forall wordlike (snd (fieldsR k s))
  /\ (k = 0 -> exists r, s = fst (fieldsR k s) ++ r).
Proof.
  induction s as [|b t IH]; intros k.
  - cbn. repeat split; [constructor|]. intros _. now exists [].
  - cbn [fieldsR]. destruct k as [|k].
    + destruct (spaceWidth (b :: t)) as [|j] eqn:E.
      * destruct (IH 0) as (Hw & Hws & Hp).
        destruct (fieldsR 0 t) as [w ws]. cbn [fst snd] in *.
        destruct (Hp eq_refl) as [r Hr].
        repeat split; [| assumption | assumption |].
        -- destruct (Nat.eq_dec (spaceWidth (b :: w)) 0) as [|N]; [assumption|].
           apply (spaceWidth_app (b :: w) r) in N as N'.
           cbn [app] in N'. rewrite <- Hr in N'. congruence.
        -- intros _. exists r. cbn. now rewrite <- Hr.
      * destruct (IH j) as (Hw & Hws & _).
        destruct (fieldsR j t) as [w ws]. cbn [fst snd] in *.
        repeat split; [now apply Forall_pushField|].
        intros _. now exists (b :: t).
    + destruct (IH k) as (Hw & Hws & _).
      destruct (fieldsR k t) as [w ws]. cbn [fst snd] in *.
      repeat split; [now apply Forall_pushField|]. discriminate.
Qed.

Lemma Fields_wordlike s : Forall wordlike (Fields s).
Proof.
  unfold Fields. destruct (fieldsR_spec s 0) as (Hw & Hws & _).
  destruct (fieldsR 0 s) as [w ws]. now apply Forall_pushField.
Qed.

(** Reading a word that is followed by a space. *)
Lemma fieldsR_word w t :
  spacefree w -> fieldsR 0 (w ++ x20 :: t) = (w, Fields t).
Proof.
  induction w as [|b w IH]; intros Hw.
  - cbn. unfold Fields. now destruct (fieldsR 0 t).
  - destruct Hw as [H0 Hw]. cbn [app fieldsR].
    change (b :: w ++ x20 :: t) with ((b :: w) ++ x20 :: t).
    rewrite spaceWidth_before_sp by discriminate. rewrite H0.
    now rewrite (IH Hw).
Qed.

(** Reading the last word. *)
Lemma fieldsR_last w : spacefree w -> fieldsR 0 w = (w, []).
Proof.
  induction w as [|b w IH]; intros Hw; [reflexivity|].
  destruct Hw as [H0 Hw]. cbn [fieldsR]. rewrite H0. now rewrite (IH Hw).
Qed.

(** [Fields] undoes [Join] with a single space. *)
Lemma Fields_Join ws :
  Forall wordlike ws -> Fields (Join ws (str " ")) = ws.
Proof.
  induction 1 as [|w ws [Hne Hw] Hws IH]; [reflexivity|].
  destruct ws as [|w' ws].
  - cbn [Join]. unfold Fields. rewrite fieldsR_last by assumption.
    destruct w; [congruence|reflexivity].
  - change (Join (w :: w' :: ws) (str " "))
      with (w ++ x20 :: Join (w' :: ws) (str " ")).
    unfold Fields at 1. rewrite fieldsR_word by assumption. rewrite IH.
    destruct w; [congruence|reflexivity].
Qed.

(** *** Equality test *)

Lemma streq_eq a : forall b, streq a b = true <-> a = b.
Proof.
  induction a as [|x a IH]; intros [|y b]; cbn; split; try easy.
  - intros H. apply andb_prop in H as [Hx Ha].
    apply byte_dec_bl in Hx. apply IH in Ha. congruence.
  - intros [= -> ->]. apply andb_true_intro. split.
    + now apply byte_dec_lb.
    + now apply IH.
Qed.

Lemma streq_refl a : streq a a = true.
Proof. now apply streq_eq. Qed.

Lemma streq_nil_false a : a <> [] -> streq a [] = false.
Proof. now destruct a. Qed.

(** *** [TrimSpace] *)

Section Trim.

Variable width : gostring -> nat.
Hypothesis width_nil : width [] = 0.

Lemma trimWith_fix s : width s = 0 -> trimWith width 0 s = s.
Proof. destruct s; cbn; [reflexivity|]. now intros ->. Qed.

Lemma trimWith_head s : forall k, width (trimWith width k s) = 0.
Proof.
  induction s as [|b t IH]; intros k; cbn [trimWith]; [assumption|].
  destruct k; [|apply IH].
  destruct (width (b :: t)) eqn:E; [assumption|apply IH].
Qed.

Lemma trimWith_suffix s : forall k, exists p, s = p ++ trimWith width k s.
Proof.
  induction s as [|b t IH]; intros k; cbn [trimWith]; [now exists []|].
  destruct k as [|k].
  - destruct (width (b :: t)) as [|j]; [now exists []|].
    destruct (IH j) as [p Hp]. exists (b :: p). cbn. now rewrite <- Hp.
  - destruct (IH k) as [p Hp]. exists (b :: p). cbn. now rewrite <- Hp.
Qed.

End Trim.

Lemma trimRight_prefix s : exists r, s = trimRight s ++ r.
Proof.
  unfold trimRight.
  destruct (trimWith_suffix spaceWidthRev (rev s) 0) as [p Hp].
  exists (rev p). rewrite <- rev_app_distr, <- Hp. now rewrite rev_involutive.
Qed.

Lemma trimRight_fix s : spaceWidthRev (rev s) = 0 -> trimRight s = s.
Proof.
  intros H. unfold trimRight. rewrite trimWith_fix by assumption.
  apply rev_involutive.
Qed.

Lemma trimRight_tail s : spaceWidthRev (rev (trimRight s)) = 0.
Proof.
  unfold trimRight. rewrite rev_involutive. now apply trimWith_head.
Qed.

(** A trimmed string neither starts nor ends with white space. *)
Lemma TrimSpace_head s : spaceWidth (TrimSpace s) = 0.
Proof.
  unfold TrimSpace. destruct (trimRight_prefix (trimLeft s)) as [r Hr].
  destruct (Nat.eq_dec (spaceWidth (trimRight (trimLeft s))) 0) as [|N];
    [assumption|].
  apply (spaceWidth_app _ r) in N as N'. rewrite <- Hr in N'.
  unfold trimLeft in N' at 1. rewrite trimWith_head in N' by reflexivity.
  congruence.
Qed.

Lemma TrimSpace_fix s :
  spaceWidth s = 0 -> spaceWidthRev (rev s) = 0 -> TrimSpace s = s.
Proof.
  intros Hl Hr. unfold TrimSpace, trimLeft.
  rewrite trimWith_fix by assumption. now apply trimRight_fix.
Qed.

Lemma TrimSpace_idempotent s : TrimSpace (TrimSpace s) = TrimSpace s.
Proof.
  apply TrimSpace_fix; [apply TrimSpace_head|].
  unfold TrimSpace. apply trimRight_tail.
Qed.

(** *** [Index] and [Contains] *)

Lemma HasPrefix_length s : forall p,
  HasPrefix s p = true -> length p <= length s.
Proof.
  induction s as [|c s IH]; intros [|x p]; cbn; try easy; try lia.
  intros H. apply andb_prop in H as [_ H]. apply IH in H. lia.
Qed.

(** A found index leaves room for the substring. *)
Lemma indexFrom_bounds substr s : forall i,
  indexFrom i s substr = (-1)%Z
  \/ (i <= indexFrom i s substr
      /\ indexFrom i s substr - i + len substr <= len s)%Z.
Proof.
  unfold len.
  induction s as [|c s IH]; intros i; cbn [indexFrom].
  - destruct (HasPrefix [] substr) eqn:E; [|now left].
    right. apply HasPrefix_length in E. cbn in *. lia.
  - destruct (HasPrefix (c :: s) substr) eqn:E.
    + right. apply HasPrefix_length in E. cbn [length] in *. lia.
    + destruct (IH (i + 1)%Z) as [->|H]; [now left|].
      right. cbn [length]. lia.
Qed.

Lemma indexFrom_none substr s : forall i j,
  (0 <= i)%Z -> indexFrom i s substr = (-1)%Z ->
  indexFrom j s substr = (-1)%Z.
Proof.
  induction s as [|c s IH]; intros i j Hi; cbn [indexFrom].
  - destruct (HasPrefix [] substr); [lia|reflexivity].
  - destruct (HasPrefix (c :: s) substr); [lia|].
    apply IH. lia.
Qed.

Lemma Contains_cons c s substr :
  Contains s substr = true -> Contains (c :: s) substr = true.
Proof.
  unfold Contains, Index. intros H. apply Z.leb_le in H. apply Z.leb_le.
  cbn [indexFrom]. destruct (HasPrefix (c :: s) substr); [lia|].
  destruct (indexFrom_bounds substr s (0 + 1)) as [E|E]; [|lia].
  apply (@indexFrom_none substr s (0 + 1)%Z 0%Z) in E; lia.
Qed.

Lemma Contains_app a s substr :
  Contains s substr = true -> Contains (a ++ s) substr = true.
Proof.
  intros H. induction a as [|c a IH]; [assumption|].
  cbn [app]. now apply Contains_cons.
Qed.

Lemma HasPrefix_app s b : forall p,
  HasPrefix s p = true -> HasPrefix (s ++ b) p = true.
Proof.
  induction s as [|c s IH]; intros [|x p]; cbn [app HasPrefix]; try easy.
  - intros _. now destruct b.
  - intros H. apply andb_prop in H as [Hx H]. rewrite Hx. now apply IH.
Qed.

Lemma Contains_tail c s substr :
  Contains (c :: s) substr = true -> HasPrefix (c :: s) substr = false ->
  Contains s substr = true.
Proof.
  unfold Contains, Index. cbn [indexFrom]. intros H Hp. rewrite Hp in H.
  apply Z.leb_le in H. apply Z.leb_le.
  destruct (indexFrom_bounds substr s 0) as [E|E]; [|lia].
  apply (@indexFrom_none substr s 0%Z (0 + 1)%Z) in E; lia.
Qed.

Lemma Contains_app_l s b substr :
  Contains s substr = true -> Contains (s ++ b) substr = true.
Proof.
  induction s as [|c s IH]; intros H.
  - unfold Contains, Index in *. cbn [indexFrom] in H.
    destruct substr; [now destruct b|discriminate].
  - cbn [app]. destruct (HasPrefix (c :: s) substr) eqn:E.
    + apply (HasPrefix_app _ b) in E. cbn [app] in E.
      unfold Contains, Index. cbn [indexFrom]. now rewrite E.
    + apply Contains_cons, IH. now apply Contains_tail with (c := c).
Qed.

Lemma Join_Contains sep substr part : forall parts,
  In part parts -> Contains part substr = true ->
  Contains (Join parts sep) substr = true.
Proof.
  induction parts as [|w [|w' parts] IH]; intros Hin Hc; [easy| |].
  - destruct Hin as [->|[]]. assumption.
  - change (Join (w :: w' :: parts) sep)
      with (w ++ sep ++ Join (w' :: parts) sep).
    destruct Hin as [->|Hin]; [now apply Contains_app_l|].
    rewrite app_assoc. apply Contains_app. now apply IH.
Qed.

Lemma ToLower_app a b : ToLower (a ++ b) = ToLower a ++ ToLower b.
Proof. apply map_app. Qed.

Lemma ToLower_Join sep : forall parts,
  ToLower (Join parts sep) = Join (map ToLower parts) (ToLower sep).
Proof.
  induction parts as [|w [|w' parts] IH]; [reflexivity|reflexivity|].
  change (Join (w :: w' :: parts) sep)
    with (w ++ sep ++ Join (w' :: parts) sep).
  rewrite !ToLower_app, IH. reflexivity.
Qed.

End GoStringsFacts.

(** ** The chunker *)

Module ChunkerFacts.
Import Spec GoStringsFacts Chunker.

Section Loop.

Variable max : nat.
Variable words : list gostring.
Hypothesis max_pos : 0 < max.
Hypothesis words_ok : Forall wordlike words.

Local Abbreviation sliceAt := (Spec.sliceAt max words).

Lemma sliceAt_wordlike i : Forall wordlike (sliceAt i).
Proof.
  unfold sliceAt. rewrite Forall_forall in *. intros w Hin.
  apply words_ok. rewrite <- (firstn_skipn i words).
  apply in_or_app. right.
  match type of Hin with In _ (firstn ?n ?l) =>
    rewrite <- (firstn_skipn n l) end.
  apply in_or_app. now left.
Qed.

Lemma sliceAt_length i : length (sliceAt i) <= max.
Proof.
  unfold sliceAt. rewrite length_firstn.
  destruct (Nat.ltb_spec (length words) (i + max)); lia.
Qed.

Lemma sliceAt_skipn i :
  sliceAt i ++ skipn (i + max) words = skipn i words.
Proof.
  unfold sliceAt. destruct (Nat.ltb_spec (length words) (i + max)).
  - rewrite firstn_all2 by (rewrite length_skipn; lia).
    rewrite (skipn_all2 (n := i + max)) by lia. apply app_nil_r.
  - replace (i + max - i) with max by lia.
    rewrite Nat.add_comm, <- skipn_skipn. apply firstn_skipn.
Qed.

(** The chunks of the loop started at [i], read back as words, are the
    words from [i] on. *)
Lemma chunkLoop_words fuel : forall i,
  length words - i <= fuel ->
  flat_map Fields (chunkLoop fuel max i words) = skipn i words.
Proof.
  induction fuel as [|fuel IH]; intros i Hf; cbn [chunkLoop].
  - rewrite skipn_all2 by lia. reflexivity.
  - destruct (Nat.ltb_spec i (length words)).
    + cbn [flat_map]. fold (sliceAt i).
      rewrite (Fields_Join (sliceAt_wordlike i)), IH by lia.
      apply sliceAt_skipn.
    + rewrite skipn_all2 by lia. reflexivity.
Qed.

(** Every chunk of the loop is the join of at most [max] words. *)
Lemma chunkLoop_chunks fuel : forall i,
  Forall (fun chunk => length (Fields chunk) <= max
                       /\ chunk = Join (Fields chunk) (str " "))
         (chunkLoop fuel max i words).
Proof.
  induction fuel as [|fuel IH]; intros i; cbn [chunkLoop]; [constructor|].
  destruct (Nat.ltb_spec i (length words)); [|constructor].
  constructor; [|apply IH]. fold (sliceAt i).
  rewrite (Fields_Join (sliceAt_wordlike i)).
  split; [apply sliceAt_length|reflexivity].
Qed.

End Loop.

Lemma maxWordsPerChunk_pos : 0 < maxWordsPerChunk.
Proof. apply Nat.ltb_lt. vm_compute. reflexivity. Qed.

Lemma chunkWith_words max content :
  0 < max -> flat_map Fields (chunkWith max content) = Fields content.
Proof.
  intros Hmax. unfold chunkWith.
  destruct (Nat.leb_spec (length (Fields content)) max).
  - cbn. apply app_nil_r.
  - rewrite chunkLoop_words by (auto using Fields_wordlike; lia).
    reflexivity.
Qed.

(** C9.  With the limit of 7000 words ([maxWordsPerChunk]): every chunk
    [chunkContent] returns holds at most 7000 white-space separated words; a
    text of at most 7000 words comes back as the one-element list holding
    the text itself, byte for byte; and [chunkContent] is a function of the
    text alone, so equal texts give equal chunk lists. *)
Theorem chunkContent_bounded (content : gostring) :
  Forall (fun chunk => length (Fields chunk) <= maxWordsPerChunk)
         (chunkContent content)
  /\ (length (Fields content) <= maxWordsPerChunk ->
      chunkContent content = [content])
  /\ (forall content', content' = content ->
      chunkContent content' = chunkContent content).
Proof.
  unfold chunkContent, chunkWith. repeat split.
  - destruct (Nat.leb_spec (length (Fields content)) maxWordsPerChunk).
    + constructor; [assumption|constructor].
    + eapply Forall_impl;
        [|apply chunkLoop_chunks;
          auto using maxWordsPerChunk_pos, Fields_wordlike].
      now intros chunk [Hlen _].
  - intros Hle. apply Nat.leb_le in Hle. now rewrite Hle.
  - now intros content' ->.
Qed.

(** C10.  Reading the chunks of [chunkContent] back as words, in chunk
    order, gives exactly the words of the text: nothing is lost, repeated or
    reordered.  When the text is split (more than 7000 words) every chunk is
    its words joined by single spaces. *)
Theorem chunkContent_preserves_words (content : gostring) :
  flat_map Fields (chunkContent content) = Fields content
  /\ (maxWordsPerChunk < length (Fields content) ->
      Forall (fun chunk => chunk = Join (Fields chunk) (str " "))
             (chunkContent content)).
Proof.
  split.
  - apply chunkWith_words, maxWordsPerChunk_pos.
  - intros Hlt. unfold chunkContent, chunkWith.
    apply Nat.leb_gt in Hlt. rewrite Hlt.
    eapply Forall_impl;
      [|apply chunkLoop_chunks;
          auto using maxWordsPerChunk_pos, Fields_wordlike].
    now intros chunk [_ Hj].
Qed.

End ChunkerFacts.

(** ** Hashing *)

Module HashFacts.

(** The digests [TestHashContent] expects. *)
Example HashContent_empty :
  HashContent []
  = str "e3b0c44298fc1c149afbf4c8996fb92427ae41e4649b934ca495991b7852b855".
Proof. vm_compute. reflexivity. Qed.

Example HashContent_hello_world :
  HashContent (str "hello world")
  = str "b94d27b9934d3e08a52e52d7da7dabfac484efe37a5380ee9088f7ace2efcde9".
Proof. vm_compute. reflexivity. Qed.

End HashFacts.

(** ** The content normalizer *)

Module NormalizerFacts.
Import GoStringsFacts Normalizer.

Lemma stripOnce_nil marker : stripOnce marker [] = None.
Proof. now destruct marker. Qed.

(** Every turn of a loop of [cleanMessageText] shortens the text. *)
Lemma stripOnce_shorter marker text text' :
  stripOnce marker text = Some text' -> length text' < length text.
Proof.
  unfold stripOnce, Contains, Index, sliceTo, sliceFrom.
  destruct (0 <=? indexFrom 0 text marker)%Z eqn:Hc; [|discriminate].
  apply Z.leb_le in Hc.
  set (start := indexFrom 0 text marker) in *.
  destruct (indexFrom_bounds (str ">") (skipn (Z.to_nat start) text) 0)
    as [E|[E1 E2]].
  - rewrite E. discriminate.
  - set (end_ := indexFrom 0 (skipn (Z.to_nat start) text) (str ">")) in *.
    destruct (end_ =? -1)%Z; [discriminate|]. intros [= <-].
    destruct (indexFrom_bounds marker text 0) as [E|[_ E3]];
      [fold start in E; lia|]. fold start in E3.
    unfold len in *. rewrite length_skipn in E2.
    change (length (str ">")) with 1 in E2.
    rewrite length_app, length_firstn, length_skipn.
    clearbody start end_. lia.
Qed.

(** With [length text] turns allowed the loop stops by itself: its exit
    test holds on the result. *)
Lemma stripAll_done marker fuel : forall text,
  length text <= fuel -> stripOnce marker (stripAll fuel marker text) = None.
Proof.
  induction fuel as [|fuel IH]; intros text Hf; cbn [stripAll].
  - destruct text; [apply stripOnce_nil|cbn in Hf; lia].
  - destruct (stripOnce marker text) as [text'|] eqn:E; [|assumption].
    apply IH. apply stripOnce_shorter in E. lia.
Qed.

(** C5.  [cleanMessageText] is not idempotent.  On ["<<#x>@U1>"] the first
    loop finds no ["<@"]; the second removes ["<#x>"], which brings ["<"] and
    ["@U1>"] together, and the result ["<@U1>"] still holds a user mention.
    A second application removes it and returns the empty string. *)
Theorem cleanMessageText_not_idempotent :
  cleanMessageText (str "<<#x>@U1>") = str "<@U1>"
  /\ cleanMessageText (cleanMessageText (str "<<#x>@U1>")) = []
  /\ cleanMessageText (cleanMessageText (str "<<#x>@U1>"))
     <> cleanMessageText (str "<<#x>@U1>").
Proof. repeat split. vm_compute. discriminate. Qed.

End NormalizerFacts.

(** ** Sorting and the monad *)

Module WorldFacts.

Lemma insertSorted_In A (le : A -> A -> bool) x y l :
  In y (insertSorted le x l) <-> y = x \/ In y l.
Proof.
  induction l as [|z l IH]; cbn; [intuition congruence|].
  destruct (le x z); cbn; [intuition congruence|].
  rewrite IH. intuition congruence.
Qed.

Lemma sortBy_In A (le : A -> A -> bool) y l :
  In y (sortBy le l) <-> In y l.
Proof.
  induction l as [|x l IH]; cbn; [reflexivity|].
  rewrite insertSorted_In, IH. intuition congruence.
Qed.

Lemma insertSorted_length A (le : A -> A -> bool) x l :
  length (insertSorted le x l) = S (length l).
Proof.
  induction l as [|z l IH]; cbn; [reflexivity|].
  destruct (le x z); cbn; [reflexivity|]. now rewrite IH.
Qed.

Lemma sortBy_length A (le : A -> A -> bool) l :
  length (sortBy le l) = length l.
Proof.
  induction l as [|x l IH]; [reflexivity|].
  change (sortBy le (x :: l)) with (insertSorted le x (sortBy le l)).
  now rewrite insertSorted_length, IH.
Qed.

Lemma firstn_In A n (l : list A) x : In x (firstn n l) -> In x l.
Proof.
  intros H. rewrite <- (firstn_skipn n l). apply in_or_app. now left.
Qed.

(** A loop whose body keeps a property of the world, for the elements of
    the list, keeps it. *)
Lemma forEach_preserves_in A (P : World -> Prop) (body : A -> M unit) xs :
  (forall x w, In x xs -> P w -> P (snd (body x w))) ->
  forall w, P w -> P (snd (forEach xs body w)).
Proof.
  induction xs as [|x xs IH]; intros Hbody w Hw; [assumption|].
  cbn [forEach]. unfold bind.
  pose proof (Hbody x w (or_introl eq_refl) Hw) as Hx.
  destruct (body x w) as [[e|[]] w']; cbn [snd] in *; [assumption|].
  apply IH; [|assumption].
  intros y w0 Hy. apply Hbody. now right.
Qed.

Lemma logAndContinue_snd (m : M unit) w :
  snd (logAndContinue m w) = snd (m w).
Proof. reflexivity. Qed.

End WorldFacts.

(** ** The document store and its backlog processor *)

Module DocStoreFacts.
Import GoStringsFacts WorldFacts DocStore EmbeddingService Jobs.
Import Spec DocSpec.

Lemma UpdateEmbedding_run now documentID v w :
  UpdateEmbedding now documentID v w
  = if length v =? dimension then
      (inr tt,
       setDocuments w (map (updateRow now documentID v) (documents w)))
    else
      (inl (Wrapped (str "failed to update embedding")
                    (DimensionMismatch dimension (length v))), w).
Proof.
  unfold UpdateEmbedding, wrap. now destruct (length v =? dimension).
Qed.

Lemma StoreDocument_run now doc w :
  StoreDocument now doc w
  = if existsb (conflicts doc) (documents w) then
      (inr tt,
       setDocuments w
         (map (fun r => if conflicts doc r then updateOnConflict now doc r
                        else r) (documents w)))
    else if existsb (fun r => streq (id r) (ID doc)) (documents w) then
      (inl (Wrapped (str "failed to store document")
                    (UniqueViolation (str "documents_pkey"))), w)
    else (inr tt, setDocuments w (documents w ++ [proposedRow now doc])).
Proof.
  unfold StoreDocument, wrap, bind, gets. cbn.
  destruct (existsb (conflicts doc) (documents w)); [reflexivity|].
  now destruct (existsb (fun r => streq (id r) (ID doc)) (documents w)).
Qed.

Lemma GetDocumentsWithoutEmbeddings_run limit w :
  GetDocumentsWithoutEmbeddings limit w
  = if (limit <? 0)%Z then
      (inl (Wrapped (str "failed to get documents without embeddings")
                    NegativeLimit), w)
    else (inr (map scanDocument (firstn (Z.to_nat limit) (missingRows w))),
          w).
Proof.
  unfold GetDocumentsWithoutEmbeddings, wrap, bind, gets, limitRows. cbn.
  now destruct (limit <? 0)%Z.
Qed.

Lemma GenerateEmbedding_run env text w :
  GenerateEmbedding env text w
  = if streq (TrimSpace text) [] then
      (inl (Msg (str "input text cannot be empty")), w)
    else
      let w' := setCalls w
                  (calls w ++ [EmbeddingCall (truncate (TrimSpace text))]) in
      match createEmbeddings env (truncate (TrimSpace text)) with
      | None => (inl (Wrapped (str "failed to generate embedding")
                              ProviderFailure), w')
      | Some [] => (inl (Msg (str "no embedding data returned")), w')
      | Some (data :: _) => (inr data, w')
      end.
Proof.
  unfold GenerateEmbedding. destruct (streq (TrimSpace text) []);
    [reflexivity|].
  unfold bind, record, modify. cbn.
  now destruct (createEmbeddings env (truncate (TrimSpace text))) as [[|]|].
Qed.

Lemma GenerateEmbedding_documents env text w :
  documents (snd (GenerateEmbedding env text w)) = documents w.
Proof.
  rewrite GenerateEmbedding_run. destruct (streq (TrimSpace text) []);
    [reflexivity|].
  cbn zeta.
  now destruct (createEmbeddings env (truncate (TrimSpace text))) as [[|]|].
Qed.

(** A text within the token limit is sent as it is. *)
Lemma truncate_short text : (len text <= maxChars)%Z -> truncate text = text.
Proof.
  intros H. unfold truncate.
  destruct (Z.gtb_spec (len text) maxChars); [lia|reflexivity].
Qed.

Lemma updateRow_id now Y v r : id (updateRow now Y v r) = id r.
Proof. unfold updateRow. now destruct (streq (id r) Y). Qed.

Lemma updateRow_other now Y v r : id r <> Y -> updateRow now Y v r = r.
Proof.
  intros Hne. unfold updateRow. destruct (streq (id r) Y) eqn:E;
    [|reflexivity].
  apply streq_eq in E. contradiction.
Qed.

(** What [processDocument] leaves in the table: an embedding on the rows
    of the document, or the table as it was. *)
Lemma processDocument_documents env now doc w :
  documents (snd (processDocument env now doc w)) = documents w
  \/ exists v,
       documents (snd (processDocument env now doc w))
       = map (updateRow now (ID doc) v) (documents w).
Proof.
  assert (forall v w0, documents w0 = documents w ->
            documents (snd (UpdateEmbedding now (ID doc) v w0)) = documents w
            \/ exists v',
                 documents (snd (UpdateEmbedding now (ID doc) v w0))
                 = map (updateRow now (ID doc) v') (documents w)) as Hupdate.
  { intros v w0 Hw0. rewrite UpdateEmbedding_run.
    destruct (length v =? dimension); cbn [snd]; [right|now left].
    exists v. cbn [documents setDocuments]. now rewrite Hw0. }
  unfold processDocument.
  destruct (streq (TrimSpace (Content doc)) []); [now apply Hupdate|].
  destruct (len (TrimSpace (Content doc)) <? 10)%Z; [now apply Hupdate|].
  unfold bind.
  pose proof (GenerateEmbedding_documents env (TrimSpace (Content doc)) w)
    as Hd.
  destruct (GenerateEmbedding env (TrimSpace (Content doc)) w)
    as [[e|v] w']; cbn [snd] in *; [now left|].
  now apply Hupdate.
Qed.

Lemma len_nonempty (s : gostring) : (0 < len s)%Z -> streq s [] = false.
Proof. destruct s; cbn; [lia|reflexivity]. Qed.

(** *** The placeholder of a rejected document *)

(** The placeholder of [processDocument] has one component: the column
    refuses it. *)
Lemma placeholder_refused now documentID w :
  UpdateEmbedding now documentID emptyEmbedding w
  = (inl (Wrapped (str "failed to update embedding")
                  (DimensionMismatch dimension 1)), w).
Proof. reflexivity. Qed.

Lemma processDocument_rejected env now doc w :
  (len (TrimSpace (Content doc)) < 10)%Z ->
  processDocument env now doc w
  = (inl (Wrapped (str "failed to update embedding")
                  (DimensionMismatch dimension 1)), w).
Proof.
  intros Hlen. unfold processDocument.
  destruct (streq (TrimSpace (Content doc)) []);
    [apply placeholder_refused|].
  destruct (Z.ltb_spec (len (TrimSpace (Content doc))) 10);
    [apply placeholder_refused|lia].
Qed.

Lemma filter_filter A (p q : A -> bool) l :
  filter p (filter q l) = filter (fun x => q x && p x) l.
Proof.
  induction l as [|x l IH]; [reflexivity|]. cbn.
  destruct (q x); cbn; [destruct (p x)|]; now rewrite IH.
Qed.

Lemma filter_all A (p : A -> bool) l :
  (forall x, In x l -> p x = true) -> filter p l = l.
Proof.
  induction l as [|x l IH]; intros H; [reflexivity|]. cbn.
  rewrite (H x) by now left. rewrite IH; [reflexivity|].
  intros y Hy. apply H. now right.
Qed.

Lemma filter_none A (p : A -> bool) l :
  (forall x, In x l -> p x = false) -> filter p l = [].
Proof.
  induction l as [|x l IH]; intros H; [reflexivity|]. cbn.
  rewrite (H x) by now left. apply IH. intros y Hy. apply H. now right.
Qed.

Lemma filter_length_insertSorted A (p : A -> bool) le x l :
  length (filter p (insertSorted le x l)) = length (filter p (x :: l)).
Proof.
  induction l as [|y l IH]; [reflexivity|]. cbn [insertSorted].
  destruct (le x y); [reflexivity|]. cbn [filter] in *.
  destruct (p y), (p x); cbn [length] in *; lia.
Qed.

Lemma filter_length_sortBy A (p : A -> bool) le l :
  length (filter p (sortBy le l)) = length (filter p l).
Proof.
  induction l as [|x l IH]; [reflexivity|].
  change (sortBy le (x :: l)) with (insertSorted le x (sortBy le l)).
  rewrite filter_length_insertSorted. cbn [filter].
  destruct (p x); cbn [length]; now rewrite IH.
Qed.

Lemma outside_cons X ids r :
  outside (X :: ids) r = outside [X] r && outside ids r.
Proof.
  unfold outside. cbn [existsb]. rewrite orb_false_r. apply negb_orb.
Qed.

(** Writing an embedding to the rows of id [X] removes these rows from the
    missing ones and leaves the others. *)
Lemma missing_after_update now X v rows :
  filter missing (map (updateRow now X v) rows)
  = filter (outside [X]) (filter missing rows).
Proof.
  induction rows as [|r rows IH]; [reflexivity|].
  cbn [map filter]. rewrite IH.
  assert (outside [X] r = negb (streq (id r) X)) as Ho
    by (unfold outside; cbn; now rewrite orb_false_r).
  unfold updateRow.
  destruct (streq (id r) X) eqn:E.
  - change (missing (setEmbedding now v r)) with false.
    destruct (missing r); [cbn [filter]; now rewrite Ho|reflexivity].
  - destruct (missing r); [cbn [filter]; now rewrite Ho|reflexivity].
Qed.

(** The rows of a batch are not outside the batch. *)
Lemma batch_removed n rows :
  length (filter (outside (map id (firstn n rows))) rows)
  <= length rows - Nat.min n (length rows).
Proof.
  rewrite <- (firstn_skipn n rows) at 2.
  rewrite filter_app, filter_none, <- length_firstn.
  - cbn [app]. etransitivity; [apply filter_length_le|].
    rewrite length_skipn, length_firstn. lia.
  - intros r Hin. unfold outside.
    replace (existsb _ _) with true; [reflexivity|].
    symmetry. apply existsb_exists. exists (id r).
    split; [now apply in_map|apply streq_refl].
Qed.

(** *** The rows of a rejected document under the processor *)

Lemma rowsOfId_In X w r :
  In r (rowsOfId X w) <-> In r (documents w) /\ id r = X.
Proof.
  unfold rowsOfId. rewrite filter_In. now rewrite streq_eq.
Qed.

(** Writing an embedding to the rows of another id leaves the rows of id
    [X]. *)
Lemma rowsOfId_update X now Y v rows :
  Y <> X ->
  filter (fun r => streq (id r) X) (map (updateRow now Y v) rows)
  = filter (fun r => streq (id r) X) rows.
Proof.
  intros Hne. induction rows as [|r rows IH]; [reflexivity|].
  cbn [map filter]. rewrite IH, updateRow_id.
  destruct (streq (id r) X) eqn:E; [|reflexivity].
  apply streq_eq in E. rewrite updateRow_other by congruence. reflexivity.
Qed.

(** [processDocument] leaves the rows of id [X], when it is handed a
    rejected content for this id. *)
Lemma processDocument_rowsOfId X env now doc w :
  (ID doc = X -> (len (TrimSpace (Content doc)) < 10)%Z) ->
  rowsOfId X (snd (processDocument env now doc w)) = rowsOfId X w.
Proof.
  intros Hshort. destruct (streq (ID doc) X) eqn:E.
  - apply streq_eq in E. now rewrite processDocument_rejected by auto.
  - unfold rowsOfId.
    destruct (processDocument_documents env now doc w) as [->|[v ->]];
      [reflexivity|].
    apply rowsOfId_update. intros Heq. rewrite Heq, streq_refl in E.
    discriminate.
Qed.

Lemma rejectedPending_rowsOfId X w w' :
  rowsOfId X w' = rowsOfId X w ->
  rejectedPending X w -> rejectedPending X w'.
Proof.
  intros Hrows H r Hin Hr. apply H; [|assumption].
  apply (rowsOfId_In X w r). rewrite <- Hrows. now apply rowsOfId_In.
Qed.

(** A tick leaves the rows of a rejected document as they are. *)
Lemma tick_rowsOfId X env now w :
  rejectedPending X w -> rowsOfId X (tick env now w) = rowsOfId X w.
Proof.
  intros H. unfold tick, processBatch, bind.
  rewrite GetDocumentsWithoutEmbeddings_run.
  destruct (batchSize <? 0)%Z; [reflexivity|].
  assert (forall d, In d (map scanDocument
                            (firstn (Z.to_nat batchSize) (missingRows w))) ->
                    ID d = X -> (len (TrimSpace (Content d)) < 10)%Z)
    as Hdocs.
  { intros d Hd HX. apply in_map_iff in Hd as [r [<- Hr]].
    apply firstn_In in Hr. unfold missingRows in Hr.
    apply sortBy_In, filter_In in Hr as [Hr _].
    now apply (H r Hr). }
  destruct (map scanDocument _) as [|d ds]; [reflexivity|].
  apply (@forEach_preserves_in _
           (fun w' => rowsOfId X w' = rowsOfId X w)); [|reflexivity].
  intros doc w0 Hin Hw0. rewrite logAndContinue_snd, <- Hw0.
  apply processDocument_rowsOfId. now apply Hdocs.
Qed.

Lemma ticks_rowsOfId X env instants : forall w,
  rejectedPending X w -> rowsOfId X (ticks env instants w) = rowsOfId X w.
Proof.
  unfold ticks. induction instants as [|now instants IH]; intros w H;
    [reflexivity|].
  cbn [fold_left].
  pose proof (tick_rowsOfId env now H) as Htick.
  rewrite IH, Htick; [reflexivity|].
  exact (@rejectedPending_rowsOfId X w (tick env now w) Htick H).
Qed.

(** C8.  The quality gate of [processDocument] looks at the trimmed
    content.  With 10 bytes or more (so with exactly 10) the document is
    accepted: the embedding provider is called for it.  With fewer than 10
    (so with 9) it is rejected and the provider is not called; but the
    placeholder has one component, the column [vector(1536)] refuses it,
    and [processDocument] returns this error with the store as it was.  So
    the document is not marked: when [doc] was read from the row [r], the
    only row of its id and without embedding, then after any number of
    ticks, whatever the providers, the row is still there without
    embedding, a fetch whose limit holds every document without embedding
    returns [doc] again, and the count of [GetStats] is not zero. *)
Theorem quality_gate_boundary (env : Providers) (now : time) (doc : Document)
  (w : World) :
  let content := TrimSpace (Content doc) in
  let after := processDocument env now doc w in
  ((10 <= len content)%Z ->
   calls (snd after) = calls w ++ [EmbeddingCall (truncate content)])
  /\ ((len content < 10)%Z ->
      after = (inl (Wrapped (str "failed to update embedding")
                            (DimensionMismatch dimension 1)), w)
      /\ forall r,
           In r (documents w) -> scanDocument r = doc ->
           embedding r = None ->
           (forall r', In r' (documents w) -> id r' = id r -> r' = r) ->
           forall providers instants,
             let later := ticks providers instants w in
             In r (documents later)
             /\ (forall limit docs,
                   fst (GetDocumentsWithoutEmbeddings limit later)
                   = inr docs ->
                   (Z.of_nat (length (filter missing (documents later)))
                    <= limit)%Z ->
                   In doc docs)
             /\ fst (documentsWithoutEmbeddings later) <> inr 0%Z).
Proof.
  cbn zeta. split.
  - intros Hlen. unfold processDocument.
    rewrite len_nonempty by lia.
    destruct (Z.ltb_spec (len (TrimSpace (Content doc))) 10); [lia|].
    unfold bind. rewrite GenerateEmbedding_run, TrimSpace_idempotent.
    rewrite len_nonempty by lia. cbn zeta.
    destruct (createEmbeddings env (truncate (TrimSpace (Content doc))))
      as [[|v vs]|]; try reflexivity.
    rewrite UpdateEmbedding_run. now destruct (length v =? dimension).
  - intros Hlen. split; [now apply processDocument_rejected|].
    intros r Hin Hscan Hnone Hunique providers instants.
    assert (rejectedPending (id r) w) as Hpending.
    { intros r' Hin' Hid. rewrite (Hunique r' Hin' Hid).
      split; [assumption|]. now rewrite <- Hscan in Hlen. }
    pose proof (ticks_rowsOfId providers instants Hpending) as Hrows.
    assert (In r (documents (ticks providers instants w))) as Hlater.
    { apply (rowsOfId_In (id r)). rewrite Hrows.
      now apply rowsOfId_In. }
    assert (In r (filter missing
                    (documents (ticks providers instants w)))) as Hmissing.
    { apply filter_In. split; [assumption|].
      unfold missing, hasEmbedding. now rewrite Hnone. }
    split; [assumption|]. split.
    + intros limit docs Hfetch Hlimit.
      rewrite GetDocumentsWithoutEmbeddings_run in Hfetch.
      destruct (Z.ltb_spec limit 0); [discriminate|].
      cbn [fst] in Hfetch. injection Hfetch as <-.
      rewrite <- Hscan. apply in_map.
      rewrite firstn_all2.
      * unfold missingRows. now apply sortBy_In.
      * unfold missingRows. rewrite sortBy_length. lia.
    + unfold documentsWithoutEmbeddings, bind.
      rewrite GetDocumentsWithoutEmbeddings_run.
      change (1000 <? 0)%Z with false. cbn iota. unfold ret. cbn [fst].
      rewrite length_map, length_firstn. unfold missingRows.
      rewrite sortBy_length. intros [= H0].
      destruct (filter missing (documents (ticks providers instants w)));
        [destruct Hmissing|].
      cbn [length] in H0. lia.
Qed.

Lemma quality_gate_boundary_witness :
  calls (snd (processDocument documentProviders 3 borderlineDocument
                boundaryWorld))
  = [EmbeddingCall (str "exactly10c")]
  /\ processDocument documentProviders 3 shortDocument boundaryWorld
     = (inl (Wrapped (str "failed to update embedding")
                     (DimensionMismatch dimension 1)), boundaryWorld)
  /\ (forall docs,
        fst (GetDocumentsWithoutEmbeddings 10
               (ticks documentProviders [3; 4]%Z boundaryWorld))
        = inr docs ->
        In shortDocument docs)
  /\ fst (GetDocumentsWithoutEmbeddings 10
            (ticks documentProviders [3; 4]%Z boundaryWorld))
     = inr [shortDocument].
Proof.
  split; [|split; [|split]].
  - apply (quality_gate_boundary documentProviders 3%Z borderlineDocument
             boundaryWorld).
    vm_compute. discriminate.
  - apply (quality_gate_boundary documentProviders 3%Z shortDocument
             boundaryWorld).
    vm_compute. reflexivity.
  - intros docs Hfetch.
    destruct (quality_gate_boundary documentProviders 3%Z shortDocument
                boundaryWorld) as [_ Hshort].
    destruct Hshort as [_ Hstays]; [vm_compute; reflexivity|].
    destruct (Hstays (proposedRow 2 shortDocument)) with
      (providers := documentProviders) (instants := [3; 4]%Z)
      as (_ & Hagain & _).
    + vm_compute. tauto.
    + vm_compute. reflexivity.
    + reflexivity.
    + intros r' Hin Hid. vm_compute in Hin.
      destruct Hin as [<-|[<-|[]]]; [|reflexivity].
      vm_compute in Hid. discriminate.
    + apply (Hagain 10%Z docs Hfetch). vm_compute. discriminate.
  - vm_compute. reflexivity.
Defined.

End DocStoreFacts.

(** ** The Slack store and its backlog processor *)

Module SlackJobsFacts.
Import GoStringsFacts WorldFacts SlackStore EmbeddingService SlackJobs.
Import Spec SlackSpec.

Lemma GetMessagesInThread_run threadID w :
  GetMessagesInThread threadID w = (inr (threadMessages w threadID), w).
Proof. reflexivity. Qed.

Lemma GetThreadsWithoutEmbeddings_run limit w :
  GetThreadsWithoutEmbeddings limit w
  = if (limit <? 0)%Z then
      (inl (Wrapped (str "failed to get threads without embeddings")
                    NegativeLimit), w)
    else (inr (firstn (Z.to_nat limit) (missingThreads w)), w).
Proof.
  unfold GetThreadsWithoutEmbeddings, wrap, bind, gets, limitRows. cbn.
  now destruct (limit <? 0)%Z.
Qed.

Section Stuck.

Variable formatLocal : Z -> gostring.

(** A message that holds one of the test patterns makes its whole thread
    low-quality. *)
Lemma pattern_low_quality messages msg pattern :
  In msg messages -> In pattern testPatterns ->
  Contains (ToLower (Content msg)) pattern = true ->
  isQualityContent (buildThreadContent formatLocal messages) = false.
Proof.
  intros Hmsg Hpat Hc. unfold isQualityContent.
  destruct (streq (TrimSpace (buildThreadContent formatLocal messages)) []);
    [reflexivity|].
  replace (existsb _ testPatterns) with true; [reflexivity|].
  symmetry. apply existsb_exists. exists pattern. split; [assumption|].
  unfold buildThreadContent. rewrite ToLower_Join.
  apply Join_Contains with (part := ToLower (formatMessage formatLocal msg)).
  - now apply in_map, in_map.
  - unfold formatMessage. rewrite !app_assoc, ToLower_app.
    now apply Contains_app.
Qed.

(** [processThread] returns [nil] on a low-quality thread and writes
    nothing: no embedding, no placeholder. *)
Lemma processThread_low_quality env now threadID w :
  lowQuality w threadID ->
  processThread formatLocal env now threadID w = (inr tt, w).
Proof.
  intros (msg & pattern & Hmsg & Hpat & Hc).
  unfold processThread, bind, wrap. rewrite GetMessagesInThread_run.
  assert (isQualityContent
            (buildThreadContent formatLocal (threadMessages w threadID))
          = false) as Hq by (eapply pattern_low_quality; eassumption).
  destruct (threadMessages w threadID) as [|m ms]; [reflexivity|].
  now rewrite Hq.
Qed.

Lemma forEach_stuck env now w : forall threadIDs,
  (forall t, In t threadIDs -> lowQuality w t) ->
  forEach threadIDs
    (fun t => logAndContinue (processThread formatLocal env now t)) w
  = (inr tt, w).
Proof.
  induction threadIDs as [|t ts IH]; intros Hall; [reflexivity|].
  cbn [forEach]. unfold bind, logAndContinue at 1.
  rewrite processThread_low_quality by (apply Hall; now left).
  cbn [snd]. apply IH. intros t' Hin. apply Hall. now right.
Qed.

(** When every thread without embeddings is low-quality, a tick changes
    nothing. *)
Lemma tick_stuck env now w :
  (forall t, In t (missingThreads w) -> lowQuality w t) ->
  tick formatLocal env now w = w.
Proof.
  intros Hall. unfold tick, processBatch, bind.
  rewrite GetThreadsWithoutEmbeddings_run.
  destruct (batchSize <? 0)%Z; [reflexivity|].
  destruct (firstn (Z.to_nat batchSize) (missingThreads w)) as [|t ts] eqn:E;
    [reflexivity|].
  rewrite forEach_stuck; [reflexivity|].
  intros t' Hin. apply Hall. rewrite <- E in Hin. now apply firstn_In in Hin.
Qed.

Lemma ticks_stuck env w :
  (forall t, In t (missingThreads w) -> lowQuality w t) ->
  forall instants, ticks formatLocal env instants w = w.
Proof.
  intros Hall. unfold ticks.
  induction instants as [|now instants IH]; [reflexivity|].
  cbn [fold_left]. now rewrite tick_stuck.
Qed.

End Stuck.

Lemma stuckWorld_low_quality t :
  In t (missingThreads stuckWorld) -> lowQuality stuckWorld t.
Proof.
  intros [<-|[]]. exists (withHash (insertedRow 1%Z 0%Z sampleMessage)).
  exists (str "sample"). repeat split.
  - vm_compute. now left.
  - vm_compute. tauto.
Qed.

(** C2.  The backlog of threads does not converge.  [stuckWorld] holds one
    thread whose only message contains the pattern ["sample"].  Every tick
    fetches it, [processThread] finds it low-quality and returns without
    writing anything, so after any number of ticks the store is unchanged,
    the provider was never called, and [GetStats] still counts one thread
    without embeddings. *)
Theorem low_quality_thread_never_absorbed
  (formatLocal : Z -> gostring) (env : Providers) (instants : list time) :
  ticks formatLocal env instants stuckWorld = stuckWorld
  /\ calls (ticks formatLocal env instants stuckWorld) = []
  /\ GetStats (ticks formatLocal env instants stuckWorld)
     = (inr 1%Z, stuckWorld).
Proof.
  rewrite ticks_stuck by apply stuckWorld_low_quality.
  repeat split.
Qed.

End SlackJobsFacts.

(** ** Upserts *)

Module UpsertFacts.
Import GoStringsFacts WorldFacts.
Import SlackJobsFacts DocStoreFacts.
Import Spec DocSpec SlackSpec.

(** *** Counting the rows of a key *)

Section Keys.

Variable Row : Type.
Variable key : Row -> bool.

Local Abbreviation rowsOf := (Spec.rowsOf key).

Lemma rowsOf_map (f : Row -> Row) rows :
  (forall r, key (f r) = key r) -> rowsOf (map f rows) = rowsOf rows.
Proof.
  intros Hk. unfold rowsOf. induction rows as [|r rows IH]; [reflexivity|].
  cbn. rewrite Hk. destruct (key r); cbn; now rewrite IH.
Qed.

Lemma rowsOf_app rows rows' :
  rowsOf (rows ++ rows') = rowsOf rows + rowsOf rows'.
Proof. unfold rowsOf. now rewrite filter_app, length_app. Qed.

Lemma rowsOf_find_none rows : find key rows = None -> rowsOf rows = 0.
Proof.
  unfold rowsOf. induction rows as [|r rows IH]; [reflexivity|].
  cbn. destruct (key r); [discriminate|assumption].
Qed.

Lemma rowsOf_find_some rows r : find key rows = Some r -> 1 <= rowsOf rows.
Proof.
  unfold rowsOf. induction rows as [|r' rows IH]; [discriminate|].
  cbn. destruct (key r'); cbn; [lia|assumption].
Qed.

Lemma find_rowsOf rows : 1 <= rowsOf rows -> exists r, find key rows = Some r.
Proof.
  unfold rowsOf. induction rows as [|r' rows IH]; cbn; [lia|].
  destruct (key r'); [now exists r'|assumption].
Qed.

Lemma existsb_rowsOf rows : existsb key rows = true <-> 1 <= rowsOf rows.
Proof.
  unfold rowsOf. induction rows as [|r rows IH]; cbn; [split; [easy|lia]|].
  destruct (key r); cbn; [split; [lia|easy]|assumption].
Qed.

End Keys.

(** *** [SlackStorage.StoreMessage] *)

Import SlackStore.

Lemma StoreMessage_run now msg w :
  StoreMessage now msg w
  = match find (sameMessage msg) (slack_messages w) with
    | Some old =>
        (inr (storedAs msg (updateOnConflict now (withHash msg) old), false),
         setThreadEmbeddings
           (setSlackMessages w (map (updated now msg) (slack_messages w)))
           (filter (fun e => negb (streq (te_thread_id e) (ThreadID msg)))
                   (slack_thread_embeddings w)))
    | None =>
        (inr (storedAs msg (insertedRow now (next_uuid w) (withHash msg)),
              true),
         setNextUuid
           (setSlackMessages w
              (slack_messages w
               ++ [insertedRow now (next_uuid w) (withHash msg)]))
           (next_uuid w + 1)%Z)
    end.
Proof.
  unfold StoreMessage, upsertMessage, wrap, bind, gets. cbn.
  change (sameMessage (withHash msg)) with (sameMessage msg).
  now destruct (find (sameMessage msg) (slack_messages w)).
Qed.

Lemma updated_key now msg msg' r :
  sameMessage msg' (updated now msg r) = sameMessage msg' r.
Proof. unfold updated. now destruct (sameMessage msg r). Qed.

Lemma sameMessage_inserted now uuid msg :
  sameMessage msg (insertedRow now uuid (withHash msg)) = true.
Proof. unfold sameMessage. cbn. now rewrite !streq_refl. Qed.

(** After a delivery the identity has exactly one row. *)
Lemma StoreMessage_one_row now msg w :
  uniqueMessages w ->
  rowsOf (sameMessage msg) (slack_messages (snd (StoreMessage now msg w))) = 1.
Proof.
  intros Hu. rewrite StoreMessage_run.
  destruct (find (sameMessage msg) (slack_messages w)) as [old|] eqn:E;
    cbn [snd slack_messages setThreadEmbeddings setSlackMessages setNextUuid].
  - rewrite rowsOf_map by (intros r; apply updated_key).
    apply rowsOf_find_some in E. specialize (Hu msg). lia.
  - rewrite rowsOf_app, (rowsOf_find_none _ _ E). unfold rowsOf. cbn.
    now rewrite sameMessage_inserted.
Qed.

(** A delivery under a stored identity: [wasInserted] is false, no row is
    added, the row takes the delivered content and the present time, and
    the embeddings of the delivered thread id are deleted. *)
Lemma StoreMessage_existing now msg w :
  1 <= rowsOf (sameMessage msg) (slack_messages w) ->
  let w' := snd (StoreMessage now msg w) in
  (exists stored, fst (StoreMessage now msg w) = inr (stored, false)
                  /\ Content stored = Content msg)
  /\ length (slack_messages w') = length (slack_messages w)
  /\ (forall msg', rowsOf (sameMessage msg') (slack_messages w')
                   = rowsOf (sameMessage msg') (slack_messages w))
  /\ (forall r, In r (slack_messages w') -> sameMessage msg r = true ->
      Content r = Content msg /\ UpdatedAt r = now)
  /\ (forall e, In e (slack_thread_embeddings w') ->
      te_thread_id e <> ThreadID msg).
Proof.
  intros H. cbn zeta. rewrite StoreMessage_run.
  destruct (find_rowsOf _ _ H) as [old ->].
  cbn [fst snd slack_messages slack_thread_embeddings setThreadEmbeddings
       setSlackMessages].
  split; [eexists; split; reflexivity|].
  split; [apply length_map|].
  split; [intros msg'; apply rowsOf_map; intros r; apply updated_key|].
  split.
  - intros r Hin Hk. apply in_map_iff in Hin as [r0 [<- Hin0]].
    rewrite updated_key in Hk. unfold updated. now rewrite Hk.
  - intros e Hin Heq. apply filter_In in Hin as [_ Hne].
    rewrite Heq, streq_refl in Hne. discriminate.
Qed.

(** A delivery under a new identity: [wasInserted] is true. *)
Lemma StoreMessage_new now msg w :
  rowsOf (sameMessage msg) (slack_messages w) = 0 ->
  exists stored, fst (StoreMessage now msg w) = inr (stored, true).
Proof.
  intros H. rewrite StoreMessage_run.
  destruct (find (sameMessage msg) (slack_messages w)) eqn:E.
  - apply rowsOf_find_some in E. lia.
  - eexists. reflexivity.
Qed.

(** *** [PostgresStore.StoreDocument] *)


Lemma onConflict_key now doc doc' r :
  DocStore.conflicts doc' (onConflict now doc r) = DocStore.conflicts doc' r.
Proof. unfold onConflict. now destruct (DocStore.conflicts doc r). Qed.

Lemma conflicts_proposed now doc : DocStore.conflicts doc (DocStore.proposedRow now doc) = true.
Proof. unfold DocStore.conflicts. cbn. now rewrite !streq_refl. Qed.

Lemma conflicts_same_triple doc1 doc2 r :
  DocStore.ContentHash doc1 = DocStore.ContentHash doc2 -> DocStore.Source doc1 = DocStore.Source doc2 ->
  DocStore.SourceID doc1 = DocStore.SourceID doc2 -> DocStore.conflicts doc2 r = DocStore.conflicts doc1 r.
Proof. unfold DocStore.conflicts. now intros -> -> ->. Qed.

(** After a successful delivery the triple has exactly one row. *)
Lemma StoreDocument_one_row now doc w :
  uniqueDocuments w -> fst (DocStore.StoreDocument now doc w) = inr tt ->
  rowsOf (DocStore.conflicts doc) (documents (snd (DocStore.StoreDocument now doc w))) = 1.
Proof.
  intros Hu. rewrite StoreDocument_run.
  destruct (existsb (DocStore.conflicts doc) (documents w)) eqn:E.
  - intros _. cbn [snd documents setDocuments].
    fold (onConflict now doc).
    rewrite rowsOf_map by (intros r; apply onConflict_key).
    apply existsb_rowsOf in E. specialize (Hu doc). lia.
  - destruct (existsb (fun r => streq (id r) (DocStore.ID doc)) (documents w));
      [discriminate|].
    intros _. cbn [snd documents setDocuments]. rewrite rowsOf_app.
    assert (rowsOf (DocStore.conflicts doc) (documents w) = 0) as ->.
    { destruct (rowsOf (DocStore.conflicts doc) (documents w)) eqn:N; [reflexivity|].
      assert (existsb (DocStore.conflicts doc) (documents w) = true) as E';
        [apply existsb_rowsOf; lia|congruence]. }
    unfold rowsOf. cbn. now rewrite conflicts_proposed.
Qed.

(** A delivery of a stored triple: the call succeeds, no row is added, the
    row takes the delivered content and the present time. *)
Lemma StoreDocument_existing now doc w :
  1 <= rowsOf (DocStore.conflicts doc) (documents w) ->
  let w' := snd (DocStore.StoreDocument now doc w) in
  fst (DocStore.StoreDocument now doc w) = inr tt
  /\ length (documents w') = length (documents w)
  /\ (forall doc', rowsOf (DocStore.conflicts doc') (documents w')
                   = rowsOf (DocStore.conflicts doc') (documents w))
  /\ (forall r, In r (documents w') -> DocStore.conflicts doc r = true ->
      content r = DocStore.Content doc /\ updated_at r = now).
Proof.
  intros H. cbn zeta. rewrite StoreDocument_run.
  apply existsb_rowsOf in H. rewrite H.
  cbn [fst snd documents setDocuments]. fold (onConflict now doc).
  split; [reflexivity|]. split; [apply length_map|].
  split; [intros doc'; apply rowsOf_map; intros r; apply onConflict_key|].
  intros r Hin Hk. apply in_map_iff in Hin as [r0 [<- Hin0]].
  rewrite onConflict_key in Hk. unfold onConflict. now rewrite Hk.
Qed.

(** A document whose id is stored and whose triple is not: the call fails
    on the primary key and writes nothing. *)
Lemma StoreDocument_refused now doc w :
  rowsOf (DocStore.conflicts doc) (documents w) = 0 ->
  In (DocStore.ID doc) (map id (documents w)) ->
  DocStore.StoreDocument now doc w
  = (inl (Wrapped (str "failed to store document")
                  (UniqueViolation (str "documents_pkey"))), w).
Proof.
  intros Hk Hid. rewrite StoreDocument_run.
  destruct (existsb (DocStore.conflicts doc) (documents w)) eqn:E.
  - apply existsb_rowsOf in E. lia.
  - replace (existsb _ (documents w)) with true; [reflexivity|].
    symmetry. apply existsb_exists.
    apply in_map_iff in Hid as [r [Hr Hin]]. exists r.
    split; [assumption|]. now apply streq_eq.
Qed.

(** C4.  Delivering the same (content, source, sourceId) twice leaves one
    row.  For [StoreMessage] (identity: channel and message timestamp): the
    identity has exactly one row after the two calls, the second call adds
    no row and returns [wasInserted = false], the first returns [true] when
    the identity was not stored before, and the row carries the time of the
    second call.  For [StoreDocument] (which returns only an error): if the
    first call succeeds so does the second, the triple
    [(content_hash, source, source_id)] has exactly one row, the second call
    adds no row, and [updated_at] is the time of the second call. *)
Theorem upsert_twice_one_row :
  (forall (now1 now2 : time) (msg1 msg2 : SlackMessage) (w : World),
     uniqueMessages w ->
     ChannelID msg1 = ChannelID msg2 ->
     MessageTimestamp msg1 = MessageTimestamp msg2 ->
     Content msg1 = Content msg2 ->
     let w1 := snd (StoreMessage now1 msg1 w) in
     let w2 := snd (StoreMessage now2 msg2 w1) in
     rowsOf (sameMessage msg1) (slack_messages w2) = 1
     /\ length (slack_messages w2) = length (slack_messages w1)
     /\ (exists stored, fst (StoreMessage now2 msg2 w1) = inr (stored, false))
     /\ (rowsOf (sameMessage msg1) (slack_messages w) = 0 ->
         exists stored, fst (StoreMessage now1 msg1 w) = inr (stored, true))
     /\ (forall r, In r (slack_messages w2) -> sameMessage msg1 r = true ->
         Content r = Content msg1 /\ UpdatedAt r = now2))
  /\ (forall (now1 now2 : time) (doc1 doc2 : DocStore.Document) (w : World),
        uniqueDocuments w ->
        DocStore.Content doc1 = DocStore.Content doc2 ->
        DocStore.Source doc1 = DocStore.Source doc2 ->
        DocStore.SourceID doc1 = DocStore.SourceID doc2 ->
        DocStore.ContentHash doc1 = HashContent (DocStore.Content doc1) ->
        DocStore.ContentHash doc2 = HashContent (DocStore.Content doc2) ->
        fst (DocStore.StoreDocument now1 doc1 w) = inr tt ->
        let w1 := snd (DocStore.StoreDocument now1 doc1 w) in
        let w2 := snd (DocStore.StoreDocument now2 doc2 w1) in
        fst (DocStore.StoreDocument now2 doc2 w1) = inr tt
        /\ rowsOf (DocStore.conflicts doc1) (documents w2) = 1
        /\ length (documents w2) = length (documents w1)
        /\ (forall r, In r (documents w2) -> DocStore.conflicts doc1 r = true ->
            content r = DocStore.Content doc1 /\ updated_at r = now2)).
Proof.
  split.
  - intros now1 now2 msg1 msg2 w Hu Hc Ht Hcontent. cbn zeta.
    assert (forall r, sameMessage msg2 r = sameMessage msg1 r) as Hk
      by (intros r; unfold sameMessage; now rewrite Hc, Ht).
    pose proof (StoreMessage_one_row now1 msg1 Hu) as H1.
    assert (1 <= rowsOf (sameMessage msg2)
                   (slack_messages (snd (StoreMessage now1 msg1 w)))) as H2.
    { unfold rowsOf in *. rewrite (filter_ext _ _ Hk). lia. }
    destruct (StoreMessage_existing now2 msg2 _ H2)
      as ((stored & Hres & _) & Hlen & Hrows & Hrow & _).
    repeat split.
    + now rewrite Hrows.
    + assumption.
    + now exists stored.
    + apply StoreMessage_new.
    + rewrite Hcontent. apply Hrow; [assumption|now rewrite Hk].
    + apply Hrow; [assumption|now rewrite Hk].
  - intros now1 now2 doc1 doc2 w Hu Hc Hs Hi Hh1 Hh2 Hok. cbn zeta.
    assert (DocStore.ContentHash doc1 = DocStore.ContentHash doc2) as Hh
      by (now rewrite Hh1, Hh2, Hc).
    pose proof (StoreDocument_one_row now1 doc1 Hu Hok) as H1.
    assert (forall r, DocStore.conflicts doc2 r = DocStore.conflicts doc1 r) as Hk
      by (intros r; now apply conflicts_same_triple).
    assert (1 <= rowsOf (DocStore.conflicts doc2)
                   (documents (snd (DocStore.StoreDocument now1 doc1 w)))) as H2.
    { unfold rowsOf in *. rewrite (filter_ext _ _ Hk). lia. }
    destruct (StoreDocument_existing now2 doc2 _ H2)
      as (Hres & Hlen & Hrows & Hrow).
    repeat split.
    + assumption.
    + now rewrite Hrows.
    + assumption.
    + rewrite Hc. apply Hrow; [assumption|now rewrite Hk].
    + apply Hrow; [assumption|now rewrite Hk].
Qed.

Lemma upsert_twice_one_row_witness :
  (let w1 := snd (StoreMessage 1 sampleMessage emptyWorld) in
   let w2 := snd (StoreMessage 2 sampleMessage w1) in
   rowsOf (sameMessage sampleMessage) (slack_messages w2) = 1
   /\ length (slack_messages w2) = length (slack_messages w1)
   /\ (exists stored,
         fst (StoreMessage 2 sampleMessage w1) = inr (stored, false))
   /\ (exists stored,
         fst (StoreMessage 1 sampleMessage emptyWorld) = inr (stored, true)))
  /\ (let w1 := snd (DocStore.StoreDocument 1 validDocument emptyWorld) in
      let w2 := snd (DocStore.StoreDocument 2 validDocument w1) in
      fst (DocStore.StoreDocument 2 validDocument w1) = inr tt
      /\ rowsOf (DocStore.conflicts validDocument) (documents w2) = 1
      /\ length (documents w2) = length (documents w1)).
Proof.
  destruct upsert_twice_one_row as [Hmsg Hdoc]. split.
  - cbn zeta.
    destruct (Hmsg 1%Z 2%Z sampleMessage sampleMessage emptyWorld)
      as (H1 & H2 & H3 & H4 & _); try reflexivity.
    + intros msg. cbn. lia.
    + split; [exact H1|]. split; [exact H2|]. split; [exact H3|].
      now apply H4.
  - cbn zeta.
    assert (uniqueDocuments emptyWorld) as Hu by (intros doc; cbn; lia).
    assert (DocStore.ContentHash validDocument
            = HashContent (DocStore.Content validDocument)) as Hh
      by (vm_compute; reflexivity).
    assert (fst (DocStore.StoreDocument 1 validDocument emptyWorld) = inr tt)
      as Hok by (vm_compute; reflexivity).
    destruct (Hdoc 1%Z 2%Z validDocument validDocument emptyWorld Hu
                eq_refl eq_refl eq_refl Hh Hh Hok) as (H1 & H2 & H3 & _).
    split; [exact H1|]. split; [exact H2|exact H3].
Defined.

(** *** Edits *)

(** C3, as stated, fails for [StoreDocument]: the post of id
    ["slab_post_42"] is stored with content ["hello"] and an embedding; the
    delivery of the edited post is refused on the primary key, the stored
    content is still ["hello"] and the embedding is still attached. *)
Lemma edited_document_keeps_stale_embedding :
  fst (DocStore.StoreDocument 3
         (slabPost (str "hello world, much longer now")) embeddedPostWorld)
  = inl (Wrapped (str "failed to store document")
                 (UniqueViolation (str "documents_pkey")))
  /\ map content
         (documents
            (snd (DocStore.StoreDocument 3
                    (slabPost (str "hello world, much longer now"))
                    embeddedPostWorld)))
     = [str "hello"]
  /\ map embedding
         (documents
            (snd (DocStore.StoreDocument 3
                    (slabPost (str "hello world, much longer now"))
                    embeddedPostWorld)))
     = [Some (axis 0)].
Proof. vm_compute. repeat split. Qed.

(** C3, amended.  For [SlackStorage.StoreMessage] and a stored identity
    (channel id, message timestamp): the call returns [wasInserted = false];
    the stored row takes the delivered content and its hash; the thread
    embeddings that remain are exactly the former ones of the other threads:
    every embedding row of the thread id of the delivered message is
    deleted. *)
Theorem StoreMessage_update_invalidates (now : time) (msg : SlackMessage)
  (w : World) :
  1 <= rowsOf (sameMessage msg) (slack_messages w) ->
  let w' := snd (StoreMessage now msg w) in
  (exists stored, fst (StoreMessage now msg w) = inr (stored, false)
                  /\ Content stored = Content msg)
  /\ (forall r, In r (slack_messages w') -> sameMessage msg r = true ->
      Content r = Content msg
      /\ ContentHash r = hashContent (Content msg))
  /\ (forall e, In e (slack_thread_embeddings w') <->
      In e (slack_thread_embeddings w) /\ te_thread_id e <> ThreadID msg).
Proof.
  intros H. cbn zeta. rewrite StoreMessage_run.
  destruct (find_rowsOf _ _ H) as [old ->].
  cbn [fst snd slack_messages slack_thread_embeddings setThreadEmbeddings
       setSlackMessages].
  split; [eexists; split; reflexivity|]. split.
  - intros r Hin Hk. apply in_map_iff in Hin as [r0 [<- Hin0]].
    rewrite updated_key in Hk. unfold updated. now rewrite Hk.
  - intros e. rewrite filter_In. split; intros [Hin Hne]; split;
      try assumption.
    + intros Heq. rewrite Heq, streq_refl in Hne. discriminate.
    + destruct (streq (te_thread_id e) (ThreadID msg)) eqn:E;
        [|reflexivity].
      apply streq_eq in E. contradiction.
Qed.

Lemma StoreMessage_update_invalidates_witness :
  1 <= rowsOf (sameMessage (helloMessage (str "hello world, much longer now")))
              (slack_messages embeddedThreadWorld)
  /\ (exists stored,
        fst (StoreMessage 3 (helloMessage (str "hello world, much longer now"))
               embeddedThreadWorld) = inr (stored, false)
        /\ Content stored = str "hello world, much longer now")
  /\ slack_thread_embeddings
       (snd (StoreMessage 3 (helloMessage (str "hello world, much longer now"))
               embeddedThreadWorld)) = [].
Proof.
  assert (1 <= rowsOf (sameMessage
                         (helloMessage (str "hello world, much longer now")))
                      (slack_messages embeddedThreadWorld)) as H
    by (vm_compute; lia).
  split; [exact H|].
  destruct (StoreMessage_update_invalidates 3%Z
              (helloMessage (str "hello world, much longer now"))
              embeddedThreadWorld H) as (Hres & _ & Hemb).
  split; [exact Hres|].
  destruct (slack_thread_embeddings _) as [|e es] eqn:E; [reflexivity|].
  exfalso. destruct (Hemb e) as [[Hin Hne] _]; [now left|].
  apply Hne. vm_compute in Hin. destruct Hin as [<-|[]]. reflexivity.
Defined.

End UpsertFacts.

(** ** The query path *)

Module RAGFacts.
Import GoStringsFacts WorldFacts DocStoreFacts SlackJobsFacts UpsertFacts.
Import Spec DocSpec SlackSpec RAGSpec.
Import SlackStore EmbeddingService.

Lemma GenerateEmbedding_calls env text w q w1 :
  GenerateEmbedding env text w = (inr q, w1) ->
  calls w1 = calls w ++ [EmbeddingCall (truncate (TrimSpace text))].
Proof.
  rewrite GenerateEmbedding_run.
  destruct (streq (TrimSpace text) []); [discriminate|]. cbn zeta.
  destruct (createEmbeddings env (truncate (TrimSpace text))) as [[|v vs]|];
    try discriminate.
  now intros [= _ <-].
Qed.

(** C7.  When no candidate is relevant, [Query] succeeds with the fixed
    answer ["I couldn't find any relevant information to answer your
    question."] and no sources.  The world it leaves is the one left by the
    embedding of the query: the only provider call of the request is that
    embedding call, the chat completion endpoint is not called.  This holds
    for the query over Slack threads (no message passes either threshold)
    and for the query over documents (no document is above 0.5). *)
Theorem no_relevant_information :
  (forall (rangeOrder : list gostring -> list gostring) (env : Providers)
          (query : gostring) (w w1 : World) (q : vector)
          (messages : list SlackMessage),
     GenerateEmbedding env query w = (inr q, w1) ->
     SearchSimilarMessages q 10 w1 = (inr messages, w1) ->
     SlackRAG.relevantMessages q messages = [] ->
     SlackRAG.Query rangeOrder env query w
     = (inr (SlackRAG.mkQueryResult SlackRAG.noInformation [] query), w1)
     /\ calls w1 = calls w ++ [EmbeddingCall (truncate (TrimSpace query))])
  /\ (forall (formatFloat2 : float -> gostring) (env : Providers)
             (query : gostring) (w w1 : World) (q : vector)
             (found : list DocStore.Document),
        GenerateEmbedding env query w = (inr q, w1) ->
        DocRAG.SearchSimilar q 10 w1 = (inr found, w1) ->
        filter (fun doc => PrimFloat.ltb 0.5 (DocStore.Similarity doc)) found
        = [] ->
        DocRAG.Query formatFloat2 env query w
        = (inr (DocRAG.mkQueryResult DocRAG.noInformation [] query), w1)
        /\ calls w1
           = calls w ++ [EmbeddingCall (truncate (TrimSpace query))]).
Proof.
  split.
  - intros rangeOrder env query w w1 q messages Hq Hs Hr.
    split; [|now apply GenerateEmbedding_calls with (1 := Hq)].
    unfold SlackRAG.Query, bind, wrap. now rewrite Hq, Hs, Hr.
  - intros formatFloat2 env query w w1 q found Hq Hs Hr.
    split; [|now apply GenerateEmbedding_calls with (1 := Hq)].
    unfold DocRAG.Query, bind, wrap. now rewrite Hq, Hs, Hr.
Qed.

Lemma no_relevant_information_witness :
  (fst (SlackRAG.Query (fun threads => threads) orthogonalProviders
          releaseQuery embeddedThreadWorld)
   = inr (SlackRAG.mkQueryResult SlackRAG.noInformation [] releaseQuery)
   /\ calls (snd (SlackRAG.Query (fun threads => threads) orthogonalProviders
                    releaseQuery embeddedThreadWorld))
      = [EmbeddingCall releaseQuery])
  /\ (fst (DocRAG.Query (fun _ => str "0.00") orthogonalDocumentProviders
             releaseQuery embeddedPostWorld)
      = inr (DocRAG.mkQueryResult DocRAG.noInformation [] releaseQuery)
      /\ calls (snd (DocRAG.Query (fun _ => str "0.00")
                       orthogonalDocumentProviders releaseQuery
                       embeddedPostWorld))
         = [EmbeddingCall releaseQuery]).
Proof.
  destruct no_relevant_information as [Hslack Hdoc]. split.
  - destruct (Hslack (fun threads => threads) orthogonalProviders
                releaseQuery embeddedThreadWorld
                (snd (GenerateEmbedding orthogonalProviders releaseQuery
                        embeddedThreadWorld))
                [0%float; 1%float]
                (slack_messages embeddedThreadWorld)) as [HQ HC];
      [vm_compute; reflexivity ..|].
    rewrite HQ. split; [reflexivity|]. cbn [snd]. rewrite HC. reflexivity.
  - destruct (Hdoc (fun _ => str "0.00") orthogonalDocumentProviders
                releaseQuery embeddedPostWorld
                (snd (GenerateEmbedding orthogonalDocumentProviders
                        releaseQuery embeddedPostWorld))
                (axis 1)
                (map (DocRAG.scanSimilar (axis 1)
                        (DocStore.proposedRow 1 (slabPost (str "hello"))))
                     [axis 0])) as [HQ HC];
      [vm_compute; reflexivity ..|].
    rewrite HQ. split; [reflexivity|]. cbn [snd]. rewrite HC. reflexivity.
Defined.

(** *** The relevance filter *)

Import SlackRAG.

(** [filterRelevant] keeps exactly the candidates that pass, in order. *)
Lemma filterRelevant_sound threshold q messages : forall i msg,
  In msg (filterRelevant threshold q i messages) ->
  exists k, nth_error messages k = Some msg
            /\ passes threshold q (i + Z.of_nat k) msg = true.
Proof.
  induction messages as [|m ms IH]; intros i msg Hin; [easy|].
  cbn [filterRelevant] in Hin. fold (passes threshold q i m) in Hin.
  destruct (passes threshold q i m) eqn:E.
  - destruct Hin as [<-|Hin].
    + exists 0. split; [reflexivity|]. now rewrite Z.add_0_r.
    + destruct (IH _ _ Hin) as [k [Hk Hp]]. exists (S k).
      split; [assumption|]. now replace (i + Z.of_nat (S k))%Z
                                   with (i + 1 + Z.of_nat k)%Z by lia.
  - destruct (IH _ _ Hin) as [k [Hk Hp]]. exists (S k).
    split; [assumption|]. now replace (i + Z.of_nat (S k))%Z
                                 with (i + 1 + Z.of_nat k)%Z by lia.
Qed.

Lemma filterRelevant_complete threshold q messages : forall i k msg,
  nth_error messages k = Some msg ->
  passes threshold q (i + Z.of_nat k) msg = true ->
  In msg (filterRelevant threshold q i messages).
Proof.
  induction messages as [|m ms IH]; intros i [|k] msg Hk Hp; try easy.
  - cbn in Hk. injection Hk as ->. rewrite Z.add_0_r in Hp.
    cbn [filterRelevant]. fold (passes threshold q i msg). rewrite Hp.
    now left.
  - cbn in Hk. cbn [filterRelevant].
    assert (In msg (filterRelevant threshold q (i + 1) ms)) as Hin.
    { apply IH with (k := k); [assumption|].
      now replace (i + 1 + Z.of_nat k)%Z with (i + Z.of_nat (S k))%Z by lia. }
    destruct (_ && _); [now right|assumption].
Qed.

(** C6.  When no candidate passes the threshold 0.75, [Query] filters the
    same candidates again with the threshold 0.6 and the same quality
    test, and only when that second pass is empty too does it return the
    empty result; otherwise the second pass is what the answer is generated
    from and what is returned as sources. *)
Theorem relevance_fallback (rangeOrder : list gostring -> list gostring)
  (env : Providers) (query : gostring) (w w1 : World) (q : vector)
  (messages : list SlackMessage) :
  GenerateEmbedding env query w = (inr q, w1) ->
  SearchSimilarMessages q 10 w1 = (inr messages, w1) ->
  filterRelevant 0.75 q 0 messages = [] ->
  relevantMessages q messages = filterRelevant 0.6 q 0 messages
  /\ (forall msg, In msg (filterRelevant 0.6 q 0 messages) <->
      exists k, nth_error messages k = Some msg
                /\ passes 0.6 q (Z.of_nat k) msg = true)
  /\ Query rangeOrder env query w
     = match filterRelevant 0.6 q 0 messages with
       | [] => (inr (mkQueryResult noInformation [] query), w1)
       | relevant =>
           bind (wrap (str "failed to generate answer")
                      (generateAnswer rangeOrder env query relevant))
                (fun answer => ret (mkQueryResult answer relevant query)) w1
       end.
Proof.
  intros Hq Hs Hprimary.
  assert (relevantMessages q messages = filterRelevant 0.6 q 0 messages)
    as Hrel by (unfold relevantMessages; now rewrite Hprimary).
  split; [exact Hrel|]. split.
  - intros msg. split.
    + intros Hin. apply filterRelevant_sound in Hin as [k [Hk Hp]].
      now exists k.
    + intros [k [Hk Hp]]. now apply filterRelevant_complete with (k := k).
  - unfold Query. unfold bind at 1 2, wrap at 1 2.
    rewrite Hq, Hs, Hrel.
    now destruct (filterRelevant 0.6 q 0 messages).
Qed.

Lemma relevance_fallback_witness :
  filterRelevant 0.75 [0%float; 1%float] 0 (slack_messages fourMessagesWorld)
  = []
  /\ fst (Query (fun threads => threads) orthogonalProviders releaseQuery
            fourMessagesWorld)
     = inr (mkQueryResult (str "The pipeline runs at two [1].")
              [insertedRow 4 3 (withHash pipelineMessage)] releaseQuery).
Proof.
  assert (filterRelevant 0.75 [0%float; 1%float] 0
            (slack_messages fourMessagesWorld) = []) as Hp
    by (vm_compute; reflexivity).
  split; [exact Hp|].
  destruct (relevance_fallback (fun threads => threads) orthogonalProviders
              releaseQuery fourMessagesWorld
              (w1 := snd (GenerateEmbedding orthogonalProviders releaseQuery
                            fourMessagesWorld))
              (q := [0%float; 1%float])
              (messages := slack_messages fourMessagesWorld))
    as (_ & _ & HQ); [vm_compute; reflexivity ..|exact Hp|].
  rewrite HQ. vm_compute. reflexivity.
Defined.

(** *** Similarity *)

(** C1, as stated, fails.  The only candidate has the stored embedding
    [(1, 0)]; the query embedding is [(0, 1)], so one minus the cosine
    distance is 0.  The value [Query] compares with the thresholds is
    [calculateSimilarity], 0.9 at position 0, and the candidate is returned
    as a source. *)
Lemma similarity_is_not_cosine :
  SearchSimilarMessages [0%float; 1%float] 10 pipelineWorld
  = (inr [pipelineRow], pipelineWorld)
  /\ map te_embedding (slack_thread_embeddings pipelineWorld)
     = [Some [1%float; 0%float]]
  /\ (1 - Pgvector.cosine_distance [1; 0] [0; 1])%float = 0%float
  /\ calculateSimilarity [0%float; 1%float] pipelineRow 0 = 0.9%float
  /\ PrimFloat.eqb (calculateSimilarity [0%float; 1%float] pipelineRow 0)
                   (1 - Pgvector.cosine_distance [1; 0] [0; 1])%float
     = false
  /\ fst (Query (fun threads => threads) orthogonalProviders releaseQuery
            pipelineWorld)
     = inr (mkQueryResult (str "The pipeline runs at two [1].")
              [pipelineRow] releaseQuery).
Proof. vm_compute. repeat split. Qed.

(** C1, amended.  The value compared with the thresholds for the candidate
    at position [i] of the search result is the estimate
    [0.9 - 0.05 * i] of [calculateSimilarity]: it is the same for every
    query embedding and every candidate, so the relevant messages of a
    search result do not depend on the query embedding.  Among the first ten
    positions, 0 to 2 are above 0.75 and 0 to 5 are above 0.6. *)
Theorem similarity_is_positional :
  (forall (q q' : vector) (msg msg' : SlackMessage) (i : Z),
     calculateSimilarity q msg i = calculateSimilarity q' msg' i)
  /\ (forall (threshold : float) (q q' : vector) (i : Z)
             (messages : list SlackMessage),
        filterRelevant threshold q i messages
        = filterRelevant threshold q' i messages)
  /\ (forall (q q' : vector) (messages : list SlackMessage),
        relevantMessages q messages = relevantMessages q' messages)
  /\ map (fun i => PrimFloat.ltb 0.75 (calculateSimilarity [] pipelineRow i))
         firstTen
     = [true; true; true; false; false; false; false; false; false; false]
  /\ map (fun i => PrimFloat.ltb 0.6 (calculateSimilarity [] pipelineRow i))
         firstTen
     = [true; true; true; true; true; true; false; false; false; false].
Proof.
  assert (forall threshold q q' i messages,
            filterRelevant threshold q i messages
            = filterRelevant threshold q' i messages) as Hf.
  { intros threshold q q' i messages. revert i.
    induction messages as [|m ms IH]; intros i; [reflexivity|].
    cbn [filterRelevant]. now rewrite (IH (i + 1)%Z). }
  repeat split.
  - exact Hf.
  - intros q q' messages. unfold relevantMessages.
    now rewrite (Hf 0.75%float q q'), (Hf 0.6%float q q').
Qed.

End RAGFacts.

Module HashLengthFacts.
Import Sha256 HashSpec GoStringsFacts.

Lemma round_length st kw : length st = 8 -> length (round st kw) = 8.
Proof.
  intros H. do 9 (destruct st as [|? st]; try discriminate H).
  reflexivity.
Qed.

Lemma fold_round_length kws : forall st,
  length st = 8 -> length (fold_left round kws st) = 8.
Proof.
  induction kws as [|kw kws IH]; intros st H; [assumption|].
  cbn [fold_left]. apply IH. now apply round_length.
Qed.

Lemma add32s_length xs : forall ys,
  length (add32s xs ys) = Nat.min (length xs) (length ys).
Proof.
  induction xs as [|x xs IH]; intros [|y ys]; cbn [add32s length];
    try reflexivity.
  now rewrite IH.
Qed.

Lemma block_length h bs : length h = 8 -> length (block h bs) = 8.
Proof.
  intros H. unfold block. rewrite add32s_length, fold_round_length, H;
    [reflexivity|assumption].
Qed.

Lemma blocks_length n : forall h bs,
  length h = 8 -> length (blocks n h bs) = 8.
Proof.
  induction n as [|n IH]; intros h bs H; [assumption|].
  cbn [blocks]. apply IH. now apply block_length.
Qed.

Lemma H0_length : length H0 = 8.
Proof. vm_compute. reflexivity. Qed.

Lemma bigEndian_length n z : length (bigEndian n z) = n.
Proof. induction n as [|n IH]; cbn [bigEndian length]; congruence. Qed.

Lemma flat_map_length_const A B (f : A -> list B) k l :
  (forall x, length (f x) = k) -> length (flat_map f l) = k * length l.
Proof.
  intros H. induction l as [|x l IH]; cbn [flat_map length]; [lia|].
  rewrite length_app, H, IH. lia.
Qed.

(** A digest has 32 bytes. *)
Lemma Sum256_length m : length (Sum256 m) = 32.
Proof.
  unfold Sum256.
  rewrite flat_map_length_const with (k := 4)
    by (intros; apply bigEndian_length).
  rewrite blocks_length by apply H0_length. reflexivity.
Qed.

Lemma hex_length bs : length (hex bs) = 2 * length bs.
Proof. unfold hex. now apply flat_map_length_const with (k := 2). Qed.

Lemma hexDigit_high b : isLowerHex (hexDigit (Z.shiftr (byteZ b) 4)) = true.
Proof. destruct b; vm_compute; reflexivity. Qed.

Lemma hexDigit_low b : isLowerHex (hexDigit (Z.land (byteZ b) 15)) = true.
Proof. destruct b; vm_compute; reflexivity. Qed.

Lemma hex_digits bs : forallb isLowerHex (hex bs) = true.
Proof.
  induction bs as [|b bs IH]; [reflexivity|].
  unfold hex in *. cbn [flat_map app forallb].
  now rewrite hexDigit_high, hexDigit_low, IH.
Qed.

(** X1.  Every content hash has 64 bytes, each a lower-case hexadecimal digit:
    it fills the column [content_hash VARCHAR(64)] exactly. *)
Theorem HashContent_hex64 (content : gostring) :
  length (HashContent content) = 64
  /\ forallb isLowerHex (HashContent content) = true.
Proof.
  unfold HashContent. split; [|apply hex_digits].
  now rewrite hex_length, Sum256_length.
Qed.

End HashLengthFacts.

(** ** The signature check of the Slab webhook *)

Module SlabSignatureFacts.
Import Sha256 HashSpec GoStringsFacts HashLengthFacts Slab.

(** RFC 4231, test case 2, and a key longer than a block (test case 6). *)
Example hmac_rfc4231_2 :
  hex (Hmac.Sum (str "Jefe") (str "what do ya want for nothing?"))
  = str "5bdcc146bf60754e6a042426089575c75a003f089d2739839dec58b964ec3843".
Proof. vm_compute. reflexivity. Qed.

Example hmac_rfc4231_6 :
  hex (Hmac.Sum (repeat xaa 131)
         (str "Test Using Larger Than Block-Size Key - Hash Key First"))
  = str "60e431591ee0b67f0d8a26aacbf5b77f8e0bc6213728c5140546040f0ee37f54".
Proof. vm_compute. reflexivity. Qed.

Lemma hmac_hex_length key message :
  length (hex (Hmac.Sum key message)) = 64.
Proof. unfold Hmac.Sum. now rewrite hex_length, Sum256_length. Qed.

(** No digest in hexadecimal starts with the prefix [sha256=]. *)
Lemma hex_no_prefix key message :
  HasPrefix (hex (Hmac.Sum key message)) (str "sha256=") = false.
Proof.
  pose proof (hex_digits (Hmac.Sum key message)) as Hd.
  destruct (hex (Hmac.Sum key message)) as [|c s]; [reflexivity|].
  cbn [forallb] in Hd. apply andb_prop in Hd as [Hc _].
  change (str "sha256=") with (x73 :: str "ha256=").
  cbn [HasPrefix]. destruct (beq x73 c) eqn:E; [|reflexivity].
  apply Byte.byte_dec_bl in E. subst c. discriminate Hc.
Qed.

Lemma HasPrefix_drop s : forall p,
  HasPrefix s p = true -> s = p ++ skipn (length p) s.
Proof.
  induction s as [|c s IH]; intros [|b p]; cbn [HasPrefix]; try easy.
  intros H. apply andb_prop in H as [Hb Hp].
  apply Byte.byte_dec_bl in Hb. subst c. cbn [length skipn app].
  f_equal. now apply IH.
Qed.

Lemma HasPrefix_app_self p s : HasPrefix (p ++ s) p = true.
Proof.
  induction p as [|b p IH]; [now destruct s|].
  cbn [app HasPrefix]. rewrite IH. unfold beq.
  now rewrite (Byte.byte_dec_lb (eq_refl b)).
Qed.

(** X2.  [verifyHMAC] accepts a signature exactly when the secret is set and
    the signature is the HMAC-SHA256 of the body under the secret, in
    lower-case hexadecimal, with or without the prefix [sha256=]. *)
Theorem verifyHMAC_accepts_exactly (secret : gostring) (body : list byte)
  (signature : gostring) :
  verifyHMAC secret body signature = true
  <-> secret <> []
      /\ (signature = hex (Hmac.Sum secret body)
          \/ signature = str "sha256=" ++ hex (Hmac.Sum secret body)).
Proof.
  unfold verifyHMAC.
  pose proof (hmac_hex_length secret body) as Hlen.
  pose proof (hex_no_prefix secret body) as Hno.
  set (mac := hex (Hmac.Sum secret body)) in *.
  split.
  - destruct secret as [|b secret]; [discriminate|]. cbn [streq orb].
    destruct signature as [|c signature]; [discriminate|]. cbn [streq].
    intros H. split; [discriminate|].
    destruct (HasPrefix (c :: signature) (str "sha256=")) eqn:E.
    + right. apply streq_eq in H. apply HasPrefix_drop in E.
      rewrite E at 1. f_equal. exact H.
    + left. now apply streq_eq in H.
  - intros [Hs [-> | ->]].
    + destruct secret as [|b secret]; [easy|]. cbn [streq orb].
      destruct mac as [|c mac'] eqn:Em; [discriminate Hlen|].
      cbn [streq]. rewrite Hno. apply streq_refl.
    + destruct secret as [|b secret]; [easy|]. cbn [streq orb].
      change (streq (str "sha256=" ++ mac) []) with false. cbn iota.
      rewrite HasPrefix_app_self.
      change (sliceFrom (str "sha256=" ++ mac) 7) with mac.
      apply streq_refl.
Qed.

(** The secret and the body of [TestVerifyHMACWithValidSignature], with
    the signature that the test computes for them. *)
Example verifyHMAC_test_secret :
  verifyHMAC (str "test-secret")
    (json "{'event':'post.published','data':{'id':'123','content':'test'}}")
    (str "sha256="
     ++ str "5355534728ca8dac9c0fc4aedc1e30c2fcb938d40c2821c25b715e46d33b3ab2")
  = true.
Proof. vm_compute. reflexivity. Qed.

End SlabSignatureFacts.

(** ** The content of a Slab post *)

Module SlabContentFacts.
Import HashSpec GoStringsFacts GoReplace Slab.

Lemma replaceFrom_In x old new s : forall k,
  In x (replaceFrom k s old new) -> In x s \/ In x new.
Proof.
  induction s as [|c s IH]; intros k H; [now left|].
  cbn [replaceFrom] in H. destruct k as [|k].
  - destruct (HasPrefix (c :: s) old).
    + apply in_app_or in H as [H|H]; [now right|].
      apply IH in H as [H|H]; [left; now right|now right].
    + destruct H as [<-|H]; [left; now left|].
      apply IH in H as [H|H]; [left; now right|now right].
  - apply IH in H as [H|H]; [left; now right|now right].
Qed.

Lemma HasPrefix_nil s : HasPrefix s [] = true.
Proof. now destruct s. Qed.

(** Replacing by a text that is not longer does not lengthen the text. *)
Lemma replaceFrom_length old new s : forall k,
  length new <= length old -> k <= length s ->
  length (replaceFrom k s old new) + k <= length s.
Proof.
  induction s as [|c s IH]; intros k Hnew Hk.
  - cbn in *. lia.
  - cbn [replaceFrom]. destruct k as [|k].
    + destruct (HasPrefix (c :: s) old) eqn:E.
      * apply HasPrefix_length in E. cbn [length] in *.
        rewrite length_app.
        specialize (IH (length old - 1) Hnew). lia.
      * cbn [length]. specialize (IH 0 Hnew). lia.
    + cbn [length] in *. specialize (IH k Hnew). lia.
Qed.

Lemma ReplaceAll_In x s old new :
  In x (ReplaceAll s old new) -> In x s \/ In x new.
Proof. apply replaceFrom_In. Qed.

(** Removing a byte removes every occurrence of it. *)
Lemma ReplaceAll_byte b s : ~ In b (ReplaceAll s [b] []).
Proof.
  unfold ReplaceAll. induction s as [|c s IH]; [easy|].
  cbn [replaceFrom HasPrefix length Nat.sub app].
  rewrite HasPrefix_nil, andb_true_r. destruct (beq b c) eqn:E; [exact IH|].
  intros [->|H]; [|now apply IH].
  unfold beq in E. now rewrite (Byte.byte_dec_lb (eq_refl b)) in E.
Qed.

Lemma TrimSpace_In x s : In x (TrimSpace s) -> In x s.
Proof.
  intros H. unfold TrimSpace in H.
  destruct (trimRight_prefix (trimLeft s)) as [r Hr].
  destruct (trimWith_suffix spaceWidth s 0) as [p Hp].
  fold (trimLeft s) in Hp. rewrite Hp. apply in_or_app. right.
  rewrite Hr. apply in_or_app. now left.
Qed.

Lemma ReplaceAll_keeps_out b s old new :
  ~ In b s -> ~ In b new -> ~ In b (ReplaceAll s old new).
Proof. intros Hs Hn H. apply ReplaceAll_In in H. tauto. Qed.

Lemma ReplaceAll_length s old new :
  length new <= length old -> length (ReplaceAll s old new) <= length s.
Proof.
  intros H. pose proof (@replaceFrom_length old new s 0 H). unfold ReplaceAll.
  lia.
Qed.

Lemma TrimSpace_length s : length (TrimSpace s) <= length s.
Proof.
  unfold TrimSpace.
  destruct (trimRight_prefix (trimLeft s)) as [r Hr].
  destruct (trimWith_suffix spaceWidth s 0) as [p Hp].
  fold (trimLeft s) in Hp.
  apply (f_equal (@length _)) in Hr, Hp. rewrite length_app in Hr, Hp. lia.
Qed.

(** The tests of [TestCleanSlabContent]. *)
Example cleanSlabContent_bold :
  cleanSlabContent (str "This is **bold** and *italic* text")
  = str "This is bold and italic text".
Proof. vm_compute. reflexivity. Qed.

Example cleanSlabContent_headers :
  cleanSlabContent (str "# Header 1" ++ x0a :: str "## Header 2"
                    ++ x0a :: str "Content")
  = str "Header 1" ++ x0a :: str " Header 2" ++ x0a :: str "Content".
Proof. vm_compute. reflexivity. Qed.

Example cleanSlabContent_spaces :
  cleanSlabContent (str "Text  with   multiple    spaces"
                    ++ [x0a; x0a; x0a] ++ str "and newlines")
  = str "Text with  multiple  spaces" ++ [x0a; x0a] ++ str "and newlines".
Proof. vm_compute. reflexivity. Qed.

Example cleanSlabContent_mixed :
  cleanSlabContent (str "# Title" ++ [x0a; x0a]
                    ++ str "This is **bold** and `code`" ++ [x0a; x0a]
                    ++ str "  Multiple spaces  ")
  = str "Title" ++ x0a :: str "This is bold and code"
    ++ x0a :: str " Multiple spaces".
Proof. vm_compute. reflexivity. Qed.

(** X3.  The content [processPost] and [processComment] store holds none of
    the bytes [*], [_], [`] and [#], is not longer than the content delivered,
    and neither starts nor ends with white space. *)
Theorem cleanSlabContent_plain (content : gostring) :
  (forall b, In b markdownBytes -> ~ In b (cleanSlabContent content))
  /\ length (cleanSlabContent content) <= length content
  /\ TrimSpace (cleanSlabContent content) = cleanSlabContent content.
Proof.
  split; [|split].
  - intros b Hb H. unfold cleanSlabContent in H. apply TrimSpace_In in H.
    revert H. do 2 (apply ReplaceAll_keeps_out;
      [|destruct Hb as [<-|[<-|[<-|[<-|[]]]]]; cbn; intuition discriminate]).
    destruct Hb as [<-|[<-|[<-|[<-|[]]]]].
    + do 3 (apply ReplaceAll_keeps_out; [|easy]). apply ReplaceAll_byte.
    + do 2 (apply ReplaceAll_keeps_out; [|easy]). apply ReplaceAll_byte.
    + apply ReplaceAll_keeps_out; [|easy]. apply ReplaceAll_byte.
    + apply (ReplaceAll_byte x23).
  - unfold cleanSlabContent.
    etransitivity; [apply TrimSpace_length|].
    repeat (etransitivity; [apply ReplaceAll_length; cbn; lia|]).
    reflexivity.
  - apply TrimSpace_idempotent.
Qed.

End SlabContentFacts.

(** ** What the embedding provider is sent *)

Module EmbeddingRequestFacts.
Import GoStringsFacts WorldFacts DocStoreFacts EmbeddingService.

Lemma truncate_prefix text : exists rest, text = truncate text ++ rest.
Proof.
  unfold truncate. destruct (len text >? maxChars)%Z; 
    [|exists []; symmetry; apply app_nil_r].
  unfold sliceTo.
  set (n := Z.to_nat maxChars).
  destruct (LastIndex (firstn n (firstn n text)) (str " ") >? maxChars - 100)%Z.
  - set (k := Z.to_nat _).
    exists (skipn k (firstn n text) ++ skipn n text).
    now rewrite app_assoc, firstn_skipn, firstn_skipn.
  - exists (skipn n text). now rewrite firstn_skipn.
Qed.

Lemma truncate_length text :
  (len text > maxChars)%Z ->
  (maxChars - 100 < len (truncate text) <= maxChars)%Z.
Proof.
  intros H. unfold truncate.
  destruct (Z.gtb_spec (len text) maxChars) as [_|]; [|lia].
  unfold sliceTo, len in *.
  assert (0 <= maxChars)%Z as Hpos
    by (unfold maxChars, maxTokens, avgCharsPerToken; lia).
  set (n := Z.to_nat maxChars) in *.
  assert (Z.of_nat n = maxChars) as Hn by (apply Z2Nat.id; exact Hpos).
  destruct (Z.gtb_spec (LastIndex (firstn n (firstn n text)) (str " "))
                       (maxChars - 100)) as [Hl|Hl].
  - rewrite !length_firstn. lia.
  - rewrite length_firstn. lia.
Qed.

(** X4.  [GenerateEmbedding] refuses a blank text before any request.
    Otherwise it sends one request; the text sent is the trimmed input or a
    prefix of it, is not empty and has at most 32000 bytes; an input that was
    cut keeps more than 31900 bytes. *)
Theorem embedding_request_bounded (env : Providers) (text : gostring)
  (w : World) :
  (TrimSpace text = [] ->
   GenerateEmbedding env text w
   = (inl (Msg (str "input text cannot be empty")), w))
  /\ (TrimSpace text <> [] ->
      exists sent rest,
        calls (snd (GenerateEmbedding env text w))
        = calls w ++ [EmbeddingCall sent]
        /\ TrimSpace text = sent ++ rest
        /\ (0 < len sent <= 32000)%Z
        /\ ((len (TrimSpace text) <= 32000)%Z -> rest = [])
        /\ ((len (TrimSpace text) > 32000)%Z -> (31900 < len sent)%Z)).
Proof.
  rewrite GenerateEmbedding_run. split.
  - intros ->. reflexivity.
  - intros Hne. rewrite streq_nil_false by assumption.
    destruct (truncate_prefix (TrimSpace text)) as [rest Hrest].
    exists (truncate (TrimSpace text)), rest.
    change 32000%Z with maxChars. change 31900%Z with (maxChars - 100)%Z.
    split; [|split; [exact Hrest|split; [|split]]].
    + cbn zeta.
      now destruct (createEmbeddings env (truncate (TrimSpace text)))
        as [[|]|].
    + destruct (Z.gtb_spec (len (TrimSpace text)) maxChars) as [Hgt|Hle].
      * apply Z.lt_gt in Hgt. apply truncate_length in Hgt.
        unfold maxChars, maxTokens, avgCharsPerToken in *. lia.
      * rewrite truncate_short by assumption. split; [|assumption].
        unfold len. destruct (TrimSpace text); [easy|cbn [length]; lia].
    + intros Hle. rewrite truncate_short in Hrest by assumption.
      rewrite <- (app_nil_r (TrimSpace text)) in Hrest at 1.
      now apply app_inv_head in Hrest.
    + intros Hgt. now apply truncate_length in Hgt.
Qed.

End EmbeddingRequestFacts.

(** ** Texts that are not blank *)

Module BlankFacts.
Import GoStringsFacts StringSpec.

(** The rune found at the end of a text is found from its first byte. *)
Lemma spaceWidthRev_forward l k :
  spaceWidthRev l = S k ->
  k < length l /\ spaceWidth (rev (firstn (S k) l)) <> 0.
Proof.
  unfold spaceWidthRev.
  destruct l as [|c r1]; [discriminate|].
  destruct (isSpace1 c) eqn:E1.
  { intros [= <-]. cbn. rewrite E1. split; [lia|discriminate]. }
  destruct r1 as [|b r2]; [discriminate|].
  destruct (isSpace2 b c) eqn:E2.
  { intros [= <-]. cbn. rewrite E2. split; [lia|].
    destruct (isSpace1 b); discriminate. }
  destruct r2 as [|a r3]; [discriminate|].
  destruct (isSpace3 a b c) eqn:E3; [|discriminate].
  intros [= <-]. cbn. rewrite E3. split; [lia|].
  destruct (isSpace1 a); [discriminate|].
  destruct (isSpace2 a b); discriminate.
Qed.

(** Trimming on the right never reaches the first byte of a text that does
    not start with white space.  [rest] holds the bytes that were trimmed,
    [k] of the bytes ahead belong to the rune being trimmed. *)
Lemma trimWith_keeps_first c l : forall k rest,
  spaceWidth (c :: rev l ++ rest) = 0 ->
  (k = 0
   \/ (k <= length (l ++ [c])
       /\ exists consumed more,
            rest = consumed ++ more
            /\ spaceWidth (rev (firstn k (l ++ [c])) ++ consumed) <> 0)) ->
  exists l', trimWith spaceWidthRev k (l ++ [c]) = l' ++ [c].
Proof.
  induction l as [|x l IH]; intros k rest H0 Hk.
  - cbn [app rev] in *. destruct Hk as [->|(Hle & consumed & more & -> & Hw)].
    + cbn [trimWith]. destruct (spaceWidthRev [c]) as [|j] eqn:E;
        [now exists []|].
      apply spaceWidthRev_forward in E as [Hj Hw]. cbn [length] in Hj.
      assert (j = 0) as -> by lia. cbn [firstn rev app] in Hw.
      apply (spaceWidth_app _ rest) in Hw as Hw'. cbn [app] in Hw'.
      congruence.
    + cbn [length] in Hle. destruct k as [|[|k]]; [| |lia].
      * cbn [trimWith]. destruct (spaceWidthRev [c]) as [|j] eqn:E;
          [now exists []|].
        apply spaceWidthRev_forward in E as [Hj Hw1]. cbn [length] in Hj.
        assert (j = 0) as -> by lia. cbn [firstn rev app] in Hw1.
        apply (spaceWidth_app _ (consumed ++ more)) in Hw1 as Hw'.
        cbn [app] in Hw'. congruence.
      * cbn [firstn rev app] in Hw.
        apply (spaceWidth_app _ more) in Hw as Hw'.
        cbn [app] in Hw'. congruence.
  - cbn [rev] in H0. rewrite <- app_assoc in H0. cbn [app] in H0.
    cbn [app trimWith]. destruct k as [|k].
    + destruct (spaceWidthRev (x :: l ++ [c])) as [|j] eqn:E;
        [now exists (x :: l)|].
      apply spaceWidthRev_forward in E as [Hj Hw]. cbn [length] in Hj.
      apply (IH j (x :: rest) H0). destruct j as [|j]; [now left|right].
      split; [lia|]. exists [x], rest. split; [reflexivity|].
      now change (firstn (S (S j)) (x :: l ++ [c]))
        with (x :: firstn (S j) (l ++ [c])) in Hw.
    + apply (IH k (x :: rest) H0).
      destruct Hk as [Hk|(Hle & consumed & more & -> & Hw)]; [lia|].
      destruct k as [|k]; [now left|right]. cbn [length app] in Hle.
      split; [lia|]. exists (x :: consumed), more. split; [reflexivity|].
      change (firstn (S (S k)) ((x :: l) ++ [c]))
        with (x :: firstn (S k) (l ++ [c])) in Hw.
      cbn [rev] in Hw. now rewrite <- app_assoc in Hw.
Qed.

(** A text that does not start with white space is not blank: trimming
    keeps its first byte. *)
Lemma TrimSpace_not_blank c t :
  spaceWidth (c :: t) = 0 -> exists t', TrimSpace (c :: t) = c :: t'.
Proof.
  intros Hc. unfold TrimSpace, trimLeft.
  rewrite trimWith_fix by assumption.
  unfold trimRight. cbn [rev].
  destruct (@trimWith_keeps_first c (rev t) 0 []) as [l' Hl'];
    [now rewrite rev_involutive, app_nil_r|now left|].
  rewrite Hl', rev_app_distr. cbn [rev app]. now exists (rev l').
Qed.

Lemma spaceWidth_lead c t : spaceLead c = false -> spaceWidth (c :: t) = 0.
Proof.
  unfold spaceLead, spaceWidth, isSpace2, isSpace3. intros H.
  apply orb_false_elim in H as [H He3]. apply orb_false_elim in H as [H He2].
  apply orb_false_elim in H as [H He1]. apply orb_false_elim in H as [H1 Hc2].
  rewrite H1, Hc2, He1, He2, He3. cbn.
  destruct t as [|b [|a t]]; reflexivity.
Qed.

Lemma Fields_not_blank c t : spaceWidth (c :: t) = 0 -> Fields (c :: t) <> [].
Proof.
  intros Hc. unfold Fields. cbn [fieldsR]. rewrite Hc.
  now destruct (fieldsR 0 t) as [w ws].
Qed.

(** A blank text is white space throughout. *)
Lemma TrimSpace_blank s : TrimSpace s = [] <-> trimLeft s = [].
Proof.
  split.
  - intros H. destruct (trimLeft s) as [|c t] eqn:E; [reflexivity|].
    assert (spaceWidth (c :: t) = 0) as Hw
      by (rewrite <- E; apply trimWith_head; reflexivity).
    destruct (TrimSpace_not_blank c t Hw) as [t' Ht'].
    unfold TrimSpace in H, Ht'. rewrite E in H.
    unfold trimLeft in Ht'. rewrite trimWith_fix in Ht' by assumption.
    congruence.
  - intros H. unfold TrimSpace. now rewrite H.
Qed.

End BlankFacts.

(** ** The quality gate of the thread processor *)

Module ThreadGateFacts.
Import GoStringsFacts BlankFacts SlackJobs StringSpec.

Section Gate.

Variable formatLocal : Z -> gostring.

Lemma buildThreadContent_head msg messages :
  exists rest,
    buildThreadContent formatLocal (msg :: messages) = x5b :: rest
    /\ 4 <= length rest.
Proof.
  unfold buildThreadContent. cbn [map].
  set (parts := map (formatMessage formatLocal) messages).
  assert (exists tail, formatMessage formatLocal msg = x5b :: tail
                       /\ 4 <= length tail) as (tail & Ht & Hl).
  { unfold formatMessage. eexists. split; [reflexivity|].
    rewrite !length_app. cbn. lia. }
  rewrite Ht. destruct parts as [|p parts].
  - exists tail. now split.
  - cbn [Join]. eexists. split; [reflexivity|]. rewrite length_app. lia.
Qed.

(** X5.  For the content of a thread that has messages, the gate of
    [processThread] is the pattern test alone: the content is never blank,
    never shorter than five bytes and never without a word. *)
Theorem thread_gate_is_pattern_test (messages : list SlackMessage) :
  messages <> [] ->
  isQualityContent (buildThreadContent formatLocal messages)
  = negb (existsb (Contains (ToLower (buildThreadContent formatLocal
                                        messages)))
                  testPatterns).
Proof.
  destruct messages as [|msg messages]; [easy|]. intros _.
  destruct (buildThreadContent_head msg messages) as (rest & -> & Hl).
  unfold isQualityContent.
  destruct (@TrimSpace_not_blank x5b rest) as [t' ->];
    [now apply spaceWidth_lead|].
  cbn [streq].
  destruct (existsb _ testPatterns); [reflexivity|]. cbn [negb].
  destruct (Z.ltb_spec (len (x5b :: rest)) 5) as [H|_];
    [unfold len in H; cbn [length] in H; lia|].
  assert (Fields (x5b :: rest) <> []) as Hf
    by now apply Fields_not_blank, spaceWidth_lead.
  destruct (Fields (x5b :: rest)); [easy|].
  destruct (Z.ltb_spec (Z.of_nat (length (g :: l))) 1) as [H|_];
    [cbn [length] in H; lia|reflexivity].
Qed.

End Gate.

Lemma thread_gate_is_pattern_test_witness :
  [SlackSpec.sampleMessage] <> []
  /\ isQualityContent (buildThreadContent itoa [SlackSpec.sampleMessage])
     = negb (existsb (Contains (ToLower (buildThreadContent itoa
                                           [SlackSpec.sampleMessage])))
                     testPatterns).
Proof.
  split; [discriminate|].
  apply (thread_gate_is_pattern_test itoa). discriminate.
Defined.

End ThreadGateFacts.

(** ** Several texts in one embedding request *)

Module EmbeddingBatchFacts.
Import GoStringsFacts EmbeddingService EmbeddingBatch StringSpec.

Lemma cleanTexts_length texts :
  length (cleanTexts texts) = length (filter nonBlank texts).
Proof.
  induction texts as [|t texts IH]; [reflexivity|].
  cbn [cleanTexts filter]. unfold nonBlank at 1.
  destruct (negb (streq (TrimSpace t) [])); cbn [length]; now rewrite IH.
Qed.

(** X6.  [GenerateEmbeddings] returns one vector for every text that is not
    blank: the answer of the provider to the request with these texts. The
    vector at position [i] belongs to the [i]-th text that is not blank, which
    is not [texts[i]] when a blank text comes before it. *)
Theorem batch_skips_blank_texts
  (createEmbeddings : list gostring -> option (list vector))
  (texts : list gostring) (embeddings : list vector) :
  GenerateEmbeddings createEmbeddings texts = inr embeddings ->
  createEmbeddings (cleanTexts texts) = Some embeddings
  /\ length embeddings = length (filter nonBlank texts)
  /\ Forall2 (fun text sent => sent = truncate (TrimSpace text))
             (filter nonBlank texts) (cleanTexts texts).
Proof.
  unfold GenerateEmbeddings. destruct texts as [|t texts]; [discriminate|].
  rewrite <- cleanTexts_length. cbv zeta.
  destruct (cleanTexts (t :: texts)) as [|c clean] eqn:E; [discriminate|].
  cbn beta iota.
  destruct (createEmbeddings (c :: clean)) as [data|]; [|discriminate].
  destruct (Nat.eqb_spec (length data) (length (c :: clean))) as [Hl|];
    [|discriminate].
  intros [= <-]. split; [reflexivity|split; [assumption|]].
  rewrite <- E. clear. induction (t :: texts) as [|x xs IH]; [constructor|].
  cbn [filter cleanTexts]. unfold nonBlank at 1.
  destruct (negb (streq (TrimSpace x) [])); [constructor|]; easy.
Qed.

Lemma batch_skips_blank_texts_witness :
  GenerateEmbeddings unitVectors blankAndValid = inr [[1%float]]
  /\ unitVectors (cleanTexts blankAndValid) = Some [[1%float]]
  /\ length [[1%float]] = length (filter nonBlank blankAndValid)
  /\ Forall2 (fun text sent => sent = truncate (TrimSpace text))
             (filter nonBlank blankAndValid) (cleanTexts blankAndValid).
Proof.
  split; [vm_compute; reflexivity|].
  apply batch_skips_blank_texts. vm_compute. reflexivity.
Defined.

(** A request whose texts are all blank is refused whatever the provider
    would answer. *)
Lemma batch_all_blank createEmbeddings texts :
  filter nonBlank texts = [] ->
  exists e, GenerateEmbeddings createEmbeddings texts = inl (Msg e).
Proof.
  intros H. unfold GenerateEmbeddings. destruct texts; [eauto|]. cbv zeta.
  pose proof (cleanTexts_length (g :: texts)) as Hl. rewrite H in Hl.
  destruct (cleanTexts (g :: texts)); [eauto|discriminate].
Qed.

End EmbeddingBatchFacts.

(** ** The Slab webhook and the store *)

Module SlabEventsFacts.
Import GoStringsFacts WorldFacts DocStoreFacts UpsertFacts.
Import SlabSignatureFacts.
Import DocStore Slab SlabEvents SlabSpec Spec.

(** The signatures [verifyHMAC] accepts. *)
Lemma verifyHMAC_spec secret body signature :
  verifyHMAC secret body signature = true ->
  secret <> []
  /\ (signature = sign secret body
      \/ signature = str "sha256=" ++ sign secret body).
Proof.
  unfold verifyHMAC, sign.
  destruct secret as [|b secret]; [discriminate|]. cbn [streq orb].
  destruct signature as [|c signature]; [discriminate|]. cbn [streq].
  intros H. split; [discriminate|].
  destruct (HasPrefix (c :: signature) (str "sha256=")) eqn:E.
  - right. apply streq_eq in H. apply HasPrefix_drop in E.
    rewrite E at 1. f_equal. exact H.
  - left. now apply streq_eq in H.
Qed.

Lemma existsb_streq_In s l : existsb (streq s) l = true <-> In s l.
Proof.
  rewrite existsb_exists. split.
  - intros [x [Hin Hx]]. apply streq_eq in Hx. now subst.
  - intros H. exists s. split; [assumption|apply streq_refl].
Qed.

(** X7.  [HandleWebhook] changes the store only for a request that carries the
    HMAC-SHA256 of its body under the secret (with or without the prefix
    [sha256=]), whose body is a payload, whose event is one of
    [post.published], [post.updated], [comment.created] and [comment.updated],
    and whose content is not empty. *)
Theorem webhook_write_conditions (secret : gostring)
  (unmarshal : list byte -> option SlabWebhookPayload) (now : time)
  (body : list byte) (signature : gostring) (w : World) :
  snd (HandleWebhook secret unmarshal now body signature w) <> w ->
  secret <> []
  /\ (signature = sign secret body
      \/ signature = str "sha256=" ++ sign secret body)
  /\ exists payload,
       unmarshal body = Some payload
       /\ In (Event payload) (postEvents ++ commentEvents)
       /\ Data_Content payload <> [].
Proof.
  unfold HandleWebhook.
  destruct (verifyHMAC secret body signature) eqn:Hv;
    [|intros H; exfalso; apply H; reflexivity].
  apply verifyHMAC_spec in Hv as [Hs Hsig]. cbn [negb].
  destruct (unmarshal body) as [payload|];
    [|intros H; exfalso; apply H; reflexivity].
  intros Hw. split; [assumption|]. split; [assumption|].
  exists payload. split; [reflexivity|].
  unfold processWebhookEvent, processPost, processComment in Hw.
  destruct (existsb (streq (Event payload)) postEvents) eqn:Ep.
  - apply existsb_streq_In in Ep. split; [apply in_or_app; now left|].
    intros Hc. rewrite Hc in Hw. apply Hw. reflexivity.
  - destruct (existsb (streq (Event payload)) commentEvents) eqn:Ec;
      [|exfalso; apply Hw; reflexivity].
    apply existsb_streq_In in Ec. split; [apply in_or_app; now right|].
    intros Hc. rewrite Hc in Hw. apply Hw. reflexivity.
Qed.

Lemma webhook_write_conditions_witness :
  snd (HandleWebhook (str "test-secret") parseFirst 1 (str "{}")
         (sign (str "test-secret") (str "{}")) emptyWorld) <> emptyWorld
  /\ exists payload,
       parseFirst (str "{}") = Some payload
       /\ In (Event payload) (postEvents ++ commentEvents)
       /\ Data_Content payload <> [].
Proof.
  assert (snd (HandleWebhook (str "test-secret") parseFirst 1 (str "{}")
                 (sign (str "test-secret") (str "{}")) emptyWorld)
          <> emptyWorld) as H
    by (vm_compute; discriminate).
  split; [exact H|].
  exact (proj2 (proj2 (@webhook_write_conditions _ _ _ _ _ _ H))).
Defined.

(** X8.  An edited post is refused. A post that is new to the store is stored
    under the id [slab_post_<id>]; a later event for the same post whose
    cleaned content has another hash fails on the primary key, and the store
    keeps the first content. *)
Theorem slab_post_edit_refused (now1 now2 : time)
  (first second : SlabWebhookPayload) (w : World) :
  In (Event first) postEvents -> In (Event second) postEvents ->
  Data_ID second = Data_ID first ->
  Data_Content first <> [] -> Data_Content second <> [] ->
  HashContent (cleanSlabContent (Data_Content second))
  <> HashContent (cleanSlabContent (Data_Content first)) ->
  (forall r, In r (documents w) ->
             id r <> str "slab_post_" ++ Data_ID first
             /\ (source r = str "slab" -> source_id r <> Data_ID first)) ->
  let w1 := snd (processWebhookEvent now1 first w) in
  fst (processWebhookEvent now1 first w) = inr tt
  /\ processWebhookEvent now2 second w1
     = (inl (Wrapped (str "failed to store document")
                     (UniqueViolation (str "documents_pkey"))), w1)
  /\ exists r, documents w1 = documents w ++ [r]
               /\ id r = str "slab_post_" ++ Data_ID first
               /\ content r = cleanSlabContent (Data_Content first).
Proof.
  intros He1 He2 Hid Hc1 Hc2 Hhash Hnew. cbn zeta.
  unfold processWebhookEvent.
  apply existsb_streq_In in He1, He2. rewrite He1, He2.
  unfold processPost.
  rewrite (streq_nil_false Hc1), (streq_nil_false Hc2).
  set (doc1 := mkDocument _ _ _ _ _ _ _ _ _ _ _ _ _ _ _).
  set (doc2 := mkDocument _ _ _ _ _ _ _ _ _ _ _ _ _ _ _).
  assert (forall doc, Source doc = str "slab" ->
                      SourceID doc = Data_ID first ->
                      existsb (conflicts doc) (documents w) = false) as Hfree.
  { intros doc Hs Hi. apply not_true_is_false. intros E.
    apply existsb_exists in E as [r [Hin Hr]]. unfold conflicts in Hr.
    apply andb_prop in Hr as [Hr Hsid]. apply andb_prop in Hr as [_ Hsrc].
    apply streq_eq in Hsid, Hsrc. destruct (Hnew r Hin) as [_ Hn].
    apply Hn; congruence. }
  assert (existsb (fun r => streq (id r) (ID doc1)) (documents w) = false)
    as Hpk.
  { apply not_true_is_false. intros E.
    apply existsb_exists in E as [r [Hin Hr]]. apply streq_eq in Hr.
    destruct (Hnew r Hin) as [Hn _]. now apply Hn. }
  rewrite (StoreDocument_run now1 doc1 w).
  rewrite (Hfree doc1 eq_refl eq_refl), Hpk.
  cbn [fst snd]. split; [reflexivity|]. split.
  - apply StoreDocument_refused.
    + cbn [documents setDocuments]. rewrite rowsOf_app.
      assert (rowsOf (conflicts doc2) (documents w) = 0) as ->.
      { destruct (rowsOf (conflicts doc2) (documents w)) eqn:N;
          [reflexivity|].
        assert (existsb (conflicts doc2) (documents w) = true) as E
          by (apply existsb_rowsOf; lia).
        rewrite Hfree in E; [discriminate|reflexivity|exact Hid]. }
      unfold rowsOf. cbn [filter]. unfold conflicts at 1.
      cbn [content_hash proposedRow ContentHash doc1 doc2].
      destruct (streq _ _) eqn:E; [|reflexivity].
      apply streq_eq in E. now symmetry in E.
    + cbn [documents setDocuments]. rewrite map_app. apply in_or_app.
      right. left. cbn. now rewrite Hid.
  - exists (proposedRow now1 doc1). now split.
Qed.

Lemma slab_post_edit_refused_witness :
  let w1 := snd (processWebhookEvent 1 firstRevision emptyWorld) in
  fst (processWebhookEvent 1 firstRevision emptyWorld) = inr tt
  /\ processWebhookEvent 2 secondRevision w1
     = (inl (Wrapped (str "failed to store document")
                     (UniqueViolation (str "documents_pkey"))), w1)
  /\ exists r, documents w1 = documents emptyWorld ++ [r]
               /\ id r = str "slab_post_" ++ Data_ID firstRevision
               /\ content r = cleanSlabContent (Data_Content firstRevision).
Proof.
  apply slab_post_edit_refused.
  - now left.
  - right. now left.
  - reflexivity.
  - discriminate.
  - discriminate.
  - vm_compute. discriminate.
  - intros r [].
Defined.

End SlabEventsFacts.

(** ** Threads, their embeddings and the search *)

Module SlackStoreFacts.
Import GoStringsFacts WorldFacts SlackJobsFacts UpsertFacts SlabEventsFacts.
Import SlackStore Spec SlackSpec SlackStoreSpec.



Lemma firstn_enough A (l : list A) limit :
  (Z.of_nat (length l) <= limit)%Z -> firstn (Z.to_nat limit) l = l.
Proof. intros H. apply firstn_all2. lia. Qed.


(** *** [SearchSimilarMessages] *)

(** The candidates of the first query: a thread id and a distance for
    every embedding row that holds a vector. *)
Lemma candidates_threads q es :
  map fst (flat_map (fun e => match te_embedding e with
                              | Some v => [(te_thread_id e,
                                            Pgvector.cosine_distance v q)]
                              | None => []
                              end) es)
  = map te_thread_id (filter hasVector es).
Proof.
  induction es as [|e es IH]; [reflexivity|].
  cbn [flat_map filter]. unfold hasVector at 1.
  destruct (te_embedding e); cbn [app map]; now rewrite IH.
Qed.

Lemma map_In_sortBy A B (f : A -> B) le l y :
  In y (map f (sortBy le l)) <-> In y (map f l).
Proof.
  rewrite !in_map_iff. split; intros [x [Hx Hin]]; exists x;
    (split; [assumption|]); now apply sortBy_In in Hin || apply sortBy_In.
Qed.

Lemma SearchSimilarMessages_run q limit w :
  SearchSimilarMessages q limit w
  = if (limit <? 0)%Z then
      (inl (Wrapped (str "failed to search similar threads") NegativeLimit),
       w)
    else
      match nearestThreads q limit w with
      | [] => (inr [], w)
      | _ :: _ =>
          (inr (sortBy byThreadAndTime
                  (filter (fun r => existsb (streq (ThreadID r))
                                            (nearestThreads q limit w))
                          (slack_messages w))), w)
      end.
Proof.
  unfold SearchSimilarMessages, wrap, bind, gets, limitRows.
  destruct (limit <? 0)%Z; [reflexivity|]. cbn beta iota zeta.
  unfold ret. fold (nearestThreads q limit w).
  now destruct (nearestThreads q limit w).
Qed.

Lemma nearestThreads_embedded q limit w t :
  In t (nearestThreads q limit w) -> In t (embeddedThreads w).
Proof.
  unfold nearestThreads, embeddedThreads. intros Ht.
  rewrite <- (candidates_threads q).
  apply in_map_iff in Ht as [x [Hx Hin]]. apply firstn_In in Hin.
  apply sortBy_In in Hin. apply in_map_iff. now exists x.
Qed.

(** With room for every embedding row, the first query returns every
    thread that has a vector. *)
Lemma nearestThreads_all q limit w t :
  (Z.of_nat (length (slack_thread_embeddings w)) <= limit)%Z ->
  In t (nearestThreads q limit w) <-> In t (embeddedThreads w).
Proof.
  intros Hlimit. unfold nearestThreads, embeddedThreads.
  rewrite firstn_enough.
  - now rewrite map_In_sortBy, candidates_threads.
  - rewrite sortBy_length, <- (length_map fst), candidates_threads.
    rewrite length_map.
    pose proof (filter_length_le hasVector (slack_thread_embeddings w)).
    lia.
Qed.

(** Every message the search returns is a stored message of a thread that
    has an embedding row with a vector. *)
Lemma SearchSimilarMessages_sound q limit w messages w' :
  SearchSimilarMessages q limit w = (inr messages, w') ->
  w' = w
  /\ forall m, In m messages ->
       In m (slack_messages w) /\ In (ThreadID m) (embeddedThreads w).
Proof.
  rewrite SearchSimilarMessages_run.
  destruct (limit <? 0)%Z; [discriminate|].
  pose proof (@nearestThreads_embedded q limit w) as Hnear.
  destruct (nearestThreads q limit w) as [|t ts] eqn:E.
  - intros [= <- <-]. split; [reflexivity|]. intros m [].
  - intros [= <- <-]. split; [reflexivity|]. intros m Hm.
    apply sortBy_In, filter_In in Hm as [Hin Hex]. split; [assumption|].
    apply Hnear. now apply existsb_streq_In.
Qed.

(** X10.  A message that is delivered again hides its thread from the search:
    until the thread is embedded again, no message of the thread is returned,
    whatever the query. *)
Theorem redelivered_thread_not_searchable (now : time) (msg : SlackMessage)
  (w : World) (q : vector) (limit : Z) (messages : list SlackMessage)
  (w2 : World) :
  existsb (sameMessage msg) (slack_messages w) = true ->
  SearchSimilarMessages q limit (snd (StoreMessage now msg w))
  = (inr messages, w2) ->
  forall m, In m messages -> ThreadID m <> ThreadID msg.
Proof.
  intros Hex Hsearch m Hm Heq.
  apply existsb_rowsOf in Hex.
  destruct (StoreMessage_existing now msg w Hex) as (_ & _ & _ & _ & Hemb).
  apply SearchSimilarMessages_sound in Hsearch as [_ Hsound].
  destruct (Hsound m Hm) as [_ Ht]. unfold embeddedThreads in Ht.
  apply in_map_iff in Ht as [e [He Hin]]. apply filter_In in Hin as [Hin _].
  apply (Hemb e Hin). congruence.
Qed.

Lemma redelivered_thread_not_searchable_witness :
  existsb (sameMessage (helloMessage (str "hello")))
          (slack_messages embeddedThreadWorld) = true
  /\ SearchSimilarMessages [1; 0]%float 10
       (snd (StoreMessage 3 (helloMessage (str "hello")) embeddedThreadWorld))
     = (inr [], snd (StoreMessage 3 (helloMessage (str "hello"))
                       embeddedThreadWorld))
  /\ forall m, In m (@nil SlackMessage) ->
               ThreadID m <> ThreadID (helloMessage (str "hello")).
Proof.
  assert (existsb (sameMessage (helloMessage (str "hello")))
                  (slack_messages embeddedThreadWorld) = true) as H1
    by (vm_compute; reflexivity).
  assert (SearchSimilarMessages [1; 0]%float 10
            (snd (StoreMessage 3 (helloMessage (str "hello"))
                    embeddedThreadWorld))
          = (inr [], snd (StoreMessage 3 (helloMessage (str "hello"))
                            embeddedThreadWorld))) as H2
    by (vm_compute; reflexivity).
  split; [exact H1|]. split; [exact H2|].
  exact (redelivered_thread_not_searchable _ _ _ _ _ H1 H2).
Defined.

(** X11.  When the store holds no more embedding rows than the limit of the
    search, the result does not depend on the query: it is every message of
    every thread that has a vector, in the order of thread id and message
    timestamp. *)
Theorem search_ignores_query_when_few (q1 q2 : vector) (limit : Z)
  (w : World) :
  length q1 = length q2 ->
  (Z.of_nat (length (slack_thread_embeddings w)) <= limit)%Z ->
  SearchSimilarMessages q1 limit w = SearchSimilarMessages q2 limit w
  /\ forall messages w',
       SearchSimilarMessages q1 limit w = (inr messages, w') ->
       forall m, In m messages
                 <-> In m (slack_messages w)
                     /\ In (ThreadID m) (embeddedThreads w).
Proof.
  intros _ Hlimit.
  pose proof (fun q t => @nearestThreads_all q limit w t Hlimit) as Hin.
  split.
  - rewrite !SearchSimilarMessages_run.
    destruct (Z.ltb_spec limit 0) as [|_]; [lia|].
    pose proof (Hin q1) as H1. pose proof (Hin q2) as H2.
    assert (forall r, existsb (streq (ThreadID r)) (nearestThreads q1 limit w)
                      = existsb (streq (ThreadID r))
                                (nearestThreads q2 limit w)) as Hex.
    { intros r. apply eq_true_iff_eq.
      now rewrite !existsb_streq_In, H1, H2. }
    rewrite (filter_ext _ _ Hex).
    destruct (nearestThreads q1 limit w) as [|t1 ts1];
      destruct (nearestThreads q2 limit w) as [|t2 ts2];
      try reflexivity; exfalso.
    + apply (H1 t2). apply H2. now left.
    + apply (H2 t1). apply H1. now left.
  - intros messages w' H m. rewrite SearchSimilarMessages_run in H.
    destruct (Z.ltb_spec limit 0) as [|_]; [lia|].
    specialize (Hin q1).
    destruct (nearestThreads q1 limit w) as [|t ts] eqn:E.
    + injection H as <- <-. split; [easy|]. intros [_ Ht].
      now apply Hin in Ht.
    + injection H as <- <-. rewrite sortBy_In, filter_In.
      change (streq (ThreadID m) t || existsb (streq (ThreadID m)) ts)
        with (existsb (streq (ThreadID m)) (t :: ts)).
      now rewrite existsb_streq_In, Hin.
Qed.

Lemma search_ignores_query_when_few_witness :
  SearchSimilarMessages [1; 0]%float 10 embeddedThreadWorld
  = SearchSimilarMessages [0; 1]%float 10 embeddedThreadWorld.
Proof.
  refine (proj1 (@search_ignores_query_when_few [1; 0]%float [0; 1]%float 10
                   embeddedThreadWorld _ _)).
  - reflexivity.
  - vm_compute. discriminate.
Defined.

(** *** [StoreThreadEmbedding] *)




End SlackStoreFacts.

(** ** The backlog of documents *)

Module BacklogFacts.
Import GoStringsFacts WorldFacts DocStoreFacts.
Import DocStore EmbeddingService Jobs Spec DocSpec BacklogSpec.

(** An accepted document whose request is answered with a vector of the
    dimension of the column gets this vector on its rows. *)
Lemma processDocument_embeds env now doc w :
  (10 <= len (TrimSpace (Content doc)))%Z ->
  (exists v vs,
     createEmbeddings env (truncate (TrimSpace (TrimSpace (Content doc))))
     = Some (v :: vs)
     /\ length v = dimension) ->
  exists v,
    documents (snd (processDocument env now doc w))
    = map (updateRow now (ID doc) v) (documents w).
Proof.
  intros Hlen (v & vs & Hv & Hdim). exists v. unfold processDocument.
  rewrite len_nonempty by lia.
  destruct (Z.ltb_spec (len (TrimSpace (Content doc))) 10); [lia|].
  unfold bind. rewrite GenerateEmbedding_run, TrimSpace_idempotent in *.
  rewrite len_nonempty by lia. cbv zeta. rewrite Hv.
  rewrite UpdateEmbedding_run, Hdim, Nat.eqb_refl. reflexivity.
Qed.

(** After a batch whose documents all get a vector the missing rows are
    the former ones whose id is not in the batch. *)
Lemma missing_after_embedded_batch env now docs : forall w,
  (forall d w, In d docs ->
     exists v, documents (snd (processDocument env now d w))
               = map (updateRow now (ID d) v) (documents w)) ->
  filter missing
    (documents
       (snd (forEach docs
               (fun doc => logAndContinue (processDocument env now doc)) w)))
  = filter (outside (map ID docs)) (filter missing (documents w)).
Proof.
  induction docs as [|d docs IH]; intros w Hmark.
  - cbn. symmetry. now apply filter_all.
  - cbn [forEach map]. unfold bind, logAndContinue at 1. cbn [snd].
    rewrite IH by (intros d' w' Hd'; apply Hmark; now right).
    destruct (Hmark d w (or_introl eq_refl)) as [v ->].
    rewrite missing_after_update, filter_filter.
    apply filter_ext. intros r. symmetry. apply outside_cons.
Qed.

(** One tick on a backlog of accepted and answered documents: the missing
    rows lose [batchSize] of them (or all), and no row becomes missing. *)
Lemma tick_embeds env now w :
  (forall r, In r (filter missing (documents w)) ->
             rejected r = false /\ answered env r) ->
  length (filter missing (documents (tick env now w)))
  <= length (filter missing (documents w))
     - Nat.min 10 (length (filter missing (documents w)))
  /\ (forall r, In r (filter missing (documents (tick env now w))) ->
                In r (filter missing (documents w))).
Proof.
  intros Hok. unfold tick, processBatch, bind.
  rewrite GetDocumentsWithoutEmbeddings_run.
  change (batchSize <? 0)%Z with false. cbn iota.
  change (Z.to_nat batchSize) with 10.
  assert (forall d w', In d (map scanDocument (firstn 10 (missingRows w))) ->
            exists v, documents (snd (processDocument env now d w'))
                      = map (updateRow now (ID d) v) (documents w'))
    as Hdocs.
  { intros d w' Hd. apply in_map_iff in Hd as [r [<- Hr]].
    apply firstn_In in Hr. apply sortBy_In in Hr.
    destruct (Hok r Hr) as [Hrej Hans].
    apply processDocument_embeds; cbn [Content scanDocument];
      [|exact Hans].
    unfold rejected in Hrej. now apply Z.ltb_ge. }
  pose proof (missing_after_embedded_batch env now _ w Hdocs) as Hbatch.
  rewrite map_map in Hbatch. cbn [ID scanDocument] in Hbatch.
  destruct (map scanDocument (firstn 10 (missingRows w))) as [|d ds] eqn:E.
  - unfold ret. cbn [snd]. split; [|easy].
    assert (length (filter missing (documents w)) = 0) as ->; [|lia].
    apply map_eq_nil in E. apply (f_equal (@length _)) in E.
    rewrite length_firstn in E. unfold missingRows in E.
    rewrite sortBy_length in E. cbn [length] in E. lia.
  - rewrite Hbatch. split.
    + rewrite <- (filter_length_sortBy _
                    (fun a b => (created_at a <=? created_at b)%Z)).
      fold (missingRows w).
      etransitivity; [apply batch_removed|].
      unfold missingRows. rewrite sortBy_length. lia.
    + intros r Hr. now apply filter_In in Hr as [Hr _].
Qed.

(** X13.  The backlog drains on the good path.  When every document
    without embedding is accepted by the gate and answered by the provider
    with a vector of the dimension of the column, one tick for every ten of
    them leaves none: [GetStats] then counts zero documents without
    embeddings. *)
Theorem documents_backlog_drains (env : Providers) (instants : list time)
  (w : World) :
  (forall r, In r (filter missing (documents w)) ->
             rejected r = false /\ answered env r) ->
  length (filter missing (documents w)) <= 10 * length instants ->
  fst (documentsWithoutEmbeddings (ticks env instants w)) = inr 0%Z.
Proof.
  assert (forall w,
            (forall r, In r (filter missing (documents w)) ->
                       rejected r = false /\ answered env r) ->
            length (filter missing (documents (ticks env instants w)))
            <= length (filter missing (documents w)) - 10 * length instants)
    as Hcount.
  { unfold ticks. clear w.
    induction instants as [|now instants IH]; intros w Hok.
    - cbn. lia.
    - cbn [fold_left length].
      destruct (@tick_embeds env now w Hok) as [Hlen Hsub].
      etransitivity; [apply IH|lia].
      intros r Hr. apply Hok. now apply Hsub. }
  intros Hok Hn. specialize (Hcount w Hok).
  unfold documentsWithoutEmbeddings, bind.
  rewrite GetDocumentsWithoutEmbeddings_run. cbn [fst Z.ltb Z.compare].
  cbn iota. unfold ret. cbn [fst].
  rewrite length_map, length_firstn. unfold missingRows.
  rewrite sortBy_length. do 2 f_equal. lia.
Qed.

Lemma documents_backlog_drains_witness :
  fst (documentsWithoutEmbeddings
         (ticks documentProviders [3%Z] oneDocument))
  = inr 0%Z.
Proof.
  apply documents_backlog_drains.
  - intros r Hr. vm_compute in Hr. destruct Hr as [<-|[]].
    split; [vm_compute; reflexivity|].
    exists (axis 0), []. split; vm_compute; reflexivity.
  - vm_compute. lia.
Defined.

(** *** A provider that fails *)

Lemma processDocument_fails env now doc w :
  (10 <= len (TrimSpace (Content doc)))%Z ->
  createEmbeddings env (truncate (TrimSpace (TrimSpace (Content doc))))
  = None ->
  documents (snd (processDocument env now doc w)) = documents w.
Proof.
  intros Hlen Hnone. unfold processDocument.
  destruct (streq (TrimSpace (Content doc)) []) eqn:E.
  { apply streq_eq in E. rewrite E in Hlen. cbn in Hlen. lia. }
  destruct (Z.ltb_spec (len (TrimSpace (Content doc))) 10); [lia|].
  unfold bind. rewrite GenerateEmbedding_run.
  rewrite TrimSpace_idempotent in *. rewrite E. cbv zeta.
  now rewrite Hnone.
Qed.

Lemma forEach_documents env now docs : forall w,
  (forall d w', In d docs ->
     documents (snd (processDocument env now d w')) = documents w') ->
  documents
    (snd (forEach docs
            (fun doc => logAndContinue (processDocument env now doc)) w))
  = documents w.
Proof.
  induction docs as [|d docs IH]; intros w H; [reflexivity|].
  cbn [forEach]. unfold bind, logAndContinue at 1. cbn [snd].
  rewrite IH by (intros d' w' Hd'; apply H; now right).
  apply H. now left.
Qed.

(** X14.  Head-of-line blocking. The processor fetches the ten oldest
    documents without embedding and leaves a document whose request fails as
    it is. When these ten are accepted by the gate and their requests fail, no
    tick changes the table: the documents behind them are never processed, not
    even to be marked. *)
Theorem failing_batch_blocks_backlog (env : Providers)
  (instants : list time) (w : World) :
  (forall r, In r (firstn 10 (missingRows w)) ->
             rejected r = false
             /\ createEmbeddings env (request r) = None) ->
  documents (ticks env instants w) = documents w.
Proof.
  revert w. unfold ticks.
  induction instants as [|now instants IH]; intros w Hfail; [reflexivity|].
  cbn [fold_left].
  assert (documents (tick env now w) = documents w) as Htick.
  { unfold tick, processBatch, bind.
    rewrite GetDocumentsWithoutEmbeddings_run.
    change (batchSize <? 0)%Z with false. cbn iota.
    change (Z.to_nat batchSize) with 10.
    destruct (map scanDocument (firstn 10 (missingRows w))) as [|d ds] eqn:E;
      [reflexivity|].
    apply forEach_documents. intros d' w' Hd'. rewrite <- E in Hd'.
    apply in_map_iff in Hd' as [r [<- Hr]].
    destruct (Hfail r Hr) as [Hrej Hnone].
    apply processDocument_fails; [|exact Hnone].
    unfold rejected in Hrej. cbn [Content scanDocument].
    now apply Z.ltb_ge. }
  rewrite IH; [exact Htick|].
  unfold missingRows in *. rewrite Htick. exact Hfail.
Qed.

Lemma failing_batch_blocks_backlog_witness :
  documents (ticks providerDown [3%Z; 4%Z] oneDocument)
  = documents oneDocument.
Proof.
  apply failing_batch_blocks_backlog.
  intros r Hr. vm_compute in Hr. destruct Hr as [<-|[]].
  split; vm_compute; reflexivity.
Defined.

(** *** What [GetStats] counts, and the settings *)

(** X15.  [GetStats] of the document processor reads at most 1000 rows:
    the count it reports is the number of documents without embeddings up
    to 1000, and 1000 beyond; the store is as it was. *)
Theorem GetStats_counts_to_1000 (w : World) :
  documentsWithoutEmbeddings w
  = (inr (Z.of_nat (Nat.min 1000 (length (filter missing (documents w))))),
     w).
Proof.
  unfold documentsWithoutEmbeddings, bind.
  rewrite GetDocumentsWithoutEmbeddings_run.
  change (1000 <? 0)%Z with false. cbn iota. unfold ret.
  rewrite length_map, length_firstn. unfold missingRows.
  rewrite sortBy_length.
  now replace (Z.to_nat 1000) with 1000 by reflexivity.
Qed.

Import JobsSettings.

Lemma apply_bounds e s :
  (1 <= JobsSettings.batchSize e <= 1000)%Z ->
  (10 * second <= interval e <= 10 * minute)%Z ->
  (1 <= JobsSettings.batchSize (apply e s) <= 1000)%Z
  /\ (10 * second <= interval (apply e s) <= 10 * minute)%Z.
Proof.
  intros Hb Hi. destruct s as [size|d]; cbn [apply].
  - unfold SetBatchSize.
    destruct (Z.ltb_spec 0 size), (Z.leb_spec size 1000);
      cbn [andb JobsSettings.batchSize interval]; split; (assumption || lia).
  - unfold SetInterval.
    destruct (Z.leb_spec (10 * second) d), (Z.leb_spec d (10 * minute));
      cbn [andb JobsSettings.batchSize interval]; split; (assumption || lia).
Qed.

(** X16.  Whatever sizes and intervals the setters are called with, the batch
    size of the processor stays between 1 and 1000 and its interval between
    ten seconds and ten minutes; so the fetch of a batch never fails on its
    limit, and [processBatch] returns no error. *)
Theorem settings_stay_in_range (settings : list Setting) (env : Providers)
  (now : time) (w : World) :
  let e := fold_left apply settings NewEmbeddingProcessor in
  (1 <= JobsSettings.batchSize e <= 1000)%Z
  /\ (10 * second <= interval e <= 10 * minute)%Z
  /\ fst (JobsSettings.processBatch env now e w) = inr tt.
Proof.
  cbn zeta.
  assert (forall e0,
            (1 <= JobsSettings.batchSize e0 <= 1000)%Z ->
            (10 * second <= interval e0 <= 10 * minute)%Z ->
            (1 <= JobsSettings.batchSize (fold_left apply settings e0)
             <= 1000)%Z
            /\ (10 * second <= interval (fold_left apply settings e0)
                <= 10 * minute)%Z) as Hinv.
  { induction settings as [|s settings IH]; intros e0 Hb Hi; [now split|].
    cbn [fold_left]. destruct (apply_bounds e0 s Hb Hi) as [Hb' Hi'].
    now apply IH. }
  destruct (Hinv NewEmbeddingProcessor) as [Hb Hi];
    [cbn; lia|unfold second, minute; cbn; lia|].
  split; [exact Hb|]. split; [exact Hi|].
  unfold JobsSettings.processBatch, Jobs.processBatch, bind.
  rewrite GetDocumentsWithoutEmbeddings_run.
  destruct (Z.ltb_spec (JobsSettings.batchSize
                          (fold_left apply settings NewEmbeddingProcessor)) 0)
    as [|_]; [lia|].
  destruct (map scanDocument _) as [|d ds]; [reflexivity|].
  generalize (d :: ds). clear. intros docs. revert w.
  induction docs as [|d docs IH]; intros w; [reflexivity|].
  cbn [forEach]. unfold bind, logAndContinue at 1. apply IH.
Qed.

End BacklogFacts.

(** ** The search over documents *)

Module SearchFacts.
Import GoStringsFacts WorldFacts DocStoreFacts UpsertFacts.
Import DocStore EmbeddingService Jobs Spec DocSpec SearchSpec.





End SearchFacts.

(** ** The query over documents, and pending embeddings *)

Module DocQueryFacts.
Import GoStringsFacts WorldFacts DocStoreFacts SearchFacts.
Import DocStore EmbeddingService Jobs Spec DocSpec SearchSpec RAGSpec.
Import Pending.



(** X19.  A blank question is refused by both query services before any
    request: the error is that of the embedding service, wrapped, and the
    world is as it was. *)
Theorem blank_query_is_refused (rangeOrder : list gostring -> list gostring)
  (formatFloat2 : float -> gostring) (env : Providers) (query : gostring)
  (w : World) :
  TrimSpace query = [] ->
  SlackRAG.Query rangeOrder env query w
  = (inl (Wrapped (str "failed to generate query embedding")
                  (Msg (str "input text cannot be empty"))), w)
  /\ DocRAG.Query formatFloat2 env query w
     = (inl (Wrapped (str "failed to generate query embedding")
                     (Msg (str "input text cannot be empty"))), w).
Proof.
  intros H. unfold SlackRAG.Query, DocRAG.Query, bind, wrap.
  rewrite GenerateEmbedding_run, H. now split.
Qed.

Lemma blank_query_is_refused_witness :
  SlackRAG.Query (fun threads => threads) sampleProviders (str "   ")
    emptyWorld
  = (inl (Wrapped (str "failed to generate query embedding")
                  (Msg (str "input text cannot be empty"))), emptyWorld).
Proof.
  apply (@blank_query_is_refused (fun threads => threads)
           (fun _ => str "0.00") sampleProviders (str "   ") emptyWorld).
  reflexivity.
Defined.

(** X20.  [ProcessPendingEmbeddings] stops at the first error. When the oldest
    document without embedding is blank, the embedding service refuses it: the
    call returns that error, sends no request and writes nothing, so every
    later call meets the same document and no pending document is ever
    embedded this way. *)
Theorem pending_blocked_by_blank_document (env : Providers) (now : time)
  (w : World) (doc : Document) (rest : list Document) :
  GetDocumentsWithoutEmbeddings 50 w = (inr (doc :: rest), w) ->
  TrimSpace (Content doc) = [] ->
  ProcessPendingEmbeddings env now w
  = (inl (Wrapped (str "failed to generate embedding for document "
                   ++ ID doc)
                  (Msg (str "input text cannot be empty"))), w).
Proof.
  intros Hget Hblank. unfold ProcessPendingEmbeddings, bind, wrap.
  rewrite Hget. cbn [embedDocuments]. unfold bind, wrap.
  now rewrite GenerateEmbedding_run, Hblank.
Qed.

Lemma pending_blocked_by_blank_document_witness :
  ProcessPendingEmbeddings sampleProviders 3 blankFirst
  = (inl (Wrapped (str "failed to generate embedding for document "
                   ++ ID blankDocument)
                  (Msg (str "input text cannot be empty"))), blankFirst).
Proof.
  eapply (@pending_blocked_by_blank_document sampleProviders 3 blankFirst
            (scanDocument (proposedRow 1 blankDocument))).
  - vm_compute. reflexivity.
  - vm_compute. reflexivity.
Defined.

End DocQueryFacts.

(** ** The thread processor on a thread of quality content *)

Module ThreadFacts.
Import GoStringsFacts WorldFacts DocStoreFacts SlackJobsFacts UpsertFacts.
Import BlankFacts ChunkerFacts SlackStoreFacts.
Import SlackStore EmbeddingService SlackJobs Chunker.
Import Spec SlackSpec StringSpec ThreadSpec.




Section Loop.

Variable env : Providers.
Variable now : time.
Variable threadID : gostring.








End Loop.






End ThreadFacts.

(** ** Collecting a thread from Slack *)

Module CollectFacts.
Import GoStringsFacts WorldFacts SlackJobsFacts UpsertFacts SlabEventsFacts.
Import SlackStoreFacts.
Import SlackStore Normalizer Collect Spec SlackSpec CollectSpec.

Lemma getUserDisplayName_known h userID :
  userID <> [] -> getUserDisplayName h userID <> [].
Proof.
  intros Hne. unfold getUserDisplayName.
  rewrite (streq_nil_false Hne).
  destruct (SlackAPI.GetUserInfo (client h) userID) as [user|];
    [|assumption].
  destruct (streq (SlackAPI.Profile_DisplayName user) []) eqn:E1; cbn [negb].
  2: { intros E. now rewrite E in E1. }
  destruct (streq (SlackAPI.Profile_RealName user) []) eqn:E2; cbn [negb].
  2: { intros E. now rewrite E in E2. }
  destruct (streq (SlackAPI.Name user) []) eqn:E3; cbn [negb];
    [assumption|].
  intros E. now rewrite E in E3.
Qed.

Lemma converted_thread h slackMsg channelID threadTS msg :
  convertSlackMessage h slackMsg channelID threadTS = Some msg ->
  ThreadID msg = threadTS /\ ChannelID msg = channelID.
Proof.
  unfold convertSlackMessage.
  repeat match goal with
         | |- (if ?c then _ else _) = _ -> _ => destruct c; [discriminate|]
         | |- (let _ := _ in _) = _ -> _ => cbv zeta
         end.
  now intros [= <-].
Qed.

(** X23.  What [convertSlackMessage] lets through. A message that is kept has
    a text, is no bot message and not a message of the bot itself; its content
    is the cleaned text, trimmed and not empty, of at least ten bytes unless
    the message is the root of the thread; it carries the channel and the
    thread of the action; it is the thread root exactly when its timestamp is
    that of the thread; and its user name is not empty when the message has a
    user. *)
Theorem converted_message_is_clean (h : SlackHandler)
  (slackMsg : SlackAPI.Message) (channelID threadTS : gostring)
  (msg : SlackMessage) :
  convertSlackMessage h slackMsg channelID threadTS = Some msg ->
  (SlackAPI.Text slackMsg <> []
   /\ SlackAPI.SubType slackMsg <> str "bot_message"
   /\ (botUserID h <> [] -> SlackAPI.User slackMsg <> botUserID h))
  /\ (Content msg = TrimSpace (cleanMessageText (SlackAPI.Text slackMsg))
      /\ Content msg <> []
      /\ TrimSpace (Content msg) = Content msg
      /\ ((10 <= len (Content msg))%Z \/ IsThreadRoot msg = true))
  /\ (ChannelID msg = channelID /\ ThreadID msg = threadTS
      /\ MessageTimestamp msg = SlackAPI.Timestamp slackMsg
      /\ (IsThreadRoot msg = true <-> SlackAPI.Timestamp slackMsg = threadTS))
  /\ (SlackAPI.User slackMsg <> [] -> UserName msg <> []).
Proof.
  unfold convertSlackMessage.
  destruct (streq (SlackAPI.Text slackMsg) []) eqn:Etext; [discriminate|].
  destruct (streq (SlackAPI.SubType slackMsg) (str "bot_message")) eqn:Esub;
    [discriminate|].
  destruct (negb (streq (botUserID h) [])
            && streq (SlackAPI.User slackMsg) (botUserID h)) eqn:Ebot;
    [discriminate|].
  cbv zeta.
  destruct (streq (TrimSpace (cleanMessageText (SlackAPI.Text slackMsg))) [])
    eqn:Eblank; [discriminate|].
  destruct ((len (TrimSpace (cleanMessageText (SlackAPI.Text slackMsg)))
             <? 10)%Z
            && negb (streq (SlackAPI.Timestamp slackMsg) threadTS))
    eqn:Eshort; [discriminate|].
  intros [= <-]. cbn.
  assert (forall a b, streq a b = false -> a <> b) as Hneq.
  { intros a b E Heq. subst. now rewrite streq_refl in E. }
  split; [|split; [|split]].
  - split; [now apply Hneq|]. split; [now apply Hneq|].
    intros Hb Heq. rewrite (streq_nil_false Hb) in Ebot. cbn in Ebot.
    now rewrite Heq, streq_refl in Ebot.
  - split; [reflexivity|]. split; [now apply Hneq|].
    split; [apply TrimSpace_idempotent|].
    apply andb_false_elim in Eshort as [E|E].
    + left. now apply Z.ltb_ge.
    + right. now apply negb_false_iff.
  - repeat split; try reflexivity; apply streq_eq.
  - apply getUserDisplayName_known.
Qed.

Lemma converted_message_is_clean_witness :
  exists msg,
    convertSlackMessage sampleHandler
      (reply (str "1734277500.000100") (str "U1")
             (str "<@U9> how do we deploy?"))
      (str "C06DTMSH03E") (str "1734277500.000100") = Some msg
    /\ Content msg = str "how do we deploy?"
    /\ Content msg <> [].
Proof.
  eexists. split; [vm_compute; reflexivity|]. split; [reflexivity|].
  eapply (@converted_message_is_clean sampleHandler
            (reply (str "1734277500.000100") (str "U1")
                   (str "<@U9> how do we deploy?"))
            (str "C06DTMSH03E") (str "1734277500.000100")).
  vm_compute. reflexivity.
Defined.

(** *** The loop of [handleCollectContext] *)

Section Loop.

Variable h : SlackHandler.
Variable now : time.
Variable channelID threadTS : gostring.

Lemma StoreMessage_ok msg w :
  exists stored wasInserted,
    fst (StoreMessage now msg w) = inr (stored, wasInserted)
    /\ length (slack_messages (snd (StoreMessage now msg w)))
       = length (slack_messages w) + (if wasInserted : bool then 1 else 0)
    /\ (wasInserted = false
        <-> existsb (sameMessage msg) (slack_messages w) = true).
Proof.
  rewrite StoreMessage_run.
  destruct (find (sameMessage msg) (slack_messages w)) as [old|] eqn:E.
  - do 2 eexists. split; [reflexivity|].
    cbn [snd slack_messages setThreadEmbeddings setSlackMessages].
    rewrite length_map. split; [lia|]. split; [|reflexivity].
    intros _. apply existsb_rowsOf. now apply rowsOf_find_some in E.
  - do 2 eexists. split; [reflexivity|].
    cbn [snd slack_messages setNextUuid setSlackMessages].
    rewrite length_app. cbn [length]. split; [lia|].
    split; [discriminate|]. intros Hex. apply existsb_rowsOf in Hex.
    apply rowsOf_find_none in E. lia.
Qed.

(** A stored identity stays stored. *)
Lemma StoreMessage_keeps_identity msg key w :
  existsb (sameMessage key) (slack_messages w) = true ->
  existsb (sameMessage key) (slack_messages (snd (StoreMessage now msg w)))
  = true.
Proof.
  intros H. apply existsb_rowsOf in H. apply existsb_rowsOf.
  rewrite StoreMessage_run.
  destruct (find (sameMessage msg) (slack_messages w));
    cbn [snd slack_messages setThreadEmbeddings setSlackMessages
         setNextUuid].
  - now rewrite rowsOf_map by (intros r; apply updated_key).
  - rewrite rowsOf_app. lia.
Qed.

Lemma StoreMessage_stores msg w :
  existsb (sameMessage msg) (slack_messages (snd (StoreMessage now msg w)))
  = true.
Proof.
  apply existsb_rowsOf. rewrite StoreMessage_run.
  destruct (find (sameMessage msg) (slack_messages w)) eqn:E;
    cbn [snd slack_messages setThreadEmbeddings setSlackMessages
         setNextUuid].
  - rewrite rowsOf_map by (intros r; apply updated_key).
    now apply rowsOf_find_some in E.
  - rewrite rowsOf_app. unfold rowsOf at 2. cbn [filter].
    rewrite sameMessage_inserted. cbn [length]. lia.
Qed.

(** One turn of the loop for a message that converts. *)
Lemma storeMessages_cons slackMsg rest msg storedCount w :
  convertSlackMessage h slackMsg channelID threadTS = Some msg ->
  storeMessages h now channelID threadTS (slackMsg :: rest) storedCount w
  = storeMessages h now channelID threadTS rest
      (if existsb (sameMessage msg) (slack_messages w) then storedCount
       else storedCount + 1)%Z
      (snd (StoreMessage now msg w)).
Proof.
  intros Hc. cbn [storeMessages]. rewrite Hc.
  destruct (StoreMessage_ok msg w) as (stored & wasInserted & Hres & _ & Hw).
  destruct (StoreMessage now msg w) as [[e|[stored' ins]] w'];
    cbn [fst snd] in *; [discriminate|].
  injection Hres as -> ->.
  destruct wasInserted.
  - destruct (existsb (sameMessage msg) (slack_messages w));
      [|reflexivity].
    now destruct Hw as [_ Hw]; specialize (Hw eq_refl).
  - destruct Hw as [Hw _]. now rewrite (Hw eq_refl).
Qed.

(** The count of the loop is the number of rows it adds. *)
Lemma storeMessages_count slackMessages : forall storedCount w,
  exists added,
    fst (storeMessages h now channelID threadTS slackMessages storedCount w)
    = inr (storedCount + Z.of_nat added)%Z
    /\ length (slack_messages
                 (snd (storeMessages h now channelID threadTS slackMessages
                         storedCount w)))
       = length (slack_messages w) + added
    /\ added <= length (converted h channelID threadTS slackMessages).
Proof.
  induction slackMessages as [|slackMsg rest IH]; intros storedCount w.
  - exists 0. cbn. split; [f_equal; lia|]. split; lia.
  - unfold converted. cbn [flat_map].
    fold (converted h channelID threadTS rest).
    destruct (convertSlackMessage h slackMsg channelID threadTS) as [msg|]
      eqn:Hc.
    + rewrite (@storeMessages_cons slackMsg rest msg _ _ Hc).
      destruct (StoreMessage_ok msg w)
        as (stored & wasInserted & _ & Hlen & Hw).
      destruct (existsb (sameMessage msg) (slack_messages w)) eqn:Hex.
      * destruct (IH storedCount (snd (StoreMessage now msg w)))
          as (added & Hres & Hl & Hle).
        exists added. split; [exact Hres|]. rewrite Hl, Hlen.
        destruct Hw as [_ Hw]. rewrite (Hw eq_refl).
        cbn [app length]. split; lia.
      * destruct (IH (storedCount + 1)%Z (snd (StoreMessage now msg w)))
          as (added & Hres & Hl & Hle).
        exists (S added). split; [rewrite Hres; f_equal; lia|].
        rewrite Hl, Hlen. destruct wasInserted.
        -- cbn [app length]. split; lia.
        -- destruct Hw as [Hw _]. specialize (Hw eq_refl). discriminate.
    + cbn [storeMessages]. rewrite Hc.
      destruct (IH storedCount w) as (added & Hres & Hl & Hle).
      exists added. cbn [app]. now repeat split.
Qed.

(** After the loop every message that converts has a row. *)
Lemma storeMessages_stores slackMessages : forall storedCount w,
  (forall key,
     existsb (sameMessage key) (slack_messages w) = true ->
     existsb (sameMessage key)
       (slack_messages
          (snd (storeMessages h now channelID threadTS slackMessages
                  storedCount w))) = true)
  /\ forall msg,
       In msg (converted h channelID threadTS slackMessages) ->
       existsb (sameMessage msg)
         (slack_messages
            (snd (storeMessages h now channelID threadTS slackMessages
                    storedCount w))) = true.
Proof.
  induction slackMessages as [|slackMsg rest IH]; intros storedCount w.
  - split; [now intros key H|intros msg []].
  - unfold converted. cbn [flat_map].
    fold (converted h channelID threadTS rest).
    destruct (convertSlackMessage h slackMsg channelID threadTS) as [msg|]
      eqn:Hc.
    + rewrite (@storeMessages_cons slackMsg rest msg _ _ Hc).
      set (count := if existsb _ _ then _ else _).
      destruct (IH count (snd (StoreMessage now msg w))) as [Hkeep Hall].
      split.
      * intros key Hk. apply Hkeep. now apply StoreMessage_keeps_identity.
      * intros msg' [<-|Hin]; [|now apply Hall].
        apply Hkeep. apply StoreMessage_stores.
    + cbn [storeMessages]. rewrite Hc. cbn [app]. apply IH.
Qed.

(** When every message that converts has a row, the loop inserts nothing
    and deletes the embeddings of the thread of every such message. *)
Lemma storeMessages_again slackMessages : forall storedCount w,
  (forall msg, In msg (converted h channelID threadTS slackMessages) ->
               existsb (sameMessage msg) (slack_messages w) = true) ->
  fst (storeMessages h now channelID threadTS slackMessages storedCount w)
  = inr storedCount
  /\ length (slack_messages
               (snd (storeMessages h now channelID threadTS slackMessages
                       storedCount w)))
     = length (slack_messages w)
  /\ forall e,
       In e (slack_thread_embeddings
               (snd (storeMessages h now channelID threadTS slackMessages
                       storedCount w))) ->
       In e (slack_thread_embeddings w)
       /\ forall msg,
            In msg (converted h channelID threadTS slackMessages) ->
            te_thread_id e <> ThreadID msg.
Proof.
  induction slackMessages as [|slackMsg rest IH]; intros storedCount w Hall.
  - cbn. split; [reflexivity|]. split; [reflexivity|].
    intros e He. split; [assumption|]. intros msg [].
  - unfold converted in *. cbn [flat_map] in *.
    fold (converted h channelID threadTS rest) in *.
    destruct (convertSlackMessage h slackMsg channelID threadTS) as [msg|]
      eqn:Hc.
    + rewrite (@storeMessages_cons slackMsg rest msg _ _ Hc).
      pose proof (Hall msg (or_introl eq_refl)) as Hex. rewrite Hex.
      destruct (StoreMessage_existing now msg w) as (_ & Hlen & _ & _ & Hdel);
        [now apply existsb_rowsOf|].
      destruct (IH storedCount (snd (StoreMessage now msg w)))
        as (Hres & Hl & Hemb).
      { intros msg' Hin. apply StoreMessage_keeps_identity.
        apply Hall. now right. }
      split; [exact Hres|]. split; [now rewrite Hl|].
      intros e He. destruct (Hemb e He) as [Hin Hno].
      assert (In e (slack_thread_embeddings w)) as Hin0.
      { rewrite StoreMessage_run in Hin.
        apply existsb_rowsOf in Hex.
        destruct (find_rowsOf _ _ Hex) as [old Hold]. rewrite Hold in Hin.
        cbn [snd slack_thread_embeddings setThreadEmbeddings] in Hin.
        now apply filter_In in Hin as [Hin _]. }
      split; [exact Hin0|].
      intros msg' [<-|Hin']; [now apply Hdel|now apply Hno].
    + cbn [storeMessages]. rewrite Hc. cbn [app] in *. now apply IH.
Qed.

End Loop.

Lemma handleCollectContext_run h now interaction slackMessages w :
  SlackAPI.GetConversationReplies (client h)
    (SlackAPI.Channel_ID interaction) (threadOf interaction)
  = Some slackMessages ->
  forall storedCount,
    fst (storeMessages h now (SlackAPI.Channel_ID interaction)
           (threadOf interaction) slackMessages 0 w) = inr storedCount ->
    handleCollectContext h now interaction w
    = (inr (completionText storedCount (Z.of_nat (length slackMessages))),
       snd (storeMessages h now (SlackAPI.Channel_ID interaction)
              (threadOf interaction) slackMessages 0 w)).
Proof.
  intros Hget storedCount Hres. unfold handleCollectContext.
  cbv zeta. rewrite Hget. unfold bind, ret.
  destruct (storeMessages h now _ _ slackMessages 0 w) as [[e|n] w'];
    cbn [fst snd] in *; [discriminate|].
  now injection Hres as ->.
Qed.

(** X24.  The notification counts the rows added. When Slack returns the
    messages of the thread, [handleCollectContext] posts the completion text
    with the number of rows the run has added to [slack_messages] and the
    number of messages Slack returned; the rows added are at most the messages
    that [convertSlackMessage] keeps. *)
Theorem collect_reports_rows_added (h : SlackHandler) (now : time)
  (interaction : SlackAPI.InteractionCallback)
  (slackMessages : list SlackAPI.Message) (w : World) :
  SlackAPI.GetConversationReplies (client h)
    (SlackAPI.Channel_ID interaction) (threadOf interaction)
  = Some slackMessages ->
  exists added,
    fst (handleCollectContext h now interaction w)
    = inr (completionText (Z.of_nat added)
             (Z.of_nat (length slackMessages)))
    /\ length (slack_messages (snd (handleCollectContext h now interaction w)))
       = length (slack_messages w) + added
    /\ added <= length (converted h (SlackAPI.Channel_ID interaction)
                          (threadOf interaction) slackMessages)
    /\ length (converted h (SlackAPI.Channel_ID interaction)
                 (threadOf interaction) slackMessages)
       <= length slackMessages.
Proof.
  intros Hget.
  destruct (storeMessages_count h now (SlackAPI.Channel_ID interaction)
              (threadOf interaction) slackMessages 0%Z w)
    as (added & Hres & Hlen & Hle).
  exists added.
  rewrite (handleCollectContext_run h now interaction w Hget Hres).
  cbn [fst snd]. split; [reflexivity|]. split; [exact Hlen|].
  split; [exact Hle|].
  unfold converted. clear. induction slackMessages as [|m ms IH];
    [reflexivity|].
  cbn [flat_map]. rewrite length_app. cbn [length].
  destruct (convertSlackMessage h m _ _); cbn [length]; lia.
Qed.

Lemma collect_reports_rows_added_witness :
  exists added,
    fst (handleCollectContext sampleHandler 1734300000 sampleAction
           emptyWorld)
    = inr (completionText (Z.of_nat added) 3)
    /\ added = 2.
Proof.
  destruct (@collect_reports_rows_added sampleHandler 1734300000
              sampleAction sampleThread emptyWorld eq_refl)
    as (added & Hres & Hlen & _).
  exists added. split; [exact Hres|].
  vm_compute in Hlen. exact (eq_sym Hlen).
Defined.

(** X25.  Collecting a thread a second time. When Slack returns the same
    messages again, the second run of [handleCollectContext] adds no row and
    reports zero new messages; and if one message of the thread is kept by
    [convertSlackMessage], the thread has no embedding left after it, whatever
    had been embedded between the two runs. *)
Theorem collect_again_drops_embeddings (h : SlackHandler)
  (now1 now2 : time) (interaction : SlackAPI.InteractionCallback)
  (slackMessages : list SlackAPI.Message) (w : World)
  (embeddings : list ThreadEmbedding) :
  SlackAPI.GetConversationReplies (client h)
    (SlackAPI.Channel_ID interaction) (threadOf interaction)
  = Some slackMessages ->
  let w1 := setThreadEmbeddings
              (snd (handleCollectContext h now1 interaction w))
              embeddings in
  let r := handleCollectContext h now2 interaction w1 in
  fst r = inr (completionText 0 (Z.of_nat (length slackMessages)))
  /\ length (slack_messages (snd r)) = length (slack_messages w1)
  /\ (converted h (SlackAPI.Channel_ID interaction) (threadOf interaction)
        slackMessages <> [] ->
      forall e, In e (slack_thread_embeddings (snd r)) ->
                te_thread_id e <> threadOf interaction).
Proof.
  intros Hget w1 r.
  set (channelID := SlackAPI.Channel_ID interaction) in *.
  set (threadTS := threadOf interaction) in *.
  destruct (storeMessages_count h now1 channelID threadTS slackMessages
              0%Z w) as (added & Hres & _).
  assert (forall msg, In msg (converted h channelID threadTS slackMessages) ->
                      existsb (sameMessage msg) (slack_messages w1) = true)
    as Hall.
  { intros msg Hin. subst w1.
    rewrite (handleCollectContext_run h now1 interaction w Hget Hres).
    cbn [snd slack_messages setThreadEmbeddings].
    now apply (storeMessages_stores h now1 channelID threadTS slackMessages
                 0%Z w). }
  destruct (storeMessages_again h now2 channelID threadTS slackMessages
              0%Z w1 Hall) as (Hres2 & Hlen2 & Hemb).
  subst r. rewrite (handleCollectContext_run h now2 interaction w1 Hget Hres2).
  cbn [fst snd]. split; [reflexivity|]. split; [exact Hlen2|].
  intros Hne e He. destruct (Hemb e He) as [_ Hno].
  destruct (converted h channelID threadTS slackMessages) as [|msg ms] eqn:Ec;
    [now elim Hne|].
  assert (In msg (converted h channelID threadTS slackMessages)) as Hin
    by (rewrite Ec; now left).
  specialize (Hno msg (or_introl eq_refl)).
  assert (ThreadID msg = threadTS) as <-; [|exact Hno].
  clear - Hin. unfold converted in Hin. apply in_flat_map in Hin
    as (m & _ & Hm).
  destruct (convertSlackMessage h m channelID threadTS) as [msg'|] eqn:Hc;
    [|now elim Hm].
  destruct Hm as [<-|[]].
  now destruct (@converted_thread h m channelID threadTS msg' Hc).
Qed.

Lemma collect_again_drops_embeddings_witness :
  let w1 := setThreadEmbeddings
              (snd (handleCollectContext sampleHandler 1734300000
                      sampleAction emptyWorld))
              [mkThreadEmbedding 1 (str "1734277500.000100") 0
                 (str "h") None 0] in
  let r := handleCollectContext sampleHandler 1734300060 sampleAction w1 in
  fst r = inr (completionText 0 3)
  /\ slack_thread_embeddings (snd r) = [].
Proof.
  intros w1 r.
  destruct (@collect_again_drops_embeddings sampleHandler 1734300000
              1734300060 sampleAction sampleThread emptyWorld
              [mkThreadEmbedding 1 (str "1734277500.000100") 0
                 (str "h") None 0] eq_refl) as (Hres & _ & _).
  split; [exact Hres|]. vm_compute. reflexivity.
Defined.

End CollectFacts.
